(** * Hybrid retrieval over the hazardous-chemicals catalogue

    A shallow embedding of [src/retrieval/hybrid_retriever.py] together with
    the parts of [src/database/mysql_handler.py],
    [src/vector_db/chroma_handler.py] and
    [src/data_processing/text_processor.py] that it calls.

    Conventions.
    - A Python [str] is a list of Unicode code points ([pystr]); literals are
      written as UTF-8 text and decoded by [py].
    - A Python [float] score is a rational ([Q]); comparisons are the
      comparisons of [Q], rounding is outside the model.
    - A Python [int] is a [Z]; [xs[:k]] is [py_slice_to k xs].
    - A function whose body sits in [try: ... except Exception:] is a
      computation in the error monad [M] wrapped by [try_except].
    - Dictionaries with a fixed set of keys are records whose optional keys
      are [option] fields; the insertion-ordered [dict] used for
      de-duplication is an association list.
    - The [verbose] flag only prints and is left out. *)

From Stdlib Require Import Ascii String DecimalString.
From Stdlib Require Import List ZArith NArith QArith Qminmax Bool Lia Permutation Sorted.
From Stdlib Require DecimalPos DecimalZ.
Import ListNotations.


Local Open Scope Z_scope.

(* ------------------------------------------------------------------ *)
(** ** Python strings *)

Definition pystr := list N.

(** UTF-8 decoding of a literal, one to four bytes per code point. *)
Fixpoint utf8_decode (bs : list N) : pystr :=
  match bs with
  | [] => []
  | b0 :: r0 =>
    if (b0 <? 128)%N then b0 :: utf8_decode r0
    else match r0 with
    | [] => []
    | b1 :: r1 =>
      if (b0 <? 224)%N then ((b0 - 192) * 64 + (b1 - 128))%N :: utf8_decode r1
      else match r1 with
      | [] => []
      | b2 :: r2 =>
        if (b0 <? 240)%N
        then ((b0 - 224) * 4096 + (b1 - 128) * 64 + (b2 - 128))%N :: utf8_decode r2
        else match r2 with
        | [] => []
        | b3 :: r3 =>
          ((b0 - 240) * 262144 + (b1 - 128) * 4096
           + (b2 - 128) * 64 + (b3 - 128))%N :: utf8_decode r3
        end
      end
    end
  end.

Definition py (s : string) : pystr :=
  utf8_decode (map N_of_ascii (list_ascii_of_string s)).

Definition pystr_eqb (a b : pystr) : bool :=
  if list_eq_dec N.eq_dec a b then true else false.

Fixpoint starts_with (p s : pystr) : bool :=
  match p, s with
  | [], _ => true
  | _ :: _, [] => false
  | a :: p', b :: s' => (a =? b)%N && starts_with p' s'
  end.

(** [sub in s] *)
Fixpoint py_in (sub s : pystr) : bool :=
  starts_with sub s ||
  match s with
  | [] => false
  | _ :: s' => py_in sub s'
  end.

(** [str(n)] for an [int]. *)
Definition py_str_int (n : Z) : pystr :=
  py (DecimalString.NilZero.string_of_int (Z.to_int n)).

(** [sep.join(parts)] *)
Fixpoint py_join (sep : pystr) (parts : list pystr) : pystr :=
  match parts with
  | [] => []
  | [p] => p
  | p :: rest => p ++ sep ++ py_join sep rest
  end.

(** [xs[:k]] with Python's treatment of a negative bound. *)
Definition py_slice_to {A} (k : Z) (xs : list A) : list A :=
  if k <? 0 then firstn (Z.to_nat (Z.of_nat (length xs) + k)) xs
  else firstn (Z.to_nat k) xs.

(* ------------------------------------------------------------------ *)
(** ** The interpreter's tables

    Character classes of the Unicode database, the iteration order of a
    [set] and the string hash are properties of the running interpreter;
    the model takes them as a parameter. *)

Record Runtime := {
  isspace : N -> bool;            (* str.isspace, regex \s *)
  decimal : N -> option Z;        (* value of a decimal digit, regex \d *)
  isalnum : N -> bool;            (* str.isalnum; regex \w adds '_' *)
  isdigit : N -> bool;            (* str.isdigit *)
  py_hash : pystr -> Z;           (* hash(str) *)
  set_iter : list pystr -> list pystr;  (* list(set(xs)) given xs without repeats *)
  set_iter_perm : forall xs, Permutation xs (set_iter xs)
}.

Definition is_dec (rt : Runtime) (c : N) : bool :=
  match decimal rt c with Some _ => true | None => false end.

Definition is_word (rt : Runtime) (c : N) : bool :=
  isalnum rt c || (c =? 95)%N.

Definition py_list_set (rt : Runtime) (xs : list pystr) : list pystr :=
  set_iter rt (nodup (list_eq_dec N.eq_dec) xs).

(** [int(s)] on a string of decimal digits. *)
Definition py_int (rt : Runtime) (s : pystr) : Z :=
  fold_left (fun acc c => 10 * acc + match decimal rt c with Some v => v | None => 0 end) s 0.

(** [s.strip()] *)
Fixpoint lstrip (rt : Runtime) (s : pystr) : pystr :=
  match s with
  | c :: r => if isspace rt c then lstrip rt r else s
  | [] => []
  end.

Definition py_strip (rt : Runtime) (s : pystr) : pystr :=
  rev (lstrip rt (rev (lstrip rt s))).

(** [s.split()]: maximal runs of non-space characters. *)
Fixpoint split_ws (rt : Runtime) (cur : pystr) (s : pystr) : list pystr :=
  match s with
  | [] => match cur with [] => [] | _ => [rev cur] end
  | c :: r =>
    if isspace rt c
    then match cur with [] => split_ws rt [] r | _ => rev cur :: split_ws rt [] r end
    else split_ws rt (c :: cur) r
  end.

Definition py_split (rt : Runtime) (s : pystr) : list pystr := split_ws rt [] s.

(** [s.isdigit()] *)
Definition py_isdigit (rt : Runtime) (s : pystr) : bool :=
  match s with [] => false | _ => forallb (isdigit rt) s end.

(** The tables restricted to ASCII and the CJK unified ideographs, the
    alphabet of the catalogue; used to evaluate the model on examples. *)
Definition ascii_digit (c : N) : bool := (48 <=? c)%N && (c <=? 57)%N.
Definition ascii_alpha (c : N) : bool :=
  ((65 <=? c)%N && (c <=? 90)%N) || ((97 <=? c)%N && (c <=? 122)%N).
Definition cjk_ideograph (c : N) : bool := (19968 <=? c)%N && (c <=? 40959)%N.

Definition cpython : Runtime := {|
  isspace := fun c => ((9 <=? c)%N && (c <=? 13)%N) || ((28 <=? c)%N && (c <=? 32)%N);
  decimal := fun c => if ascii_digit c then Some (Z.of_N c - 48) else None;
  isalnum := fun c => ascii_digit c || ascii_alpha c || cjk_ideograph c;
  isdigit := ascii_digit;
  py_hash := fun s => fold_left (fun h c => (h * 1000003 + Z.of_N c) mod 2 ^ 61) s 0;
  set_iter := fun xs => xs;
  set_iter_perm := fun xs => Permutation_refl xs
|}.

(* ------------------------------------------------------------------ *)
(** ** Exceptions *)

Inductive exn :=
| ValueError (msg : pystr)
| OtherError.

Inductive M (A : Type) :=
| Ok (a : A)
| Raise (e : exn).
Arguments Ok {A} a.
Arguments Raise {A} e.

Definition bind {A B} (m : M A) (f : A -> M B) : M B :=
  match m with
  | Ok a => f a
  | Raise e => Raise e
  end.

Notation "x <- m ;; k" := (bind m (fun x => k))
  (at level 61, m at next level, right associativity).

(** [try: body except Exception: handler] *)
Definition try_except {A} (body : M A) (handler : exn -> M A) : M A :=
  match body with
  | Ok a => Ok a
  | Raise e => handler e
  end.

(** A [for] loop threading an accumulator through a body that may raise. *)
Fixpoint for_each {A S} (xs : list A) (s : S) (body : S -> A -> M S) : M S :=
  match xs with
  | [] => Ok s
  | x :: r => s' <- body s x ;; for_each r s' body
  end.

(* ------------------------------------------------------------------ *)
(** ** Records of the catalogue and search hits *)

(** A row of [hazardous_chemicals_catalog] as [_chemical_to_dict] returns
    it; the two timestamps are never read and are left out. *)
Record Chemical := {
  row_id : Z;
  un_number : Z;
  chinese_name : option pystr;
  english_name : option pystr;
  category : option pystr;
  secondary_hazard : option pystr;
  packaging_group : option pystr;
  special_provisions : option pystr;
  limited_quantity : option pystr;
  excepted_quantity : option pystr;
  packaging_instruction : option pystr;
  packaging_special_provision : option pystr;
  portable_tank_instruction : option pystr;
  portable_tank_special_provision : option pystr
}.

(** The [metadata] dictionary of a document or hit. *)
Record Metadata := {
  source : option pystr;
  doc_type : option pystr;
  md_id : option pystr;
  md_un_number : option pystr;
  search_type : option pystr;
  md_chinese_name : option pystr;
  md_category : option pystr;
  md_packaging_group : option pystr;
  section_id : option Z;
  chunk_id : option Z
}.

Definition empty_metadata : Metadata :=
  {| source := None; doc_type := None; md_id := None; md_un_number := None;
     search_type := None; md_chinese_name := None; md_category := None;
     md_packaging_group := None; section_id := None; chunk_id := None |}.

(** A result dictionary. [distance] and [hit_id] are the keys added by
    [VectorHandler.semantic_search], [hit_search_type] the key
    [_semantic_search] puts beside the metadata, [chemical_data] the key
    [_exact_search] adds. *)
Record Hit := {
  content : pystr;
  metadata : Metadata;
  score : Q;
  distance : option Q;
  hit_id : option pystr;
  hit_search_type : option pystr;
  chemical_data : option Chemical
}.

Record RetrievalResult := {
  r_query : pystr;
  r_chemical_data : list Hit;
  r_regulations : list Hit;
  total_chemicals : option Z;
  total_regulations : option Z
}.

Definition empty_result (query : pystr) : RetrievalResult :=
  {| r_query := query; r_chemical_data := []; r_regulations := [];
     total_chemicals := None; total_regulations := None |}.

(** Equality of dictionaries, as [==] and [in] compute it. *)
Definition option_eqb {A} (eqb : A -> A -> bool) (a b : option A) : bool :=
  match a, b with
  | Some x, Some y => eqb x y
  | None, None => true
  | _, _ => false
  end.

Definition str_opt_eqb := option_eqb pystr_eqb.

Definition chemical_eqb (a b : Chemical) : bool :=
  (row_id a =? row_id b) && (un_number a =? un_number b)
  && str_opt_eqb (chinese_name a) (chinese_name b)
  && str_opt_eqb (english_name a) (english_name b)
  && str_opt_eqb (category a) (category b)
  && str_opt_eqb (secondary_hazard a) (secondary_hazard b)
  && str_opt_eqb (packaging_group a) (packaging_group b)
  && str_opt_eqb (special_provisions a) (special_provisions b)
  && str_opt_eqb (limited_quantity a) (limited_quantity b)
  && str_opt_eqb (excepted_quantity a) (excepted_quantity b)
  && str_opt_eqb (packaging_instruction a) (packaging_instruction b)
  && str_opt_eqb (packaging_special_provision a) (packaging_special_provision b)
  && str_opt_eqb (portable_tank_instruction a) (portable_tank_instruction b)
  && str_opt_eqb (portable_tank_special_provision a) (portable_tank_special_provision b).

Definition metadata_eqb (a b : Metadata) : bool :=
  str_opt_eqb (source a) (source b)
  && str_opt_eqb (doc_type a) (doc_type b)
  && str_opt_eqb (md_id a) (md_id b)
  && str_opt_eqb (md_un_number a) (md_un_number b)
  && str_opt_eqb (search_type a) (search_type b)
  && str_opt_eqb (md_chinese_name a) (md_chinese_name b)
  && str_opt_eqb (md_category a) (md_category b)
  && str_opt_eqb (md_packaging_group a) (md_packaging_group b)
  && option_eqb Z.eqb (section_id a) (section_id b)
  && option_eqb Z.eqb (chunk_id a) (chunk_id b).

Definition hit_eqb (a b : Hit) : bool :=
  pystr_eqb (content a) (content b)
  && metadata_eqb (metadata a) (metadata b)
  && Qeq_bool (score a) (score b)
  && option_eqb Qeq_bool (distance a) (distance b)
  && str_opt_eqb (hit_id a) (hit_id b)
  && str_opt_eqb (hit_search_type a) (hit_search_type b)
  && option_eqb chemical_eqb (chemical_data a) (chemical_data b).

(** [x in xs] for a list of result dictionaries. *)
Definition hit_in (x : Hit) (xs : list Hit) : bool := existsb (hit_eqb x) xs.

Definition Qlt_bool (a b : Q) : bool := negb (Qle_bool b a).

(** [sorted(xs, key=lambda x: x.get('score', 0), reverse=True)]: a stable
    sort, largest score first, equal scores in their original order. *)
Fixpoint insert_by_score (x : Hit) (l : list Hit) : list Hit :=
  match l with
  | [] => [x]
  | y :: l' =>
    if Qlt_bool (score x) (score y) then y :: insert_by_score x l'
    else x :: l
  end.

Fixpoint sort_by_score (xs : list Hit) : list Hit :=
  match xs with
  | [] => []
  | x :: r => insert_by_score x (sort_by_score r)
  end.

(* ------------------------------------------------------------------ *)
(** ** Regular expressions of the retriever *)

Definition word_opt (rt : Runtime) (o : option N) : bool :=
  match o with Some c => is_word rt c | None => false end.

(** [\b] between the character before ([prev]) and the rest of the text. *)
Definition at_boundary (rt : Runtime) (prev : option N) (s : pystr) : bool :=
  xorb (word_opt rt prev) (word_opt rt (hd_error s)).

(** The rest of [\d+\b] once a digit [prev] is consumed: greedy, giving
    digits back until [\b] holds.  Returns the further digits. *)
Fixpoint more_digits (rt : Runtime) (prev : N) (s : pystr) : option pystr :=
  let stop := if at_boundary rt (Some prev) s then Some [] else None in
  match s with
  | c :: r =>
    if is_dec rt c
    then match more_digits rt c r with
         | Some ds => Some (c :: ds)
         | None => stop
         end
    else stop
  | [] => stop
  end.

Definition digits_b (rt : Runtime) (s : pystr) : option pystr :=
  match s with
  | d :: r =>
    if is_dec rt d
    then match more_digits rt d r with Some ds => Some (d :: ds) | None => None end
    else None
  | [] => None
  end.

(** [\s*(\d+)\b]: greedy on the spaces.  Returns the number of spaces
    consumed and the captured digits. *)
Fixpoint spaces_digits (rt : Runtime) (s : pystr) : option (nat * pystr) :=
  let here := match digits_b rt s with Some ds => Some (O, ds) | None => None end in
  match s with
  | c :: r =>
    if isspace rt c
    then match spaces_digits rt r with
         | Some (n, ds) => Some (S n, ds)
         | None => here
         end
    else here
  | [] => here
  end.

Definition is_U (c : N) : bool := (c =? 85)%N || (c =? 117)%N.
Definition is_N (c : N) : bool := (c =? 78)%N || (c =? 110)%N.

(** [\bUN\s*(\d+)\b] at one position, under [re.IGNORECASE]: the capture
    and the length of the match. *)
Definition match_tagged (rt : Runtime) (prev : option N) (s : pystr)
  : option (pystr * nat) :=
  if at_boundary rt prev s then
    match s with
    | u :: n :: r =>
      if is_U u && is_N n
      then match spaces_digits rt r with
           | Some (k, ds) => Some (ds, (2 + k + length ds)%nat)
           | None => None
           end
      else None
    | _ => None
    end
  else None.

(** [\b(\d{4})\b] at one position. *)
Definition match_four (rt : Runtime) (prev : option N) (s : pystr)
  : option (pystr * nat) :=
  if at_boundary rt prev s then
    match s with
    | d1 :: d2 :: d3 :: d4 :: r =>
      if is_dec rt d1 && is_dec rt d2 && is_dec rt d3 && is_dec rt d4
         && at_boundary rt (Some d4) r
      then Some ([d1; d2; d3; d4], 4%nat)
      else None
    | _ => None
    end
  else None.

(** [\bUN\s*(\d+)\b|\b(\d{4})\b] at one position: the first alternative
    that matches. *)
Definition match_un (rt : Runtime) (prev : option N) (s : pystr)
  : option (pystr * nat) :=
  match match_tagged rt prev s with
  | Some m => Some m
  | None => match_four rt prev s
  end.

(** [re.search(r'\bUN\s*\d+\b|\b\d{4}\b', query, re.IGNORECASE)] as a
    truth value. *)
Fixpoint search_un (rt : Runtime) (prev : option N) (s : pystr) : bool :=
  match match_un rt prev s with
  | Some _ => true
  | None =>
    match s with
    | c :: r => search_un rt (Some c) r
    | [] => false
    end
  end.

(** [re.findall(r'\bUN\s*(\d+)\b|\b(\d{4})\b', query, re.IGNORECASE)],
    each tuple already reduced to [match[0] or match[1]].  [skip] counts
    the characters of the last match still to be stepped over. *)
Fixpoint findall_scan (rt : Runtime) (prev : option N) (s : pystr) (skip : nat)
  : list pystr :=
  match s with
  | [] => []
  | c :: r =>
    match skip with
    | S k => findall_scan rt (Some c) r k
    | O =>
      match match_un rt prev s with
      | Some (cap, n) => cap :: findall_scan rt (Some c) r (pred n)
      | None => findall_scan rt (Some c) r O
      end
    end
  end.

Definition findall_un (rt : Runtime) (query : pystr) : list pystr :=
  findall_scan rt None query O.

(** The rest of [(.+?)suffix] once the first character of the group is
    consumed: the shortest extension after which [suffix] follows. *)
Fixpoint lazy_until (suffix : pystr) (s : pystr) : option pystr :=
  if starts_with suffix s then Some []
  else match s with
       | c :: r =>
         if (c =? 10)%N then None
         else match lazy_until suffix r with
              | Some g => Some (c :: g)
              | None => None
              end
       | [] => None
       end.

(** [re.search('(.+?)' + suffix, s).group(1)], if any. *)
Fixpoint search_capture (suffix : pystr) (s : pystr) : option pystr :=
  match s with
  | [] => None
  | c :: r =>
    match (if (c =? 10)%N then None else lazy_until suffix r) with
    | Some g => Some (c :: g)
    | None => search_capture suffix r
    end
  end.

(** [re.search(r'[0-9]{3,}', s)] as a truth value. *)
Fixpoint search_3_digits (s : pystr) : bool :=
  match s with
  | [] => false
  | a :: r =>
    match r with
    | b :: c :: _ => ascii_digit a && ascii_digit b && ascii_digit c
    | _ => false
    end || search_3_digits r
  end.

(* ------------------------------------------------------------------ *)
(** ** MySQLHandler *)

(** The session factory and the two ORM queries are the database's side;
    each may raise. *)
Record MySQLHandler := {
  Session : M unit;
  (* session.query(C).filter(C.un_number == n).all() *)
  select_by_un : Z -> M (list Chemical);
  (* session.query(C).filter(C.chinese_name.like('%name%')).limit(k).all() *)
  select_by_name : pystr -> Z -> M (list Chemical)
}.

Definition query_by_un_number (h : MySQLHandler) (n : Z) : M (list Chemical) :=
  _ <- Session h ;;
  try_except
    (chemicals <- select_by_un h n ;;
     match chemicals with
     | [] => Ok []
     | _ => Ok chemicals
     end)
    (fun _ => Ok []).

Definition search_by_name (h : MySQLHandler) (name : pystr) (limit : Z)
  : M (list Chemical) :=
  _ <- Session h ;;
  try_except (select_by_name h name limit) (fun _ => Ok []).

(** [s LIKE p] as MySQL evaluates it with its default escape character:
    [%] stands for any run of characters, [_] for any one character, and a
    backslash takes the next character of the pattern literally (a
    backslash that ends the pattern stands for itself).  Characters are
    compared exactly, as under a binary collation. *)
Fixpoint sql_like (p s : pystr) : bool :=
  match p with
  | [] => match s with [] => true | _ => false end
  | c :: p' =>
    if (c =? 37)%N then
      (fix any (s : pystr) : bool :=
         sql_like p' s
         || match s with
            | [] => false
            | _ :: s' => any s'
            end) s
    else if (c =? 95)%N then
      match s with
      | [] => false
      | _ :: s' => sql_like p' s'
      end
    else if (c =? 92)%N then
      match p' with
      | [] => match s with [x] => (x =? 92)%N | _ => false end
      | e :: p'' =>
        match s with
        | [] => false
        | x :: s' => (x =? e)%N && sql_like p'' s'
        end
      end
    else
      match s with
      | [] => false
      | x :: s' => (x =? c)%N && sql_like p' s'
      end
  end.

(** [chinese_name LIKE '%name%']: the text of [name] goes into the pattern
    as it is, so a [%], a [_] or a backslash in it is read as a wildcard or
    an escape.  [NULL LIKE p] is not true. *)
Definition name_like (name : pystr) (c : Chemical) : bool :=
  match chinese_name c with
  | Some n => sql_like (py "%" ++ name ++ py "%") n
  | None => false
  end.

(** The rows whose name contains [name] as a plain text. *)
Definition name_contains (name : pystr) (c : Chemical) : bool :=
  match chinese_name c with
  | Some n => py_in name n
  | None => false
  end.

(** A database holding [rows]; a negative [LIMIT] is refused. *)
Definition catalogue (rows : list Chemical) : MySQLHandler := {|
  Session := Ok tt;
  select_by_un := fun n => Ok (filter (fun c => un_number c =? n) rows);
  select_by_name := fun name k =>
    if k <? 0 then Raise OtherError
    else Ok (firstn (Z.to_nat k) (filter (name_like name) rows))
|}.

(** A database whose every access fails. *)
Definition broken_database : MySQLHandler := {|
  Session := Raise OtherError;
  select_by_un := fun _ => Raise OtherError;
  select_by_name := fun _ _ => Raise OtherError
|}.

(* ------------------------------------------------------------------ *)
(** ** TextProcessor and VectorHandler *)

Definition Vec := list Q.

Record SimpleTfidfVectorizer := {
  is_fitted : bool;
  (* self.vectorizer.transform(documents).toarray() *)
  sk_transform : list pystr -> M (list Vec)
}.

Definition transform (v : SimpleTfidfVectorizer) (docs : list pystr)
  : M (list Vec) :=
  if negb (is_fitted v) then Raise (ValueError (py "向量化器尚未训练"))
  else sk_transform v docs.

Record FaissIndex := {
  ntotal : Z;
  (* normalize_L2(q), then the (score, index) pairs of index.search(q, k) *)
  index_search : list Vec -> Z -> M (list (Q * Z))
}.

Record VectorHandler := {
  vectorizer : SimpleTfidfVectorizer;
  index : option FaissIndex;
  documents : list pystr;
  vh_metadata : list Metadata;
  retrieval_top_k : Z
}.

(** One round of the result loop of [semantic_search]. *)
Definition format_result (vh : VectorHandler) (formatted_results : list Hit)
  (p : Q * Z) : M (list Hit) :=
  let (sc, idx) := p in
  if (0 <=? idx) && (idx <? Z.of_nat (length (documents vh))) && Qlt_bool (1 # 10)%Q sc
  then
    match nth_error (documents vh) (Z.to_nat idx),
          nth_error (vh_metadata vh) (Z.to_nat idx) with
    | Some doc, Some md =>
      let result :=
        {| content := doc; metadata := md; score := sc;
           distance := Some (1 - sc)%Q;
           hit_id := Some match md_id md with
                          | Some i => i
                          | None => py "doc_" ++ py_str_int idx
                          end;
           hit_search_type := None; chemical_data := None |} in
      if Qle_bool (1 # 10)%Q sc then Ok (formatted_results ++ [result])
      else Ok formatted_results
    | _, _ => Raise OtherError
    end
  else Ok formatted_results.

Definition semantic_search (vh : VectorHandler) (query : pystr) (top_k : option Z)
  : M (list Hit) :=
  try_except
    (let top_k := match top_k with None => retrieval_top_k vh | Some k => k end in
     match index vh with
     | None => Ok []
     | Some ix =>
       if ntotal ix =? 0 then Ok []
       else if negb (is_fitted (vectorizer vh)) then Ok []
       else
         query_vector <- transform (vectorizer vh) [query] ;;
         found <- index_search ix query_vector (Z.min top_k (ntotal ix)) ;;
         for_each found [] (format_result vh)
     end)
    (fun _ => Ok []).

(** [process_markdown_content]: the chunks of the sections, those longer
    than 50 characters once stripped, with their metadata.  [sections] is
    the result of [_split_by_sections] on the cleaned text and [chunks] is
    [_split_text_into_chunks]. *)
Definition regulation_metadata (i j : Z) : Metadata :=
  {| source := Some (py "appendix_a"); doc_type := Some (py "regulation");
     md_id := None; md_un_number := None; search_type := None;
     md_chinese_name := None; md_category := None; md_packaging_group := None;
     section_id := Some i; chunk_id := Some j |}.

Fixpoint enumerate {A} (i : Z) (xs : list A) : list (Z * A) :=
  match xs with
  | [] => []
  | x :: r => (i, x) :: enumerate (i + 1) r
  end.

Definition process_markdown_content (rt : Runtime)
  (chunks : pystr -> list pystr) (sections : list pystr)
  : list (pystr * Metadata) :=
  flat_map
    (fun '(i, section) =>
       match py_strip rt section with
       | [] => []
       | _ =>
         flat_map
           (fun '(j, chunk) =>
              if 50 <? Z.of_nat (length (py_strip rt chunk))
              then [(py_strip rt chunk, regulation_metadata i j)]
              else [])
           (enumerate 0 (chunks section))
       end)
    (enumerate 0 sections).

(** The documents and metadata [import_markdown_data] hands to
    [_add_documents_batch]. *)
Definition markdown_id (md : Metadata) : pystr :=
  py "appendix_"
  ++ match section_id md with Some i => py_str_int i | None => [] end
  ++ py "_"
  ++ match chunk_id md with Some j => py_str_int j | None => [] end.

Definition markdown_batch (docs : list (pystr * Metadata))
  : list (pystr * Metadata) :=
  map (fun '(c, md) =>
         (c, {| source := source md; doc_type := doc_type md;
                md_id := Some (markdown_id md);
                md_un_number := md_un_number md; search_type := search_type md;
                md_chinese_name := md_chinese_name md;
                md_category := md_category md;
                md_packaging_group := md_packaging_group md;
                section_id := section_id md; chunk_id := chunk_id md |}))
      docs.

(** The metadata [import_mysql_data] builds for a catalogue row. *)
Definition mysql_metadata (chemical : Chemical) : Metadata :=
  {| source := Some (py "mysql"); doc_type := Some (py "chemical");
     md_id := Some (py "chemical_" ++ py_str_int (un_number chemical));
     md_un_number := Some (py_str_int (un_number chemical));
     search_type := None;
     md_chinese_name := chinese_name chemical;
     md_category := category chemical;
     md_packaging_group := packaging_group chemical;
     section_id := None; chunk_id := None |}.

(* ------------------------------------------------------------------ *)
(** ** HybridRetriever *)

Record HybridRetriever := {
  mysql_handler : MySQLHandler;
  vector_handler : VectorHandler;
  (* self.config['similarity_threshold'] *)
  similarity_threshold : Q
}.

Definition chemical_keywords : list pystr :=
  [py "化学品"; py "物质"; py "液体"; py "固体"; py "气体";
   py "电池"; py "酸"; py "碱"; py "醇"; py "醚"].

Definition _detect_query_type (rt : Runtime) (query : pystr) : pystr :=
  if search_un rt None query then py "un_number"
  else if existsb (fun keyword => py_in keyword query) chemical_keywords
  then py "name_search"
  else py "natural_language".

Definition _expand_search_terms (rt : Runtime) (query : pystr) : list pystr :=
  let battery :=
    if py_in (py "锂电池") query
    then [py "锂离子电池"; py "锂金属电池"; py "锂合金电池"]
    else if py_in (py "电池") query && py_in (py "锂") query
    then [py "锂离子电池"; py "锂金属电池"]
    else if py_in (py "电池") query
    then [py "锂离子电池"; py "锂金属电池"; py "电池"]
    else [] in
  let hazard :=
    if py_in (py "易燃") query
    then [py "易燃液体"; py "易燃固体"; py "易燃气体"]
    else if py_in (py "腐蚀") query
    then [py "腐蚀性物质"; py "腐蚀性液体"]
    else if py_in (py "有毒") query
    then [py "有毒物质"; py "毒性物质"]
    else [] in
  py_list_set rt (battery ++ hazard).

(** The value shown for a field: [null] when it is [None], empty or
    blank. *)
Definition display_value (rt : Runtime) (value : option pystr) : pystr :=
  match value with
  | None => py "null"
  | Some v => match py_strip rt v with [] => py "null" | _ => v end
  end.

Definition _format_chemical_content (rt : Runtime) (chemical : Chemical) : pystr :=
  let field_mappings :=
    [(py "联合国编号", Some (py_str_int (un_number chemical)));
     (py "名称和说明", chinese_name chemical);
     (py "英文名称和说明", english_name chemical);
     (py "类别或项别", category chemical);
     (py "次要危险性", secondary_hazard chemical);
     (py "包装类别", packaging_group chemical);
     (py "特殊规定", special_provisions chemical);
     (py "有限数量", limited_quantity chemical);
     (py "例外数量", excepted_quantity chemical);
     (py "包装和中型散装容器包装指南", packaging_instruction chemical);
     (py "包装和中型散装容器特殊包装规定", packaging_special_provision chemical);
     (py "可移动罐柜和散装容器指南", portable_tank_instruction chemical);
     (py "可移动罐柜和散装容器特殊规定", portable_tank_special_provision chemical)] in
  py_join [10%N]
    (map (fun '(display_name, value) =>
            display_name ++ py ": " ++ display_value rt value)
         field_mappings).

(** The hit [_exact_search] builds for a catalogue row. *)
Definition exact_hit (rt : Runtime) (kind : pystr) (sc : Q) (chemical : Chemical)
  : Hit :=
  {| content := _format_chemical_content rt chemical;
     metadata :=
       {| source := Some (py "mysql"); doc_type := Some (py "chemical");
          md_id := None;
          md_un_number := Some (py_str_int (un_number chemical));
          search_type := Some kind;
          md_chinese_name := None; md_category := None;
          md_packaging_group := None; section_id := None; chunk_id := None |};
     score := sc; distance := None; hit_id := None; hit_search_type := None;
     chemical_data := Some chemical |}.

(** The keyword-expansion loop of [_exact_search], with its [break]. *)
Fixpoint expand_loop (h : MySQLHandler) (top_k : Z) (expanded_queries : list pystr)
  (chemicals : list Chemical) : M (list Chemical) :=
  match expanded_queries with
  | [] => Ok chemicals
  | expanded_query :: rest =>
    more <- search_by_name h expanded_query top_k ;;
    let chemicals := chemicals ++ more in
    if top_k <=? Z.of_nat (length chemicals) then Ok chemicals
    else expand_loop h top_k rest chemicals
  end.

(** The hits of the identifier branch: every row of every extracted
    number, in extraction order. *)
Definition un_hits (rt : Runtime) (h : MySQLHandler) (un_numbers : list pystr)
  : M (list Hit) :=
  for_each un_numbers []
    (fun results m =>
       chemicals <- query_by_un_number h (py_int rt m) ;;
       Ok (results ++ map (exact_hit rt (py "exact_un") 1) chemicals)).

(** The hits of the name branch. *)
Definition name_hits (rt : Runtime) (h : MySQLHandler) (query : pystr) (top_k : Z)
  : M (list Hit) :=
  chemicals <- search_by_name h query top_k ;;
  chemicals <-
    match chemicals with
    | [] => expand_loop h top_k (_expand_search_terms rt query) []
    | _ => Ok chemicals
    end ;;
  Ok (map (exact_hit rt (py "exact_name") (9 # 10)) (py_slice_to top_k chemicals)).

Definition _exact_search (rt : Runtime) (self : HybridRetriever)
  (query : pystr) (top_k : Z) : M (list Hit) :=
  try_except
    (let un_numbers := findall_un rt query in
     results <-
       match un_numbers with
       | [] => Ok []
       | _ =>
         (* the counting pass that feeds the verbose message *)
         _ <- for_each un_numbers 0
                (fun total_found m =>
                   chemicals <- query_by_un_number (mysql_handler self) (py_int rt m) ;;
                   Ok (total_found + Z.of_nat (length chemicals))) ;;
         un_hits rt (mysql_handler self) un_numbers
       end ;;
     results <-
       match results with
       | [] => name_hits rt (mysql_handler self) query top_k
       | _ => Ok results
       end ;;
     Ok (py_slice_to top_k results))
    (fun _ => Ok []).

(** The hit [_semantic_search] keeps for an index result, if any. *)
Definition semantic_hit (threshold : Q) (result : Hit) : list Hit :=
  let d := match distance result with Some d => d | None => 1%Q end in
  let similarity_score := Qmax 0 (1 - d) in
  if Qle_bool threshold similarity_score
  then [{| content := content result; metadata := metadata result;
           score := similarity_score; distance := None; hit_id := None;
           hit_search_type := Some (py "semantic"); chemical_data := None |}]
  else [].

Definition _semantic_search (self : HybridRetriever) (query : pystr) (top_k : Z)
  : M (list Hit) :=
  try_except
    (vector_results <- semantic_search (vector_handler self) query (Some top_k) ;;
     Ok (flat_map (semantic_hit (similarity_threshold self)) vector_results))
    (fun _ => Ok []).

(** The de-duplication key of [_merge_results]. *)
Definition packaging_text (chemical : Chemical) : pystr :=
  match packaging_group chemical with
  | Some g => g
  | None => py "None"
  end.

Definition chemical_key (chemical : Chemical) : pystr :=
  py "un_" ++ py_str_int (un_number chemical) ++ py "_pkg_" ++ packaging_text chemical.

Definition document_key (rt : Runtime) (result : Hit) : pystr :=
  match md_id (metadata result) with
  | Some i => i
  | None => py_str_int (py_hash rt (content result))
  end.

Definition merge_key (rt : Runtime) (result : Hit) : pystr :=
  match chemical_data result with
  | Some chemical => chemical_key chemical
  | None => document_key rt result
  end.

(** The insertion-ordered dictionary [merged]. *)
Definition dict := list (pystr * Hit).

Fixpoint dict_get (k : pystr) (d : dict) : option Hit :=
  match d with
  | [] => None
  | (k', v) :: d' => if pystr_eqb k' k then Some v else dict_get k d'
  end.

Fixpoint dict_set (k : pystr) (v : Hit) (d : dict) : dict :=
  match d with
  | [] => [(k, v)]
  | (k', v') :: d' =>
    if pystr_eqb k' k then (k', v) :: d' else (k', v') :: dict_set k v d'
  end.

Definition dict_values (d : dict) : list Hit := map snd d.

(** One round of the loop of [_merge_results]: a hit enters under a new
    key, or replaces the hit kept under its key when its score is
    strictly higher. *)
Definition merge_step (rt : Runtime) (merged : dict) (result : Hit) : dict :=
  let key := merge_key rt result in
  match dict_get key merged with
  | None => dict_set key result merged
  | Some kept =>
    if Qlt_bool (score kept) (score result) then dict_set key result merged
    else merged
  end.

Definition _merge_results (rt : Runtime) (results1 results2 : list Hit)
  : M (list Hit) :=
  try_except
    (let merged := fold_left (merge_step rt) (results1 ++ results2) [] in
     Ok (sort_by_score (dict_values merged)))
    (fun _ => Ok (results1 ++ results2)).

Definition _hybrid_search (rt : Runtime) (self : HybridRetriever)
  (query : pystr) (top_k : Z) : M (list Hit) :=
  try_except
    (exact_results <- _exact_search rt self query (top_k / 2 + 1) ;;
     semantic_results <- _semantic_search self query (top_k / 2 + 1) ;;
     combined_results <- _merge_results rt exact_results semantic_results ;;
     Ok (py_slice_to top_k combined_results))
    (fun _ => Ok []).

Definition _auto_search (rt : Runtime) (self : HybridRetriever)
  (query : pystr) (top_k : Z) : M (list Hit) :=
  try_except
    (let query_type := _detect_query_type rt query in
     if pystr_eqb query_type (py "un_number") then _exact_search rt self query top_k
     else if pystr_eqb query_type (py "name_search")
     then _hybrid_search rt self query top_k
     else
       semantic_results <- _semantic_search self query top_k ;;
       if Z.of_nat (length semantic_results) <? top_k then
         exact_results <-
           _exact_search rt self query (top_k - Z.of_nat (length semantic_results)) ;;
         combined_results <- _merge_results rt semantic_results exact_results ;;
         Ok (py_slice_to top_k combined_results)
       else Ok semantic_results)
    (fun _ => Ok []).

(** The inner loop shared by the tiers of [_find_related_regulations]:
    append each regulation of the appendix not yet collected and raise
    [found_specific]. *)
Definition from_appendix (reg : Hit) : bool :=
  str_opt_eqb (source (metadata reg)) (Some (py "appendix_a")).

Definition accept_regulations (st : list Hit * bool) (regulations : list Hit)
  : list Hit * bool :=
  fold_left
    (fun '(related_regulations, found_specific) reg =>
       if from_appendix reg && negb (hit_in reg related_regulations)
       then (related_regulations ++ [reg], true)
       else (related_regulations, found_specific))
    regulations st.

(** The truth value of an optional text: present and not empty. *)
Definition truthy_str (o : option pystr) : bool :=
  match o with
  | Some (_ :: _) => true
  | _ => false
  end.

Definition name_terms (name : pystr) : list pystr :=
  (if py_in (py "电池") name then [py "电池"; py "锂电池"; py "锂离子"] else [])
  ++ (if py_in (py "黏合剂") name || py_in (py "胶") name
      then [py "黏合剂"; py "胶水"; py "胶"] else [])
  ++ (if py_in (py "汽油") name then [py "汽油"; py "燃料"] else [])
  ++ (if py_in (py "乙醇") name then [py "乙醇"; py "酒精"] else []).

(** Tier 1: the numeric special provisions of one chemical. *)
Definition provision_tier (rt : Runtime) (vh : VectorHandler)
  (st : list Hit * bool) (info : Chemical) : M (list Hit * bool) :=
  if truthy_str (special_provisions info) then
    for_each
      (py_split rt match special_provisions info with Some s => s | None => [] end)
      st
      (fun st provision =>
         if py_isdigit rt provision then
           regulations <- semantic_search vh provision (Some 5) ;;
           Ok (accept_regulations st regulations)
         else Ok st)
  else Ok st.

(** One round of the loop over the chemicals. *)
Definition related_for_chemical (rt : Runtime) (vh : VectorHandler)
  (st : list Hit * bool) (chemical : Hit) : M (list Hit * bool) :=
  match chemical_data chemical with
  | None => Ok st
  | Some info =>
    st <- provision_tier rt vh st info ;;
    if snd st then Ok st
    else
      st <-
        (if negb (un_number info =? 0) then
           regulations <- semantic_search vh (py_str_int (un_number info)) (Some 3) ;;
           Ok (accept_regulations st regulations)
         else Ok st) ;;
      if negb (snd st) && truthy_str (chinese_name info) then
        for_each
          (firstn 3 (name_terms match chinese_name info with Some s => s | None => [] end))
          st
          (fun st term =>
             regulations <- semantic_search vh term (Some 3) ;;
             Ok (accept_regulations st regulations))
      else Ok st
  end.

(** The loop over the chemicals: the regulations collected and
    [found_specific]. *)
Definition specific_tiers (rt : Runtime) (vh : VectorHandler) (chemicals : list Hit)
  : M (list Hit * bool) :=
  for_each chemicals ([], false) (related_for_chemical rt vh).

Definition chemical_categories (chemicals : list Hit) : list pystr :=
  flat_map
    (fun chemical =>
       match chemical_data chemical with
       | Some info =>
         if truthy_str (category info)
         then match category info with Some c => [c] | None => [] end
         else []
       | None => []
       end)
    chemicals.

(** The category fallback. *)
Definition category_tier (rt : Runtime) (vh : VectorHandler) (chemicals : list Hit)
  (related_regulations : list Hit) : M (list Hit) :=
  for_each
    (flat_map (fun category => [py "第" ++ category ++ py "类"; py "类别" ++ category])
              (firstn 2 (py_list_set rt (chemical_categories chemicals))))
    related_regulations
    (fun related term =>
       regulations <- semantic_search vh term (Some 2) ;;
       Ok (fst (accept_regulations (related, false) regulations))).

Definition _find_related_regulations (rt : Runtime) (self : HybridRetriever)
  (chemicals : list Hit) (query : pystr) : M (list Hit) :=
  try_except
    (st <- specific_tiers rt (vector_handler self) chemicals ;;
     related_regulations <-
       (if negb (snd st)
        then category_tier rt (vector_handler self) chemicals (fst st)
        else Ok (fst st)) ;;
     Ok (py_slice_to 3 (sort_by_score related_regulations)))
    (fun _ => Ok []).

(** One round of the loop of [_merge_regulations]: the first regulation
    seen under an id stays. *)
Definition keep_first (rt : Runtime) (merged : dict) (reg : Hit) : dict :=
  let reg_id := document_key rt reg in
  match dict_get reg_id merged with
  | None => dict_set reg_id reg merged
  | Some _ => merged
  end.

Definition _merge_regulations (rt : Runtime) (regulations1 regulations2 : list Hit)
  : M (list Hit) :=
  try_except
    (let merged :=
       fold_left (keep_first rt) regulations2
         (fold_left (keep_first rt) regulations1 []) in
     Ok (sort_by_score (dict_values merged)))
    (fun _ => Ok (regulations1 ++ regulations2)).

(** [result.get('metadata', {}).get('doc_type') == t] *)
Definition has_doc_type (t : pystr) (result : Hit) : bool :=
  str_opt_eqb (doc_type (metadata result)) (Some t).

Definition _build_structured_result (rt : Runtime) (self : HybridRetriever)
  (basic_results : list Hit) (query : pystr) : M RetrievalResult :=
  try_except
    (let chemicals := filter (has_doc_type (py "chemical")) basic_results in
     let regulations := filter (has_doc_type (py "regulation")) basic_results in
     related_regulations <- _find_related_regulations rt self chemicals query ;;
     all_regulations <- _merge_regulations rt regulations related_regulations ;;
     Ok {| r_query := query;
           r_chemical_data := chemicals;
           r_regulations := all_regulations;
           total_chemicals := Some (Z.of_nat (length chemicals));
           total_regulations := Some (Z.of_nat (length all_regulations)) |})
    (fun _ => Ok (empty_result query)).

Definition name_patterns : list pystr :=
  [py "存储要求"; py "储存要求"; py "保存要求";
   py "的存储要求"; py "的储存要求"; py "的保存要求";
   py "运输要求"; py "的运输要求";
   py "安全要求"; py "的安全要求";
   py "包装要求"; py "的包装要求";
   py "危险性"; py "的危险性";
   py "注意事项"; py "的注意事项";
   py "规定"; py "的规定"].

(** Remove repeats, keeping the first occurrence of each name. *)
Fixpoint unique (seen : list pystr) (names : list pystr) : list pystr :=
  match names with
  | [] => []
  | name :: rest =>
    if existsb (pystr_eqb name) seen then unique seen rest
    else name :: unique (name :: seen) rest
  end.

Definition _extract_chemical_names (rt : Runtime) (query : pystr) : list pystr :=
  let chemical_names :=
    flat_map
      (fun suffix =>
         match search_capture suffix query with
         | Some g =>
           let name := py_strip rt g in
           if (2 <=? Z.of_nat (length name)) && negb (search_3_digits name)
           then [name] else []
         | None => []
         end)
      name_patterns in
  firstn 3 (unique [] chemical_names).

Definition _fallback_search (rt : Runtime) (self : HybridRetriever)
  (query : pystr) (top_k : Z) : M RetrievalResult :=
  try_except
    (match _extract_chemical_names rt query with
     | [] => Ok (empty_result query)
     | chemical_names =>
       all_results <-
         for_each chemical_names []
           (fun all_results name =>
              results <- _hybrid_search rt self name top_k ;;
              Ok (all_results ++ results)) ;;
       match all_results with
       | [] => Ok (empty_result query)
       | _ => _build_structured_result rt self all_results query
       end
     end)
    (fun _ => Ok (empty_result query)).

(** [not xs] for a list. *)
Definition is_empty {A} (xs : list A) : bool :=
  match xs with [] => true | _ => false end.

(** The dispatch on [strategy] at the head of [retrieve]. *)
Definition basic_search (rt : Runtime) (self : HybridRetriever)
  (query strategy : pystr) (top_k : Z) : M (list Hit) :=
  if pystr_eqb strategy (py "exact") then _exact_search rt self query top_k
  else if pystr_eqb strategy (py "semantic") then _semantic_search self query top_k
  else if pystr_eqb strategy (py "hybrid") then _hybrid_search rt self query top_k
  else _auto_search rt self query top_k.

Definition retrieve (rt : Runtime) (self : HybridRetriever)
  (query strategy : pystr) (top_k : Z) : M RetrievalResult :=
  try_except
    (basic_results <- basic_search rt self query strategy top_k ;;
     structured_result <- _build_structured_result rt self basic_results query ;;
     if is_empty (r_chemical_data structured_result)
        && is_empty (r_regulations structured_result)
     then
       fallback_result <- _fallback_search rt self query top_k ;;
       if negb (is_empty (r_chemical_data fallback_result))
          || negb (is_empty (r_regulations fallback_result))
       then Ok fallback_result
       else Ok structured_result
     else Ok structured_result)
    (fun _ => Ok (empty_result query)).

(** Hybrid Search as section 4.4 of the specification words it, with the
    cap [ceil(top_k/2)+1]; compared with [_hybrid_search] below. *)
Definition ceil_half (top_k : Z) : Z := - ((- top_k) / 2).

Definition hybrid_search_spec (rt : Runtime) (self : HybridRetriever)
  (query : pystr) (top_k : Z) : M (list Hit) :=
  exact_results <- _exact_search rt self query (ceil_half top_k + 1) ;;
  semantic_results <- _semantic_search self query (ceil_half top_k + 1) ;;
  combined_results <- _merge_results rt exact_results semantic_results ;;
  Ok (py_slice_to top_k combined_results).

(* ------------------------------------------------------------------ *)
(** ** Building the index *)

(** [create_chemical_document] *)
Definition ends_with (suffix s : pystr) : bool :=
  starts_with (rev suffix) (rev s).

Definition create_chemical_document (chemical_record : Chemical) : pystr :=
  let part label value :=
    if truthy_str value
    then [py label ++ match value with Some v => v | None => [] end]
    else [] in
  let text_parts :=
    (if negb (un_number chemical_record =? 0)
     then [py "联合国编号：UN" ++ py_str_int (un_number chemical_record)] else [])
    ++ part "中文名称："%string (chinese_name chemical_record)
    ++ part "英文名称："%string (english_name chemical_record)
    ++ part "危险类别："%string (category chemical_record)
    ++ part "次要危险性："%string (secondary_hazard chemical_record)
    ++ part "包装类别："%string (packaging_group chemical_record)
    ++ part "特殊规定："%string (special_provisions chemical_record)
    ++ part "有限数量："%string (limited_quantity chemical_record)
    ++ part "例外数量："%string (excepted_quantity chemical_record)
    ++ part "包装指南："%string (packaging_instruction chemical_record)
    ++ part "包装特殊规定："%string (packaging_special_provision chemical_record)
    ++ part "罐柜指南："%string (portable_tank_instruction chemical_record)
    ++ part "罐柜特殊规定："%string (portable_tank_special_provision chemical_record) in
  py_join (py " | ")
    (filter (fun p => negb (is_empty p) && negb (ends_with (py "：") p)) text_parts).

(** The documents and metadata [import_mysql_data] hands to
    [_add_documents_batch]. *)
Definition mysql_batch (chemicals : list Chemical) : list (pystr * Metadata) :=
  flat_map
    (fun chemical =>
       match create_chemical_document chemical with
       | [] => []
       | doc_text => [(doc_text, mysql_metadata chemical)]
       end)
    chemicals.

(** The library calls of [_add_documents_batch]; each may raise. *)
Record Indexer := {
  (* TfidfVectorizer.fit_transform: the fitted transform and the vectors *)
  sk_fit_transform : list pystr -> M ((list pystr -> M (list Vec)) * list Vec);
  (* faiss.IndexFlatIP(dimension) *)
  flat_ip : list Vec -> M FaissIndex;
  (* normalize_L2(vectors); index.add(vectors) *)
  index_add : FaissIndex -> list Vec -> M FaissIndex;
  save_index : VectorHandler -> M unit
}.

(** [_add_documents_batch]: the handler as the call leaves it, and
    whether the call raised. *)
Definition _add_documents_batch (ix : Indexer) (vh : VectorHandler)
  (batch : list (pystr * Metadata)) : VectorHandler * M unit :=
  let with_index vh vz i :=
    {| vectorizer := vz; index := i; documents := documents vh;
       vh_metadata := vh_metadata vh; retrieval_top_k := retrieval_top_k vh |} in
  let add vh vz (i : FaissIndex) vectors :=
    match index_add ix i vectors with
    | Raise e => (with_index vh vz (Some i), Raise e)
    | Ok i' =>
      let vh' :=
        {| vectorizer := vz; index := Some i';
           documents := documents vh ++ map fst batch;
           vh_metadata := vh_metadata vh ++ map snd batch;
           retrieval_top_k := retrieval_top_k vh |} in
      (vh', save_index ix vh')
    end in
  match index vh with
  | None =>
    match sk_fit_transform ix (map fst batch) with
    | Raise e => (vh, Raise e)
    | Ok (tr, vectors) =>
      let vz := {| is_fitted := true; sk_transform := tr |} in
      match flat_ip ix vectors with
      | Raise e => (with_index vh vz None, Raise e)
      | Ok i => add vh vz i vectors
      end
    end
  | Some i =>
    match transform (vectorizer vh) (map fst batch) with
    | Raise e => (vh, Raise e)
    | Ok vectors => add vh (vectorizer vh) i vectors
    end
  end.

(** [import_mysql_data] and [import_markdown_data], given the rows read
    and the chunks cut: the handler afterwards and the returned flag. *)
Definition import_batch (ix : Indexer) (vh : VectorHandler)
  (batch : list (pystr * Metadata)) : VectorHandler * bool :=
  match batch with
  | [] => (vh, true)
  | _ =>
    match _add_documents_batch ix vh batch with
    | (vh', Ok _) => (vh', true)
    | (vh', Raise _) => (vh', false)
    end
  end.

Definition import_mysql_data (ix : Indexer) (vh : VectorHandler)
  (chemicals : list Chemical) : VectorHandler * bool :=
  match chemicals with
  | [] => (vh, false)
  | _ => import_batch ix vh (mysql_batch chemicals)
  end.

Definition import_markdown_data (rt : Runtime) (ix : Indexer) (vh : VectorHandler)
  (chunks : pystr -> list pystr) (sections : list pystr) : VectorHandler * bool :=
  match process_markdown_content rt chunks sections with
  | [] => (vh, false)
  | documents_data => import_batch ix vh (markdown_batch documents_data)
  end.

(** The metadata of a chunk of the regulation corpus once indexed. *)
Definition corpus_metadata (i j : Z) : Metadata :=
  {| source := Some (py "appendix_a"); doc_type := Some (py "regulation");
     md_id := Some (py "appendix_" ++ py_str_int i ++ py "_" ++ py_str_int j);
     md_un_number := None; search_type := None;
     md_chinese_name := None; md_category := None; md_packaging_group := None;
     section_id := Some i; chunk_id := Some j |}.

(** Every entry of the index was written by one of the two imports. *)
Definition imported (md : Metadata) : Prop :=
  (exists chemical, md = mysql_metadata chemical)
  \/ (exists i j, md = corpus_metadata i j).

Definition store_ok (vh : VectorHandler) : Prop :=
  Forall imported (vh_metadata vh).

(* ------------------------------------------------------------------ *)
(** ** A small catalogue and index, for evaluating the model *)

Definition row (i n : Z) (name : pystr) (group provisions : option pystr) : Chemical :=
  {| row_id := i; un_number := n; chinese_name := Some name; english_name := None;
     category := Some (py "3"); secondary_hazard := None;
     packaging_group := group; special_provisions := provisions;
     limited_quantity := None; excepted_quantity := None;
     packaging_instruction := None; packaging_special_provision := None;
     portable_tank_instruction := None; portable_tank_special_provision := None |}.

Definition adhesive_I := row 1 1133 (py "黏合剂，含易燃液体") (Some (py "I")) None.
Definition adhesive_II := row 2 1133 (py "黏合剂，含易燃液体") (Some (py "II")) None.
Definition adhesive_III := row 3 1133 (py "黏合剂，含易燃液体") (Some (py "III")) (Some (py "A3 223")).
Definition adhesive_none := row 4 1133 (py "黏合剂，含易燃液体") None None.
Definition adhesive_None := row 5 1133 (py "黏合剂，含易燃液体") (Some (py "None")) None.
Definition battery := row 6 3480 (py "锂离子电池") None (Some (py "188 230 A88")).

Definition sample_rows : list Chemical :=
  [adhesive_I; adhesive_II; adhesive_III; adhesive_none; battery].

(** An index of three regulation chunks that answers every query with the
    same three similarities. *)
Definition sample_index : FaissIndex :=
  {| ntotal := 3;
     index_search := fun _ k =>
       if k <=? 0 then Raise OtherError
       else Ok (firstn (Z.to_nat k) [((4 # 5)%Q, 0); ((1 # 2)%Q, 1); ((1 # 20)%Q, 2)]) |}.

Definition sample_store : VectorHandler :=
  {| vectorizer := {| is_fitted := true; sk_transform := fun docs => Ok (map (fun _ => [1%Q]) docs) |};
     index := Some sample_index;
     documents := [py "188 lithium cells"; py "223 viscous liquids"; py "general"];
     vh_metadata := [corpus_metadata 0 0; corpus_metadata 1 0; corpus_metadata 2 0];
     retrieval_top_k := 50 |}.

(** The same store before any document was added. *)
Definition untrained_store : VectorHandler :=
  {| vectorizer := {| is_fitted := false; sk_transform := fun _ => Raise OtherError |};
     index := None; documents := []; vh_metadata := []; retrieval_top_k := 50 |}.

(** An index file present while the vectorizer was never fitted. *)
Definition unfitted_store : VectorHandler :=
  {| vectorizer := {| is_fitted := false; sk_transform := fun _ => Raise OtherError |};
     index := Some sample_index;
     documents := documents sample_store;
     vh_metadata := vh_metadata sample_store; retrieval_top_k := 50 |}.

Definition sample_retriever : HybridRetriever :=
  {| mysql_handler := catalogue sample_rows; vector_handler := sample_store;
     similarity_threshold := (1 # 10)%Q |}.

Definition offline_retriever : HybridRetriever :=
  {| mysql_handler := broken_database; vector_handler := sample_store;
     similarity_threshold := (1 # 10)%Q |}.

(** Neither the store nor the index can answer. *)
Definition unreachable_retriever : HybridRetriever :=
  {| mysql_handler := broken_database; vector_handler := untrained_store;
     similarity_threshold := (1 # 10)%Q |}.

Definition catalogue_only (rows : list Chemical) : HybridRetriever :=
  {| mysql_handler := catalogue rows; vector_handler := untrained_store;
     similarity_threshold := (1 # 10)%Q |}.

(** The hit [_semantic_search] returns for the index entry of a catalogue
    row. *)
Definition indexed_hit (chemical : Chemical) (sc : Q) : Hit :=
  {| content := create_chemical_document chemical;
     metadata := mysql_metadata chemical;
     score := sc; distance := None; hit_id := None;
     hit_search_type := Some (py "semantic"); chemical_data := None |}.

(* ------------------------------------------------------------------ *)
(** ** Statistics and reset of the index *)

(** The counting dictionaries of [get_collection_stats]. *)
Definition counter := list (pystr * Z).

(** [d.get(k, 0)] *)
Fixpoint counter_get (k : pystr) (d : counter) : Z :=
  match d with
  | [] => 0
  | (k', v) :: d' => if pystr_eqb k' k then v else counter_get k d'
  end.

(** [d[k] = v] *)
Fixpoint counter_set (k : pystr) (v : Z) (d : counter) : counter :=
  match d with
  | [] => [(k, v)]
  | (k', v') :: d' =>
    if pystr_eqb k' k then (k', v) :: d' else (k', v') :: counter_set k v d'
  end.

(** [d[k] = d.get(k, 0) + 1] *)
Definition tally (d : counter) (k : pystr) : counter :=
  counter_set k (counter_get k d + 1) d.

(** [metadata.get(key, 'unknown')] *)
Definition or_unknown (value : option pystr) : pystr :=
  match value with
  | Some v => v
  | None => py "unknown"
  end.

Record CollectionStats := {
  total_documents : Z;
  collection_name : pystr;
  embedding_model : pystr;
  doc_types : counter;
  sources : counter;
  index_size : Z
}.

(** [get_collection_stats], given the two names of the configuration. *)
Definition get_collection_stats (config_collection_name config_embedding_model : pystr)
  (vh : VectorHandler) : CollectionStats :=
  let total_docs := Z.of_nat (length (documents vh)) in
  let counted :=
    fold_left
      (fun '(doc_types, sources) metadata =>
         let doc_type := or_unknown (doc_type metadata) in
         let source := or_unknown (source metadata) in
         (tally doc_types doc_type, tally sources source))
      (vh_metadata vh) ([], []) in
  {| total_documents := total_docs;
     collection_name := config_collection_name;
     embedding_model := config_embedding_model;
     doc_types := fst counted;
     sources := snd counted;
     index_size := match index vh with Some ix => ntotal ix | None => 0 end |}.

(** The four files of the index directory: absent, or what loading the
    file gives. *)
Record Disk := {
  index_file : option (M FaissIndex);              (* faiss.read_index *)
  metadata_file : option (M (list Metadata));      (* json.load *)
  documents_file : option (M (list pystr));        (* pickle.load *)
  vectorizer_file : option (M SimpleTfidfVectorizer)  (* pickle.load *)
}.

(** [os.path.exists] *)
Definition path_exists {A} (file : option A) : bool :=
  match file with Some _ => true | None => false end.

(** [_load_or_create_index]: the handler as the call leaves it, and
    whether the call raised. *)
Definition _load_or_create_index (disk : Disk) (vh : VectorHandler)
  : VectorHandler * M unit :=
  match index_file disk, metadata_file disk, documents_file disk,
        vectorizer_file disk with
  | Some read_index, Some load_metadata, Some load_documents, Some load_vectorizer =>
    match read_index with
    | Raise e => (vh, Raise e)
    | Ok i =>
      let vh :=
        {| vectorizer := vectorizer vh; index := Some i; documents := documents vh;
           vh_metadata := vh_metadata vh; retrieval_top_k := retrieval_top_k vh |} in
      match load_metadata with
      | Raise e => (vh, Raise e)
      | Ok metadata =>
        let vh :=
          {| vectorizer := vectorizer vh; index := index vh; documents := documents vh;
             vh_metadata := metadata; retrieval_top_k := retrieval_top_k vh |} in
        match load_documents with
        | Raise e => (vh, Raise e)
        | Ok docs =>
          let vh :=
            {| vectorizer := vectorizer vh; index := index vh; documents := docs;
               vh_metadata := vh_metadata vh; retrieval_top_k := retrieval_top_k vh |} in
          match load_vectorizer with
          | Raise e => (vh, Raise e)
          | Ok v =>
            ({| vectorizer := v; index := index vh; documents := documents vh;
                vh_metadata := vh_metadata vh;
                retrieval_top_k := retrieval_top_k vh |}, Ok tt)
          end
        end
      end
    end
  | _, _, _, _ =>
    ({| vectorizer := vectorizer vh; index := None; documents := [];
        vh_metadata := []; retrieval_top_k := retrieval_top_k vh |}, Ok tt)
  end.

(** The three files [reset_collection] removes. *)
Inductive ResetPath := IndexPath | MetadataPath | DocumentsPath.

Definition path_present (disk : Disk) (file_path : ResetPath) : bool :=
  match file_path with
  | IndexPath => path_exists (index_file disk)
  | MetadataPath => path_exists (metadata_file disk)
  | DocumentsPath => path_exists (documents_file disk)
  end.

Definition without (disk : Disk) (file_path : ResetPath) : Disk :=
  match file_path with
  | IndexPath =>
    {| index_file := None; metadata_file := metadata_file disk;
       documents_file := documents_file disk; vectorizer_file := vectorizer_file disk |}
  | MetadataPath =>
    {| index_file := index_file disk; metadata_file := None;
       documents_file := documents_file disk; vectorizer_file := vectorizer_file disk |}
  | DocumentsPath =>
    {| index_file := index_file disk; metadata_file := metadata_file disk;
       documents_file := None; vectorizer_file := vectorizer_file disk |}
  end.

(** The removal loop: [os_remove] says whether the system lets a file go.
    The disk as the loop leaves it, and whether it raised. *)
Fixpoint remove_files (os_remove : ResetPath -> M unit) (disk : Disk)
  (paths : list ResetPath) : Disk * M unit :=
  match paths with
  | [] => (disk, Ok tt)
  | file_path :: rest =>
    if path_present disk file_path then
      match os_remove file_path with
      | Raise e => (disk, Raise e)
      | Ok _ => remove_files os_remove (without disk file_path) rest
      end
    else remove_files os_remove disk rest
  end.

(** [reset_collection]: the disk and the handler afterwards, and the
    returned flag. *)
Definition reset_collection (os_remove : ResetPath -> M unit) (disk : Disk)
  (vh : VectorHandler) : Disk * VectorHandler * bool :=
  match remove_files os_remove disk [IndexPath; MetadataPath; DocumentsPath] with
  | (disk', Raise _) => (disk', vh, false)
  | (disk', Ok _) =>
    match _load_or_create_index disk' vh with
    | (vh', Ok _) => (disk', vh', true)
    | (vh', Raise _) => (disk', vh', false)
    end
  end.

(** An indexer that gives every document the same one-dimensional vector
    and an index that only counts its entries; used to evaluate the
    imports on examples. *)
Definition counting_index (n : Z) : FaissIndex :=
  {| ntotal := n; index_search := fun _ _ => Ok [] |}.

Definition sample_indexer : Indexer :=
  {| sk_fit_transform := fun docs =>
       Ok (fun ds => Ok (map (fun _ => [1%Q]) ds), map (fun _ => [1%Q]) docs);
     flat_ip := fun _ => Ok (counting_index 0);
     index_add := fun i vectors =>
       Ok (counting_index (ntotal i + Z.of_nat (length vectors)));
     save_index := fun _ => Ok tt |}.

(** A directory holding the files of [sample_store], all removable. *)
Definition sample_disk : Disk :=
  {| index_file := Some (Ok sample_index);
     metadata_file := Some (Ok (vh_metadata sample_store));
     documents_file := Some (Ok (documents sample_store));
     vectorizer_file := Some (Ok (vectorizer sample_store)) |}.

(** A section of the corpus long enough to be indexed. *)
Definition sample_section : pystr := py "16 " ++ repeat 26032%N 60.

(** The handler after a reset of [sample_store], after the import of
    [sample_rows] and after the import of a corpus of one section. *)
Definition reset_store : VectorHandler :=
  snd (fst (reset_collection (fun _ => Ok tt) sample_disk sample_store)).

Definition catalogue_store : VectorHandler :=
  fst (import_mysql_data sample_indexer reset_store sample_rows).

Definition rebuilt_store : VectorHandler :=
  fst (import_markdown_data cpython sample_indexer catalogue_store
         (fun section => [section]) [sample_section]).

(* ------------------------------------------------------------------ *)
(** ** Tokens, keywords and cleaning *)

Definition stop_words : list pystr :=
  [py "的"; py "是"; py "在"; py "有"; py "和"; py "或"; py "等"; py "及"].

(** The condition both word filters apply to a token of [jieba.cut]. *)
Definition keep_word (rt : Runtime) (word : pystr) : bool :=
  (1 <? Z.of_nat (length (py_strip rt word)))
  && negb (existsb (pystr_eqb (py_strip rt word)) stop_words).

(** [SimpleTfidfVectorizer._chinese_tokenizer], given the segmenter. *)
Definition _chinese_tokenizer (rt : Runtime) (jieba_cut : pystr -> M (list pystr))
  (text : pystr) : M (list pystr) :=
  words <- jieba_cut text ;;
  Ok (map (py_strip rt) (filter (keep_word rt) words)).

(** [TextProcessor.extract_keywords] *)
Definition extract_keywords (rt : Runtime) (jieba_cut : pystr -> M (list pystr))
  (text : pystr) : M (list pystr) :=
  try_except
    (words <- jieba_cut text ;;
     keywords <-
       for_each words []
         (fun keywords word =>
            let word := py_strip rt word in
            if (1 <? Z.of_nat (length word))
               && negb (existsb (pystr_eqb word) stop_words)
            then Ok (keywords ++ [word])
            else Ok keywords) ;;
     Ok (py_slice_to 10 keywords))
    (fun _ => Ok []).

(** [re.sub(r'\s+', ' ', text)]: every run of white space becomes one
    space.  [in_run] tells that the previous character was white space. *)
Fixpoint collapse_spaces (rt : Runtime) (in_run : bool) (text : pystr) : pystr :=
  match text with
  | [] => []
  | c :: r =>
    if isspace rt c
    then if in_run then collapse_spaces rt true r
         else 32%N :: collapse_spaces rt true r
    else c :: collapse_spaces rt false r
  end.

(** The characters the second substitution of [clean_text] keeps:
    the class [一-鿿\w\s\.\,\;\:\!\?\-\(\)\[\]\/\%\$]. *)
Definition kept_char (rt : Runtime) (c : N) : bool :=
  ((19968 <=? c)%N && (c <=? 40959)%N)
  || is_word rt c
  || isspace rt c
  || existsb (N.eqb c)
       [46; 44; 59; 58; 33; 63; 45; 40; 41; 91; 93; 47; 37; 36]%N.

(** [TextProcessor.clean_text] *)
Definition clean_text (rt : Runtime) (text : pystr) : pystr :=
  match text with
  | [] => []
  | _ => py_strip rt (filter (kept_char rt) (collapse_spaces rt false text))
  end.

(* ------------------------------------------------------------------ *)
(** ** Cutting the corpus *)

(** The class [。！？；\n] that ends a sentence. *)
Definition sentence_end (c : N) : bool :=
  existsb (N.eqb c) [12290; 65281; 65311; 65307; 10]%N.

(** [re.split] on a class of single characters: the pieces between the
    separators, empty ones included. *)
Fixpoint split_on (sep : N -> bool) (cur : pystr) (s : pystr) : list pystr :=
  match s with
  | [] => [rev cur]
  | c :: r =>
    if sep c then rev cur :: split_on sep [] r
    else split_on sep (c :: cur) r
  end.

(** [xs[-k:]] for a positive [k]. *)
Definition py_slice_last {A} (k : Z) (xs : list A) : list A :=
  skipn (length xs - Z.to_nat k) xs.

(** One round of the loop of [_split_text_into_chunks] over the
    sentences; the state is [(chunks, current_chunk)]. *)
Definition chunk_step (rt : Runtime) (max_chunk_size chunk_overlap : Z)
  (st : list pystr * pystr) (sentence : pystr) : list pystr * pystr :=
  let '(chunks, current_chunk) := st in
  let sentence := py_strip rt sentence in
  if is_empty sentence then (chunks, current_chunk)
  else if max_chunk_size
          <? Z.of_nat (length current_chunk) + Z.of_nat (length sentence)
  then
    if negb (is_empty current_chunk) then
      let chunks := chunks ++ [py_strip rt current_chunk] in
      if 0 <? chunk_overlap
      then (chunks, py_slice_last chunk_overlap current_chunk ++ sentence)
      else (chunks, sentence)
    else (chunks ++ [sentence], [])
  else (chunks, current_chunk ++ sentence ++ py "。").

Definition _split_text_into_chunks (rt : Runtime) (max_chunk_size chunk_overlap : Z)
  (text : pystr) : list pystr :=
  if Z.of_nat (length text) <=? max_chunk_size then [text]
  else
    let sentences := split_on sentence_end [] text in
    let '(chunks, current_chunk) :=
      fold_left (chunk_step rt max_chunk_size chunk_overlap) sentences ([], []) in
    if is_empty (py_strip rt current_chunk) then chunks
    else chunks ++ [py_strip rt current_chunk].

(** [\d+\s+] at the head of [s]: one digit or more, then white space.
    [seen_digit] tells that a digit was consumed. *)
Fixpoint digits_then_space (rt : Runtime) (seen_digit : bool) (s : pystr) : bool :=
  match s with
  | [] => false
  | c :: r =>
    (seen_digit && isspace rt c) || (is_dec rt c && digits_then_space rt true r)
  end.

(** [#\s+] at the head of [s]. *)
Definition heading_ahead (rt : Runtime) (s : pystr) : bool :=
  match s with
  | h :: c :: _ => (h =? 35)%N && isspace rt c
  | _ => false
  end.

(** [re.split] on a line feed followed by [ahead]: the line feed goes, the
    text looked at stays. *)
Fixpoint split_before (ahead : pystr -> bool) (cur : pystr) (s : pystr)
  : list pystr :=
  match s with
  | [] => [rev cur]
  | c :: r =>
    if (c =? 10)%N && ahead r then rev cur :: split_before ahead [] r
    else split_before ahead (c :: cur) r
  end.

(** The list [all_sections] of [_split_by_sections]. *)
Definition all_sections (rt : Runtime) (text : pystr) : list pystr :=
  flat_map (split_before (heading_ahead rt) [])
           (split_before (digits_then_space rt false) [] text).

Definition _split_by_sections (rt : Runtime) (text : pystr) : list pystr :=
  map (py_strip rt)
      (filter (fun s => negb (is_empty (py_strip rt s))) (all_sections rt text)).

(** An index of one chunk of the corpus whose similarity depends on the
    query (0.8 for a query of three characters or more, 0.5 for a shorter
    one), and a row with two numeric special provisions. *)
Definition rescoring_store : VectorHandler :=
  {| vectorizer :=
       {| is_fitted := true;
          sk_transform := fun docs =>
            Ok (map (fun d => [inject_Z (Z.of_nat (length d))]) docs) |};
     index :=
       Some {| ntotal := 1;
               index_search := fun query_vector _ =>
                 match query_vector with
                 | [[v]] => Ok [(if Qle_bool 3 v then (4 # 5)%Q else (1 # 2)%Q, 0)]
                 | _ => Ok []
                 end |};
     documents := [py "188 and 23: lithium cells and batteries"];
     vh_metadata := [corpus_metadata 0 0];
     retrieval_top_k := 50 |}.

Definition cell := row 7 3090 (py "锂金属电池") None (Some (py "188 23")).

Definition rescoring_retriever : HybridRetriever :=
  {| mysql_handler := catalogue [cell]; vector_handler := rescoring_store;
     similarity_threshold := (1 # 10)%Q |}.

(* ------------------------------------------------------------------ *)
(** ** Vocabulary of the properties *)

(** The text an identifier pattern accepts: the tag [UN] in either case,
    any white space, one digit or more; or four digits. *)
Inductive id_token (rt : Runtime) : pystr -> Prop :=
| token_tagged (u n : N) (ws ds : pystr) :
    is_U u = true -> is_N n = true ->
    Forall (fun c => isspace rt c = true) ws ->
    ds <> [] ->
    Forall (fun c => is_dec rt c = true) ds ->
    id_token rt (u :: n :: ws ++ ds)
| token_four (d1 d2 d3 d4 : N) :
    is_dec rt d1 = true -> is_dec rt d2 = true ->
    is_dec rt d3 = true -> is_dec rt d4 = true ->
    id_token rt [d1; d2; d3; d4].

(** The last character of [s], or [prev] when [s] is empty. *)
Fixpoint last_char (prev : option N) (s : pystr) : option N :=
  match s with
  | [] => prev
  | c :: r => last_char (Some c) r
  end.

(** [tok] stands in [pre ++ tok ++ post] between two word boundaries. *)
Definition delimited (rt : Runtime) (pre tok post : pystr) : Prop :=
  at_boundary rt (last_char None pre) tok = true
  /\ at_boundary rt (last_char None tok) post = true.

(** A hit of the identifier branch for one of the numbers [ns]. *)
Definition is_exact_un (ns : list Z) (h : Hit) : Prop :=
  score h = 1%Q
  /\ search_type (metadata h) = Some (py "exact_un")
  /\ doc_type (metadata h) = Some (py "chemical")
  /\ exists c, chemical_data h = Some c /\ In (un_number c) ns.

(** A hit of the name branch. *)
Definition is_exact_name (h : Hit) : Prop :=
  score h = (9 # 10)%Q
  /\ search_type (metadata h) = Some (py "exact_name")
  /\ doc_type (metadata h) = Some (py "chemical")
  /\ exists c, chemical_data h = Some c.

(** The numbers [_exact_search] extracts from a query. *)
Definition extracted_numbers (rt : Runtime) (query : pystr) : list Z :=
  map (py_int rt) (findall_un rt query).

(** Largest score first. *)
Definition by_score_desc (a b : Hit) : Prop := (score b <= score a)%Q.

Definition sorted_desc (xs : list Hit) : Prop := StronglySorted by_score_desc xs.

(** The hits of score [s]. *)
Definition tied (s : Q) (h : Hit) : bool := Qeq_bool (score h) s.

(** The keys of a list in the order of their first appearance. *)
Definition add_key (keys : list pystr) (k : pystr) : list pystr :=
  if existsb (pystr_eqb k) keys then keys else keys ++ [k].

Definition first_seen (ks : list pystr) : list pystr := fold_left add_key ks [].

(** What the dictionary [d] holds once the hits [seen] went through the
    loop of [_merge_results]: one entry per key met, under its own key,
    taken from [seen] and with the best score met for that key. *)
Definition merge_inv (rt : Runtime) (seen : list Hit) (d : dict) : Prop :=
  NoDup (map fst d)
  /\ (forall k v, In (k, v) d ->
        merge_key rt v = k /\ In v seen
        /\ forall h, In h seen -> merge_key rt h = k -> (score h <= score v)%Q)
  /\ (forall h, In h seen -> In (merge_key rt h) (map fst d)).

(** Some numeric special provision of some chemical of the batch has, among
    the results of its search, a document of the regulation corpus. *)
Definition provision_search_hits (rt : Runtime) (vh : VectorHandler)
  (chemicals : list Hit) : Prop :=
  exists chemical info provision regulations reg,
    In chemical chemicals
    /\ chemical_data chemical = Some info
    /\ truthy_str (special_provisions info) = true
    /\ In provision
          (py_split rt match special_provisions info with Some s => s | None => [] end)
    /\ py_isdigit rt provision = true
    /\ semantic_search vh provision (Some 5) = Ok regulations
    /\ In reg regulations
    /\ from_appendix reg = true.

(** [found_specific] is raised exactly when a regulation was collected. *)
Definition found_iff_collected (st : list Hit * bool) : Prop :=
  snd st = true <-> fst st <> [].

(** A result of [VectorHandler.semantic_search]: an entry of the index
    whose similarity exceeds 0.1, with its distance. *)
Definition raw_result (vh : VectorHandler) (r : Hit) : Prop :=
  distance r = Some (1 - score r)%Q
  /\ (1 # 10 < score r)%Q
  /\ chemical_data r = None
  /\ In (metadata r) (vh_metadata vh)
  /\ In (content r) (documents vh).

(** A hit of [_semantic_search] made from the index result [r]. *)
Definition scored_from (threshold : Q) (r h : Hit) : Prop :=
  content h = content r
  /\ metadata h = metadata r
  /\ chemical_data h = None
  /\ hit_search_type h = Some (py "semantic")
  /\ (score h == score r)%Q
  /\ (threshold <= score h)%Q
  /\ (0 <= score h)%Q
  /\ ((score r <= 1)%Q -> (score h <= 1)%Q).

(** A hit either carries a catalogue record and the metadata
    [_exact_search] writes, or carries no record and the stored metadata
    of an index entry. *)
Definition hit_ok (vh : VectorHandler) (h : Hit) : Prop :=
  (exists c, chemical_data h = Some c
             /\ doc_type (metadata h) = Some (py "chemical")
             /\ source (metadata h) = Some (py "mysql"))
  \/ (chemical_data h = None /\ In (metadata h) (vh_metadata vh)).

(** A regulation collected by Regulation Association. *)
Definition related_ok (vh : VectorHandler) (h : Hit) : Prop :=
  raw_result vh h /\ from_appendix h = true.

Definition hits_of (r : RetrievalResult) : list Hit :=
  r_chemical_data r ++ r_regulations r.

(** A hit of the [chemical_data] bucket, and a hit of the [regulations]
    bucket: typed as a regulation, or collected from the appendix. *)
Definition chemical_bucket_ok (vh : VectorHandler) (h : Hit) : Prop :=
  hit_ok vh h /\ doc_type (metadata h) = Some (py "chemical").

Definition regulation_bucket_ok (vh : VectorHandler) (h : Hit) : Prop :=
  hit_ok vh h
  /\ (doc_type (metadata h) = Some (py "regulation") \/ from_appendix h = true).

Definition result_ok (vh : VectorHandler) (r : RetrievalResult) : Prop :=
  Forall (chemical_bucket_ok vh) (r_chemical_data r)
  /\ Forall (regulation_bucket_ok vh) (r_regulations r).

(** [h] is the first element of [xs] under its key. *)
Definition first_with_key (key : Hit -> pystr) (xs : list Hit) (h : Hit) : Prop :=
  exists pre post,
    xs = pre ++ h :: post /\ forall x, In x pre -> key x <> key h.

(** What the dictionary [d] holds once the regulations [seen] went through
    the loop of [_merge_regulations]: one entry per id met, the first
    regulation met under that id. *)
Definition keep_inv (rt : Runtime) (seen : list Hit) (d : dict) : Prop :=
  NoDup (map fst d)
  /\ (forall k v, In (k, v) d ->
        document_key rt v = k /\ first_with_key (document_key rt) seen v)
  /\ (forall h, In h seen -> In (document_key rt h) (map fst d)).

(** [out] holds, for every key of [xs] and no other, one hit of [xs] with
    the best score met under that key. *)
Definition best_per_key (rt : Runtime) (xs out : list Hit) : Prop :=
  NoDup (map (merge_key rt) out)
  /\ (forall k, In k (map (merge_key rt) out) <-> In k (map (merge_key rt) xs))
  /\ (forall h, In h out ->
        In h xs
        /\ forall h', In h' xs -> merge_key rt h' = merge_key rt h ->
                      (score h' <= score h)%Q).

(** [s] has no white space at either end. *)
Definition stripped (rt : Runtime) (s : pystr) : Prop :=
  lstrip rt s = s /\ lstrip rt (rev s) = rev s.

(** The code points of a decimal numeral. *)
Fixpoint digit_codes (d : Decimal.uint) : pystr :=
  match d with
  | Decimal.Nil => []
  | Decimal.D0 d => 48%N :: digit_codes d
  | Decimal.D1 d => 49%N :: digit_codes d
  | Decimal.D2 d => 50%N :: digit_codes d
  | Decimal.D3 d => 51%N :: digit_codes d
  | Decimal.D4 d => 52%N :: digit_codes d
  | Decimal.D5 d => 53%N :: digit_codes d
  | Decimal.D6 d => 54%N :: digit_codes d
  | Decimal.D7 d => 55%N :: digit_codes d
  | Decimal.D8 d => 56%N :: digit_codes d
  | Decimal.D9 d => 57%N :: digit_codes d
  end.

(** The interpreter's tables on ASCII: the ten digits are decimal digits
    with their value, alphanumeric and not white space; the letters are
    alphanumeric. *)
Definition reads_ascii (rt : Runtime) : Prop :=
  (forall c, ascii_digit c = true ->
             decimal rt c = Some (Z.of_N c - 48)
             /\ isalnum rt c = true /\ isspace rt c = false)
  /\ (forall c, ascii_alpha c = true -> isalnum rt c = true).

(** The position of a chunk: its section and its number in the section. *)
Definition section_chunk (d : pystr * Metadata) : option Z * option Z :=
  (section_id (snd d), chunk_id (snd d)).

(** A chunk of section [i] as [process_markdown_content] keeps it. *)
Definition kept_chunk (rt : Runtime) (i lo : Z) (d : pystr * Metadata) : Prop :=
  50 < Z.of_nat (length (fst d))
  /\ stripped rt (fst d)
  /\ exists j, lo <= j /\ snd d = regulation_metadata i j.

(** The documents and the metadata of a handler go by pairs. *)
Definition aligned (vh : VectorHandler) : Prop :=
  length (documents vh) = length (vh_metadata vh).

(** The test [semantic_search] applies to a pair of the index's answer. *)
Definition in_range (vh : VectorHandler) (p : Q * Z) : bool :=
  (0 <=? snd p) && (snd p <? Z.of_nat (length (documents vh)))
  && Qlt_bool (1 # 10)%Q (fst p).

(** [h] is the result built for the pair [p]. *)
Definition result_at (vh : VectorHandler) (p : Q * Z) (h : Hit) : Prop :=
  score h = fst p
  /\ distance h = Some (1 - fst p)%Q
  /\ nth_error (documents vh) (Z.to_nat (snd p)) = Some (content h)
  /\ nth_error (vh_metadata vh) (Z.to_nat (snd p)) = Some (metadata h)
  /\ chemical_data h = None.

(** The sum of the counts of a counting dictionary. *)
Definition counter_total (d : counter) : Z :=
  fold_right (fun kv acc => snd kv + acc) 0 d.

(** The number of elements of [xs] that pass [f]. *)
Definition count_where {A} (f : A -> bool) (xs : list A) : Z :=
  Z.of_nat (length (filter f xs)).

(** [t] occurs in [s]. *)
Definition infix (t s : pystr) : Prop := exists a b, s = a ++ t ++ b.

(** The state of the chunking loop once the sentences [seen] went
    through it: the chunks are not empty and have no white space at their
    ends, the chunk under construction is empty or not blank, and every
    sentence seen that is not blank stands in a chunk or in the chunk
    under construction. *)
Definition chunk_inv (rt : Runtime) (seen : list pystr) (st : list pystr * pystr)
  : Prop :=
  Forall (fun c => c <> [] /\ stripped rt c) (fst st)
  /\ (snd st = [] \/ py_strip rt (snd st) <> [])
  /\ (forall s, In s seen -> py_strip rt s <> [] ->
        (exists c, In c (fst st) /\ infix (py_strip rt s) c)
        \/ infix (py_strip rt s) (snd st)).

(** The lengths the chunking loop keeps under [bound], for sentences no
    longer than [longest]. *)
Definition chunk_bound (max_chunk_size chunk_overlap longest : Z) : Z :=
  Z.max (max_chunk_size + 1) (Z.max 0 chunk_overlap + longest).

(** No hit of the list is equal, as a dictionary, to another one. *)
Definition distinct_hits (xs : list Hit) : Prop :=
  ForallOrdPairs (fun a b => hit_eqb a b = false) xs.

(** A text without the characters [LIKE] reads specially: [%], [_] and the
    backslash. *)
Definition plain_text (s : pystr) : Prop :=
  Forall (fun c => c <> 37%N /\ c <> 95%N /\ c <> 92%N) s.

(* ------------------------------------------------------------------ *)
(** * Properties *)

(** ** Strings, slices and the error monad *)

Lemma pystr_eqb_eq (a b : pystr) : pystr_eqb a b = true <-> a = b.
Proof.
  unfold pystr_eqb. destruct (list_eq_dec N.eq_dec a b); split; intros; congruence.
Qed.

Lemma pystr_eqb_refl (a : pystr) : pystr_eqb a a = true.
Proof. apply pystr_eqb_eq. reflexivity. Qed.

Lemma pystr_eqb_neq (a b : pystr) : a <> b -> pystr_eqb a b = false.
Proof.
  intros H. destruct (pystr_eqb a b) eqn:E; [|reflexivity].
  apply pystr_eqb_eq in E. contradiction.
Qed.

Lemma In_firstn {A} (n : nat) (xs : list A) (x : A) :
  In x (firstn n xs) -> In x xs.
Proof.
  intros H. rewrite <- (firstn_skipn n xs). apply in_or_app. left. exact H.
Qed.

Lemma py_slice_to_incl {A} (k : Z) (xs : list A) (x : A) :
  In x (py_slice_to k xs) -> In x xs.
Proof.
  unfold py_slice_to. destruct (k <? 0); apply In_firstn.
Qed.

Lemma py_slice_to_length {A} (k : Z) (xs : list A) :
  0 <= k -> Z.of_nat (length (py_slice_to k xs)) <= k.
Proof.
  intros Hk. unfold py_slice_to.
  destruct (k <? 0) eqn:E; [apply Z.ltb_lt in E; lia|].
  rewrite length_firstn. lia.
Qed.

Lemma try_except_returns {A} (body : M A) (handler : exn -> M A) :
  (forall e, exists a, handler e = Ok a) ->
  exists a, try_except body handler = Ok a.
Proof.
  intros H. destruct body as [a|e]; simpl; [exists a; reflexivity|apply H].
Qed.

Lemma bind_Ok {A B} (m : M A) (f : A -> M B) (b : B) :
  bind m f = Ok b -> exists a, m = Ok a /\ f a = Ok b.
Proof.
  destruct m as [a|e]; simpl; intros H; [exists a; auto|discriminate].
Qed.

(** Invert a successful computation built from [bind] and [try_except]. *)
Ltac inv_Ok H :=
  match type of H with
  | bind ?m _ = Ok _ =>
    let a := fresh "v" in let Ha := fresh "Hv" in
    apply bind_Ok in H; destruct H as (a & Ha & H)
  | Ok _ = Ok _ => injection H as H
  | Raise _ = Ok _ => discriminate H
  end.

(** A loop whose body keeps an invariant keeps it to the end. *)
Lemma for_each_invariant {A S} (P : S -> Prop) (body : S -> A -> M S) :
  forall (xs : list A) (s s' : S),
    P s ->
    (forall s x s1, In x xs -> P s -> body s x = Ok s1 -> P s1) ->
    for_each xs s body = Ok s' -> P s'.
Proof.
  induction xs as [|x r IH]; simpl; intros s s' Hs Hbody H.
  - injection H as <-. exact Hs.
  - inv_Ok H. eapply IH; [|intros; eapply Hbody; eauto|exact H].
    eapply Hbody; eauto.
Qed.

(** A loop whose body always returns always returns. *)
Lemma for_each_returns {A S} (body : S -> A -> M S) :
  (forall s x, exists s1, body s x = Ok s1) ->
  forall (xs : list A) (s : S), exists s', for_each xs s body = Ok s'.
Proof.
  intros Hbody. induction xs as [|x r IH]; simpl; intros s.
  - exists s. reflexivity.
  - destruct (Hbody s x) as (s1 & E). rewrite E. simpl. apply IH.
Qed.

(* ------------------------------------------------------------------ *)
(** ** The query classifier *)

Section Classifier.
Variable rt : Runtime.

Lemma last_char_app (prev : option N) (a b : pystr) :
  last_char prev (a ++ b) = last_char (last_char prev a) b.
Proof. revert prev. induction a; simpl; intros; auto. Qed.

Lemma at_boundary_app (prev : option N) (tok post : pystr) :
  tok <> [] -> at_boundary rt prev (tok ++ post) = at_boundary rt prev tok.
Proof. destruct tok; [congruence|reflexivity]. Qed.

Lemma more_digits_some (post : pystr) :
  forall (ds : pystr) (prev : N),
    Forall (fun c => is_dec rt c = true) ds ->
    at_boundary rt (last_char (Some prev) ds) post = true ->
    exists r, more_digits rt prev (ds ++ post) = Some r.
Proof.
  induction ds as [|d ds IH]; simpl; intros prev Hds Hb.
  - destruct post as [|c r]; simpl; rewrite Hb.
    + eauto.
    + destruct (is_dec rt c); [destruct (more_digits rt c r)|]; eauto.
  - inversion Hds as [|? ? Hd Hds']; subst. rewrite Hd.
    destruct (IH d Hds' Hb) as (r & ->). eauto.
Qed.

Lemma digits_b_some (post : pystr) (ds : pystr) :
  ds <> [] ->
  Forall (fun c => is_dec rt c = true) ds ->
  at_boundary rt (last_char None ds) post = true ->
  exists r, digits_b rt (ds ++ post) = Some r.
Proof.
  destruct ds as [|d ds]; [congruence|]. intros _ Hds Hb.
  inversion Hds as [|? ? Hd Hds']; subst. simpl. rewrite Hd.
  destruct (more_digits_some post ds d Hds' Hb) as (r & ->). eauto.
Qed.

Lemma spaces_digits_some (post ds : pystr) :
  ds <> [] ->
  Forall (fun c => is_dec rt c = true) ds ->
  at_boundary rt (last_char None ds) post = true ->
  forall ws, Forall (fun c => isspace rt c = true) ws ->
  exists r, spaces_digits rt (ws ++ ds ++ post) = Some r.
Proof.
  intros Hne Hds Hb.
  destruct (digits_b_some post ds Hne Hds Hb) as (r0 & Hr0).
  assert (Hbase : exists r, spaces_digits rt (ds ++ post) = Some r).
  { destruct ds as [|d ds']; [congruence|].
    change ((d :: ds') ++ post) with (d :: (ds' ++ post)) in *.
    cbn [spaces_digits]. rewrite Hr0.
    destruct (isspace rt d); [destruct (spaces_digits rt (ds' ++ post)) as [[? ?]|]|];
      eauto. }
  induction ws as [|w ws IH]; intros Hws; [exact Hbase|].
  inversion Hws as [|? ? Hw Hws']; subst.
  change ((w :: ws) ++ ds ++ post) with (w :: (ws ++ ds ++ post)).
  cbn [spaces_digits]. rewrite Hw.
  destruct (IH Hws') as ([k r] & ->). eauto.
Qed.

(** At the start of a delimited token the pattern matches. *)
Lemma match_un_token (prev : option N) (tok post : pystr) :
  id_token rt tok ->
  at_boundary rt prev tok = true ->
  at_boundary rt (last_char None tok) post = true ->
  exists m, match_un rt prev (tok ++ post) = Some m.
Proof.
  intros Htok Hb1 Hb2. unfold match_un.
  destruct (match_tagged rt prev (tok ++ post)) as [m|] eqn:Etag; [eauto|].
  destruct Htok as [u n ws ds Hu Hn Hws Hne Hds|d1 d2 d3 d4 H1 H2 H3 H4].
  - exfalso. unfold match_tagged in Etag.
    rewrite at_boundary_app, Hb1 in Etag by discriminate.
    simpl in Etag. rewrite Hu, Hn in Etag. simpl in Etag.
    assert (Hlast : last_char None (u :: n :: ws ++ ds) = last_char None ds).
    { simpl. rewrite last_char_app. destruct ds; [congruence|reflexivity]. }
    rewrite Hlast in Hb2.
    rewrite <- app_assoc in Etag.
    destruct (spaces_digits_some post ds Hne Hds Hb2 ws Hws) as ([k r] & E).
    rewrite E in Etag. discriminate.
  - unfold match_four. rewrite at_boundary_app, Hb1 by discriminate.
    simpl. simpl in Hb2. rewrite H1, H2, H3, H4, Hb2. simpl. eauto.
Qed.

Lemma search_un_after (tok post : pystr) :
  forall (pre : pystr) (prev : option N),
    (exists m, match_un rt (last_char prev pre) (tok ++ post) = Some m) ->
    search_un rt prev (pre ++ tok ++ post) = true.
Proof.
  induction pre as [|c pre IH]; intros prev (m & Hm).
  - simpl in *. destruct (tok ++ post); simpl; rewrite Hm; reflexivity.
  - change ((c :: pre) ++ tok ++ post) with (c :: (pre ++ tok ++ post)).
    cbn [search_un].
    destruct (match_un rt prev (c :: pre ++ tok ++ post)); [reflexivity|].
    apply IH. exists m. exact Hm.
Qed.

(** C4, amended.  A query that contains, between two word boundaries,
    either the tag UN (in either case) followed by optional white space
    and one digit or more, or exactly four digits, is classified as an
    identifier query ([un_number], the specification's [exact_id]),
    whatever else it contains: the identifier rule is tried before the
    chemical-noun rule and the natural-language default. *)
Theorem detect_query_type_identifier (pre tok post : pystr) :
  id_token rt tok ->
  delimited rt pre tok post ->
  _detect_query_type rt (pre ++ tok ++ post) = py "un_number".
Proof.
  intros Htok [Hb1 Hb2]. unfold _detect_query_type.
  rewrite search_un_after; [reflexivity|].
  apply match_un_token; assumption.
Qed.
(** The converse: the classifier answers [un_number] only for a query that
    holds such a token. *)
Lemma more_digits_inv :
  forall (s : pystr) (prev : N) (ds : pystr),
    more_digits rt prev s = Some ds ->
    Forall (fun c => is_dec rt c = true) ds
    /\ exists post, s = ds ++ post
                    /\ at_boundary rt (last_char (Some prev) ds) post = true.
Proof.
  induction s as [|c r IH]; intros prev ds H; cbn [more_digits] in H.
  - destruct (at_boundary rt (Some prev) []) eqn:Eb; [|discriminate].
    injection H as <-. split; [constructor|]. exists []. auto.
  - assert (Hstop : (if at_boundary rt (Some prev) (c :: r) then Some [] else None)
                    = Some ds ->
                    Forall (fun c => is_dec rt c = true) ds
                    /\ exists post, c :: r = ds ++ post
                         /\ at_boundary rt (last_char (Some prev) ds) post = true).
    { destruct (at_boundary rt (Some prev) (c :: r)) eqn:Eb; [|discriminate].
      intros E. injection E as <-. split; [constructor|]. exists (c :: r). auto. }
    destruct (is_dec rt c) eqn:Ec; [|auto].
    destruct (more_digits rt c r) as [ds'|] eqn:Em; [|auto].
    injection H as <-. destruct (IH c ds' Em) as (Hds & post & -> & Hb).
    split; [constructor; assumption|]. exists post. auto.
Qed.

Lemma digits_b_inv (s ds : pystr) :
  digits_b rt s = Some ds ->
  ds <> [] /\ Forall (fun c => is_dec rt c = true) ds
  /\ exists post, s = ds ++ post /\ at_boundary rt (last_char None ds) post = true.
Proof.
  unfold digits_b. destruct s as [|d r]; [discriminate|].
  destruct (is_dec rt d) eqn:Ed; [|discriminate].
  destruct (more_digits rt d r) as [ds'|] eqn:Em; [|discriminate].
  intros H. injection H as <-.
  destruct (more_digits_inv r d ds' Em) as (Hds & post & -> & Hb).
  split; [discriminate|]. split; [constructor; assumption|]. exists post. auto.
Qed.

Lemma spaces_digits_inv :
  forall (s : pystr) (k : nat) (ds : pystr),
    spaces_digits rt s = Some (k, ds) ->
    exists ws post,
      s = ws ++ ds ++ post
      /\ length ws = k
      /\ Forall (fun c => isspace rt c = true) ws
      /\ ds <> [] /\ Forall (fun c => is_dec rt c = true) ds
      /\ at_boundary rt (last_char None ds) post = true.
Proof.
  assert (Hhere : forall s k ds,
            match digits_b rt s with Some ds => Some (O, ds) | None => None end
            = Some (k, ds) ->
            exists ws post,
              s = ws ++ ds ++ post /\ length ws = k
              /\ Forall (fun c => isspace rt c = true) ws
              /\ ds <> [] /\ Forall (fun c => is_dec rt c = true) ds
              /\ at_boundary rt (last_char None ds) post = true).
  { intros s k ds H. destruct (digits_b rt s) as [ds0|] eqn:E; [|discriminate].
    injection H as <- <-. destruct (digits_b_inv s ds0 E) as (Hne & Hds & post & -> & Hb).
    exists [], post. repeat split; auto. }
  induction s as [|c r IH]; intros k ds H; cbn [spaces_digits] in H; [auto|].
  destruct (isspace rt c) eqn:Ec; [|auto].
  destruct (spaces_digits rt r) as [[n ds']|] eqn:Er; [|auto].
  injection H as <- <-.
  destruct (IH n ds' eq_refl) as (ws & post & -> & Hlen & Hws & Hrest).
  exists (c :: ws), post. split; [reflexivity|]. split; [simpl; congruence|].
  split; [constructor; assumption|exact Hrest].
Qed.

Lemma match_un_inv (prev : option N) (s cap : pystr) (n : nat) :
  match_un rt prev s = Some (cap, n) ->
  exists tok post,
    s = tok ++ post /\ id_token rt tok
    /\ at_boundary rt prev tok = true
    /\ at_boundary rt (last_char None tok) post = true.
Proof.
  unfold match_un.
  destruct (match_tagged rt prev s) as [m|] eqn:Et.
  - intros _. unfold match_tagged in Et.
    destruct (at_boundary rt prev s) eqn:Eb; [|discriminate].
    destruct s as [|u [|n0 r]]; try discriminate.
    destruct (is_U u && is_N n0) eqn:Eun; [|discriminate].
    apply andb_true_iff in Eun. destruct Eun as [Hu Hn].
    destruct (spaces_digits rt r) as [[k ds]|] eqn:Es; [|discriminate].
    destruct (spaces_digits_inv r k ds Es) as (ws & post & -> & _ & Hws & Hne & Hds & Hb).
    exists (u :: n0 :: ws ++ ds), post.
    split; [simpl; rewrite <- app_assoc; reflexivity|].
    split; [constructor; assumption|]. split; [exact Eb|].
    simpl. rewrite last_char_app. destruct ds; [congruence|exact Hb].
  - unfold match_four.
    destruct (at_boundary rt prev s) eqn:Eb; [|discriminate].
    destruct s as [|d1 [|d2 [|d3 [|d4 r]]]]; try discriminate.
    destruct (is_dec rt d1 && is_dec rt d2 && is_dec rt d3 && is_dec rt d4
              && at_boundary rt (Some d4) r) eqn:E; [|discriminate].
    intros _. repeat (apply andb_true_iff in E; destruct E as [E ?]).
    exists [d1; d2; d3; d4], r.
    split; [reflexivity|]. split; [constructor; assumption|]. auto.
Qed.

Lemma search_un_inv :
  forall (s : pystr) (prev : option N),
    search_un rt prev s = true ->
    exists pre tok post,
      s = pre ++ tok ++ post /\ id_token rt tok
      /\ at_boundary rt (last_char prev pre) tok = true
      /\ at_boundary rt (last_char None tok) post = true.
Proof.
  assert (Hhere : forall s prev m,
            match_un rt prev s = Some m ->
            exists pre tok post,
              s = pre ++ tok ++ post /\ id_token rt tok
              /\ at_boundary rt (last_char prev pre) tok = true
              /\ at_boundary rt (last_char None tok) post = true).
  { intros s prev [cap n] Hm.
    destruct (match_un_inv prev s cap n Hm) as (tok & post & -> & Ht & Hb1 & Hb2).
    exists [], tok, post. auto. }
  induction s as [|c r IH]; intros prev H; cbn [search_un] in H.
  - destruct (match_un rt prev []) as [m|] eqn:Em; [eauto|discriminate].
  - destruct (match_un rt prev (c :: r)) as [m|] eqn:Em; [eauto|].
    destruct (IH (Some c) H) as (pre & tok & post & -> & Ht & Hb1 & Hb2).
    exists (c :: pre), tok, post. auto.
Qed.

Lemma detect_query_type_only_identifier (query : pystr) :
  _detect_query_type rt query = py "un_number" ->
  exists pre tok post,
    query = pre ++ tok ++ post /\ id_token rt tok /\ delimited rt pre tok post.
Proof.
  unfold _detect_query_type, delimited. destruct (search_un rt None query) eqn:E.
  - intros _. apply search_un_inv. exact E.
  - destruct (existsb _ chemical_keywords); intros H; vm_compute in H; discriminate.
Qed.
End Classifier.

Lemma detect_query_type_identifier_witness :
  _detect_query_type cpython (py "查询 " ++ py "un 3480" ++ py " 电池")
  = py "un_number".
Proof.
  apply detect_query_type_identifier.
  - apply (token_tagged cpython 117 110 [32%N] [51; 52; 56; 48]%N);
      try reflexivity; try discriminate; repeat constructor.
  - split; reflexivity.
Defined.

(** C4 as stated fails: five digits without the tag are a numeric code of
    four digits or more, and the query falls through to the
    natural-language default. *)
Lemma five_digits_not_identifier :
  _detect_query_type cpython (py "12345") = py "natural_language"
  /\ findall_un cpython (py "12345") = [].
Proof. split; vm_compute; reflexivity. Qed.

(* ------------------------------------------------------------------ *)
(** ** Exact Search *)

Lemma query_by_un_number_sound (h : MySQLHandler) (n : Z) (rows : list Chemical) :
  (forall k found, select_by_un h k = Ok found ->
                   Forall (fun c => un_number c = k) found) ->
  query_by_un_number h n = Ok rows ->
  Forall (fun c => un_number c = n) rows.
Proof.
  intros Hsound H. unfold query_by_un_number in H. inv_Ok H.
  destruct (select_by_un h n) as [found|e] eqn:E; simpl in H.
  - destruct found; injection H as <-; [constructor|]. eapply Hsound; eauto.
  - injection H as <-. constructor.
Qed.

(** Two loops that issue the same calls return together. *)
Lemma for_each_same_calls {A B S1 S2} (f : A -> M B)
  (g1 : S1 -> B -> S1) (g2 : S2 -> B -> S2) :
  forall (xs : list A) (s1 s1' : S1) (s2 : S2),
    for_each xs s1 (fun s x => b <- f x ;; Ok (g1 s b)) = Ok s1' ->
    exists s2', for_each xs s2 (fun s x => b <- f x ;; Ok (g2 s b)) = Ok s2'.
Proof.
  induction xs as [|x r IH]; simpl; intros s1 s1' s2 H.
  - eauto.
  - inv_Ok H. inv_Ok Hv. injection Hv as <-. rewrite Hv0. simpl.
    eapply IH. exact H.
Qed.

Lemma Forall_py_slice_to {A} (P : A -> Prop) (k : Z) (xs : list A) :
  Forall P xs -> Forall P (py_slice_to k xs).
Proof.
  intros H. apply Forall_forall. intros x Hx.
  apply py_slice_to_incl in Hx. revert x Hx. apply Forall_forall. exact H.
Qed.

Section ExactSearch.
Variable rt : Runtime.
Variable self : HybridRetriever.

Lemma exact_hit_un (ns : list Z) (c : Chemical) :
  In (un_number c) ns -> is_exact_un ns (exact_hit rt (py "exact_un") 1 c).
Proof. intros H. repeat split. exists c. auto. Qed.

Lemma name_hits_forall (query : pystr) (top_k : Z) (hits : list Hit) :
  name_hits rt (mysql_handler self) query top_k = Ok hits ->
  Forall is_exact_name hits.
Proof.
  unfold name_hits. intros H. inv_Ok H. inv_Ok H. injection H as <-.
  apply Forall_forall. intros h Hh. apply in_map_iff in Hh.
  destruct Hh as (c & <- & _). repeat split. exists c. reflexivity.
Qed.

(** The database answers an identifier lookup with rows of that
    identifier only. *)
Hypothesis select_by_un_sound :
  forall n rows, select_by_un (mysql_handler self) n = Ok rows ->
                 Forall (fun c => un_number c = n) rows.

Lemma un_hits_forall (ms : list pystr) (found : list Hit) :
  un_hits rt (mysql_handler self) ms = Ok found ->
  Forall (is_exact_un (map (py_int rt) ms)) found.
Proof.
  unfold un_hits. apply for_each_invariant; [constructor|].
  intros results m results' Hm Hres H. inv_Ok H. injection H as <-.
  apply Forall_app. split; [exact Hres|].
  apply Forall_forall. intros h Hh. apply in_map_iff in Hh.
  destruct Hh as (c & <- & Hc). apply exact_hit_un.
  pose proof (query_by_un_number_sound _ _ _ select_by_un_sound Hv) as Hn.
  rewrite Forall_forall in Hn. rewrite (Hn c Hc).
  apply in_map. exact Hm.
Qed.

(** C3, amended.  [_exact_search] always returns a list [hits], of at
    most [top_k] hits when [top_k] is not negative, such that:
    when the look-ups of the identifiers extracted from the query
    return at least one record, [hits] are the first [top_k] of these
    records, each a record of an extracted identifier with score 1.0 and
    search type [exact_un] (the specification's [exact_id]); when the
    look-ups return no record -- no identifier token, or identifiers
    the catalogue does not hold -- every hit comes from the name search
    (the query itself, then its term expansions) with score 0.9 and
    search type [exact_name]; when a look-up raises, the list is
    empty. *)
Theorem exact_search_postcondition (query : pystr) (top_k : Z) :
  exists hits,
    _exact_search rt self query top_k = Ok hits
    /\ (0 <= top_k -> Z.of_nat (length hits) <= top_k)
    /\ (forall found,
          un_hits rt (mysql_handler self) (findall_un rt query) = Ok found ->
          found <> [] ->
          hits = py_slice_to top_k found
          /\ Forall (is_exact_un (extracted_numbers rt query)) hits)
    /\ (un_hits rt (mysql_handler self) (findall_un rt query) = Ok [] ->
        Forall is_exact_name hits
        /\ (forall named,
              name_hits rt (mysql_handler self) query top_k = Ok named ->
              hits = py_slice_to top_k named))
    /\ (forall e,
          un_hits rt (mysql_handler self) (findall_un rt query) = Raise e ->
          hits = []).
Proof.
  unfold _exact_search. cbv zeta.
  set (ms := findall_un rt query).
  assert (Hun : exists r, un_hits rt (mysql_handler self) ms = r) by eauto.
  destruct Hun as ([found|e] & Eun).
  - (* the identifier look-ups return *)
    assert (Hfirst :
      match ms with
      | [] => Ok []
      | _ :: _ =>
        _ <- for_each ms 0
               (fun total_found m =>
                  chemicals <- query_by_un_number (mysql_handler self) (py_int rt m) ;;
                  Ok (total_found + Z.of_nat (length chemicals))) ;;
        un_hits rt (mysql_handler self) ms
      end = Ok found).
    { destruct ms as [|m ms'] eqn:Ems; [exact Eun|].
      destruct (for_each_same_calls
                  (fun m => query_by_un_number (mysql_handler self) (py_int rt m))
                  (fun results chemicals =>
                     results ++ map (exact_hit rt (py "exact_un") 1) chemicals)
                  (fun total_found chemicals =>
                     total_found + Z.of_nat (length chemicals))
                  (m :: ms') [] found 0 Eun) as (n & ->).
      exact Eun. }
    rewrite Hfirst, Eun. cbn [bind].
    destruct found as [|h0 found'].
    + destruct (name_hits rt (mysql_handler self) query top_k) as [named|e] eqn:En;
        cbn [bind try_except].
      * exists (py_slice_to top_k named). split; [reflexivity|].
        split; [intros; apply py_slice_to_length; assumption|].
        split; [intros f Hf Hne; injection Hf as <-; congruence|].
        split; [|intros e' He'; discriminate He'].
        intros _. split.
        -- apply Forall_py_slice_to. eapply name_hits_forall; eauto.
        -- intros named' Hn. injection Hn as <-. reflexivity.
      * exists []. split; [reflexivity|].
        split; [simpl; lia|].
        split; [intros f Hf Hne; injection Hf as <-; congruence|].
        split; [|intros e' He'; discriminate He'].
        intros _. split; [constructor|discriminate].
    + cbn [bind try_except].
      exists (py_slice_to top_k (h0 :: found')). split; [reflexivity|].
      split; [intros; apply py_slice_to_length; assumption|].
      split; [|split; [discriminate|intros e' He'; discriminate He']].
      intros f Hf _. injection Hf as <-. split; [reflexivity|].
      apply Forall_py_slice_to. apply un_hits_forall. exact Eun.
  - (* a look-up raised: the handler returns the empty list *)
    assert (Hfirst :
      exists e',
      match ms with
      | [] => Ok []
      | _ :: _ =>
        _ <- for_each ms 0
               (fun total_found m =>
                  chemicals <- query_by_un_number (mysql_handler self) (py_int rt m) ;;
                  Ok (total_found + Z.of_nat (length chemicals))) ;;
        un_hits rt (mysql_handler self) ms
      end = Raise e').
    { destruct ms as [|m ms'] eqn:Ems; [discriminate|].
      destruct (for_each (m :: ms') 0 _); simpl; eauto. }
    destruct Hfirst as (e' & ->). rewrite Eun. cbn [bind try_except].
    exists []. split; [reflexivity|]. split; [simpl; lia|].
    split; [discriminate|]. split; [discriminate|]. intros; reflexivity.
Qed.
End ExactSearch.

Lemma catalogue_sound (rows : list Chemical) :
  forall n found, select_by_un (catalogue rows) n = Ok found ->
                  Forall (fun c => un_number c = n) found.
Proof.
  intros n found H. simpl in H. injection H as <-.
  apply Forall_forall. intros c Hc. apply filter_In in Hc.
  destruct Hc as [_ Hc]. apply Z.eqb_eq. exact Hc.
Qed.

Lemma exact_search_postcondition_witness :
  exists hits,
    _exact_search cpython sample_retriever (py "UN1133") 3 = Ok hits
    /\ Z.of_nat (length hits) <= 3
    /\ Forall (is_exact_un (extracted_numbers cpython (py "UN1133"))) hits.
Proof.
  destruct (exact_search_postcondition cpython sample_retriever
              (catalogue_sound sample_rows) (py "UN1133") 3)
    as (hits & Hret & Hlen & Hun & _ & _).
  exists hits. split; [exact Hret|]. split; [apply Hlen; lia|].
  eapply Hun; [vm_compute; reflexivity|discriminate].
Defined.

(** C3 as stated fails: the query holds an identifier token, the
    catalogue has no record of it, and the hit returned comes from the
    name search through the term expansions, with score 0.9.  With a
    negative cap more than [top_k] hits are returned. *)
Lemma identifier_query_returns_name_hits :
  extracted_numbers cpython (py "UN9999 电池") = [9999]
  /\ _exact_search cpython sample_retriever (py "UN9999 电池") 1
     = Ok [exact_hit cpython (py "exact_name") (9 # 10) battery]
  /\ _exact_search cpython sample_retriever (py "UN1133") (-1)
     = Ok (map (exact_hit cpython (py "exact_un") 1)
               [adhesive_I; adhesive_II; adhesive_III]).
Proof. repeat split; vm_compute; reflexivity. Qed.

(* ------------------------------------------------------------------ *)
(** ** Every guarded function returns *)

Section Returns.
Variable rt : Runtime.
Variable self : HybridRetriever.

Lemma exact_search_returns (query : pystr) (top_k : Z) :
  exists hits, _exact_search rt self query top_k = Ok hits.
Proof. apply try_except_returns. eauto. Qed.

Lemma vector_search_returns (vh : VectorHandler) (query : pystr) (top_k : option Z) :
  exists hits, semantic_search vh query top_k = Ok hits.
Proof. apply try_except_returns. eauto. Qed.

Lemma semantic_search_returns (query : pystr) (top_k : Z) :
  exists hits, _semantic_search self query top_k = Ok hits.
Proof. apply try_except_returns. eauto. Qed.

Lemma merge_results_eq (results1 results2 : list Hit) :
  _merge_results rt results1 results2
  = Ok (sort_by_score
          (dict_values (fold_left (merge_step rt) (results1 ++ results2) []))).
Proof. reflexivity. Qed.

Lemma merge_regulations_eq (regulations1 regulations2 : list Hit) :
  _merge_regulations rt regulations1 regulations2
  = Ok (sort_by_score
          (dict_values (fold_left (keep_first rt) (regulations1 ++ regulations2) []))).
Proof. unfold _merge_regulations. rewrite fold_left_app. reflexivity. Qed.

Lemma hybrid_search_returns (query : pystr) (top_k : Z) :
  exists hits, _hybrid_search rt self query top_k = Ok hits.
Proof. apply try_except_returns. eauto. Qed.

Lemma auto_search_returns (query : pystr) (top_k : Z) :
  exists hits, _auto_search rt self query top_k = Ok hits.
Proof. apply try_except_returns. eauto. Qed.

Lemma basic_search_returns (query strategy : pystr) (top_k : Z) :
  exists hits, basic_search rt self query strategy top_k = Ok hits.
Proof.
  unfold basic_search.
  destruct (pystr_eqb strategy (py "exact")); [apply exact_search_returns|].
  destruct (pystr_eqb strategy (py "semantic")); [apply semantic_search_returns|].
  destruct (pystr_eqb strategy (py "hybrid")); [apply hybrid_search_returns|].
  apply auto_search_returns.
Qed.

Lemma find_related_regulations_returns (chemicals : list Hit) (query : pystr) :
  exists regs, _find_related_regulations rt self chemicals query = Ok regs.
Proof. apply try_except_returns. eauto. Qed.

Lemma build_structured_result_returns (basic_results : list Hit) (query : pystr) :
  exists r, _build_structured_result rt self basic_results query = Ok r
            /\ r_query r = query.
Proof.
  unfold _build_structured_result. cbv zeta.
  destruct (_find_related_regulations rt self _ query) as [related|e];
    cbn [bind try_except]; [|eexists; split; reflexivity].
  rewrite merge_regulations_eq. cbn [bind try_except].
  eexists; split; reflexivity.
Qed.

Lemma fallback_search_returns (query : pystr) (top_k : Z) :
  exists r, _fallback_search rt self query top_k = Ok r /\ r_query r = query.
Proof.
  unfold _fallback_search.
  destruct (_extract_chemical_names rt query) as [|name names];
    cbn [try_except]; [eexists; split; reflexivity|].
  destruct (for_each (name :: names) [] _) as [[|h all_results]|e];
    cbn [bind try_except]; try (eexists; split; reflexivity).
  destruct (build_structured_result_returns (h :: all_results) query)
    as (r & -> & Hq).
  exists r. split; [reflexivity|exact Hq].
Qed.

(** The hybrid search is the merge of the two sub-searches, each run
    with the cap [top_k // 2 + 1], cut to [top_k]. *)
Lemma hybrid_search_eq (query : pystr) (top_k : Z) :
  exists exact_results semantic_results combined,
    _exact_search rt self query (top_k / 2 + 1) = Ok exact_results
    /\ _semantic_search self query (top_k / 2 + 1) = Ok semantic_results
    /\ _merge_results rt exact_results semantic_results = Ok combined
    /\ _hybrid_search rt self query top_k = Ok (py_slice_to top_k combined).
Proof.
  destruct (exact_search_returns query (top_k / 2 + 1)) as (ex & Hex).
  destruct (semantic_search_returns query (top_k / 2 + 1)) as (se & Hse).
  exists ex, se, (sort_by_score
                    (dict_values (fold_left (merge_step rt) (ex ++ se) []))).
  repeat split; try assumption.
  unfold _hybrid_search. rewrite Hex, Hse. reflexivity.
Qed.
End Returns.

(* ------------------------------------------------------------------ *)
(** ** Hybrid Search *)

Lemma floor_cap_is_ceil_cap (top_k : Z) :
  top_k / 2 + 1 = ceil_half top_k + 1 <-> Z.even top_k = true.
Proof.
  unfold ceil_half. rewrite Z.even_spec. split.
  - intros H. exists (top_k / 2).
    pose proof (Z.div_mod top_k 2 ltac:(lia)).
    pose proof (Z.div_mod (- top_k) 2 ltac:(lia)).
    pose proof (Z.mod_pos_bound top_k 2 ltac:(lia)).
    pose proof (Z.mod_pos_bound (- top_k) 2 ltac:(lia)). lia.
  - intros [m ->]. replace (- (2 * m)) with ((- m) * 2) by lia.
    replace (2 * m) with (m * 2) by lia. rewrite !Z.div_mul by lia. lia.
Qed.

(** C5, amended.  Hybrid Search runs Exact Search and Semantic Search on
    the same query, each with the cap [floor(top_k/2) + 1], merges the two
    lists with the Merge algorithm and returns the first [top_k] hits of
    the merge (at most [top_k] hits when [top_k] is not negative).  The
    cap equals [ceil(top_k/2) + 1] exactly when [top_k] is even. *)
Theorem hybrid_search_contract (rt : Runtime) (self : HybridRetriever)
  (query : pystr) (top_k : Z) :
  exists exact_results semantic_results combined,
    _exact_search rt self query (top_k / 2 + 1) = Ok exact_results
    /\ _semantic_search self query (top_k / 2 + 1) = Ok semantic_results
    /\ _merge_results rt exact_results semantic_results = Ok combined
    /\ _hybrid_search rt self query top_k = Ok (py_slice_to top_k combined)
    /\ (0 <= top_k -> Z.of_nat (length (py_slice_to top_k combined)) <= top_k)
    /\ (top_k / 2 + 1 = ceil_half top_k + 1 <-> Z.even top_k = true).
Proof.
  destruct (hybrid_search_eq rt self query top_k) as (ex & se & co & H1 & H2 & H3 & H4).
  exists ex, se, co. repeat split; try assumption.
  - apply py_slice_to_length.
  - apply floor_cap_is_ceil_cap.
  - apply floor_cap_is_ceil_cap.
Qed.

(** C5 as stated fails for an odd [top_k]: with [top_k = 5] the code asks
    Exact Search for 3 records where the specification asks for 4, and
    the fourth packaging variant of UN 1133 is missing from the result. *)
Lemma hybrid_cap_is_floor :
  (exists hits,
     _hybrid_search cpython sample_retriever (py "UN1133") 5 = Ok hits
     /\ map (fun h => option_map row_id (chemical_data h)) hits
        = [Some 1; Some 2; Some 3; None; None])
  /\ (exists hits,
        hybrid_search_spec cpython sample_retriever (py "UN1133") 5 = Ok hits
        /\ map (fun h => option_map row_id (chemical_data h)) hits
           = [Some 1; Some 2; Some 3; Some 4; None]).
Proof. split; eexists; split; vm_compute; reflexivity. Qed.

(* ------------------------------------------------------------------ *)
(** ** The entry point *)

Section Retrieve.
Variable rt : Runtime.
Variable self : HybridRetriever.

Lemma retrieve_returns_tagged (query strategy : pystr) (top_k : Z) :
  exists r, retrieve rt self query strategy top_k = Ok r /\ r_query r = query.
Proof.
  unfold retrieve.
  destruct (basic_search_returns rt self query strategy top_k) as (basic & ->).
  cbn [bind].
  destruct (build_structured_result_returns rt self basic query) as (sr & -> & Hsr).
  cbn [bind].
  destruct (is_empty (r_chemical_data sr) && is_empty (r_regulations sr));
    [|exists sr; split; [reflexivity|exact Hsr]].
  destruct (fallback_search_returns rt self query top_k) as (fr & -> & Hfr).
  cbn [bind].
  destruct (negb (is_empty (r_chemical_data fr)) || negb (is_empty (r_regulations fr)));
    eexists; (split; [reflexivity|assumption]).
Qed.

(** C10.  A strategy other than [exact], [semantic] and [hybrid] --
    [auto], a misspelling, anything -- is dispatched to the auto search and
    is never refused: the call returns normally, and what it returns is
    built from the hits of [_auto_search].  It is the structured form of
    these hits when that holds a chemical or a regulation, and otherwise
    the result of the fallback search when that one holds something, the
    (empty) structured form if not.  So the call returns what [retrieve]
    returns for [auto]. *)
Theorem retrieve_unknown_strategy (query strategy : pystr) (top_k : Z) :
  strategy <> py "exact" ->
  strategy <> py "semantic" ->
  strategy <> py "hybrid" ->
  basic_search rt self query strategy top_k = _auto_search rt self query top_k
  /\ retrieve rt self query strategy top_k
     = retrieve rt self query (py "auto") top_k
  /\ exists hits structured r,
       _auto_search rt self query top_k = Ok hits
       /\ _build_structured_result rt self hits query = Ok structured
       /\ r_chemical_data structured = filter (has_doc_type (py "chemical")) hits
       /\ retrieve rt self query strategy top_k = Ok r
       /\ r_query r = query
       /\ (r_chemical_data structured <> [] \/ r_regulations structured <> [] ->
           r = structured)
       /\ (r_chemical_data structured = [] -> r_regulations structured = [] ->
           exists fallback,
             _fallback_search rt self query top_k = Ok fallback
             /\ r = if negb (is_empty (r_chemical_data fallback))
                       || negb (is_empty (r_regulations fallback))
                    then fallback else structured).
Proof.
  intros He Hs Hh.
  assert (Hbasic : forall s, s <> py "exact" -> s <> py "semantic" ->
                             s <> py "hybrid" ->
                             basic_search rt self query s top_k
                             = _auto_search rt self query top_k).
  { intros s H1 H2 H3. unfold basic_search.
    rewrite !pystr_eqb_neq by assumption. reflexivity. }
  split; [apply Hbasic; assumption|]. split.
  { unfold retrieve. rewrite Hbasic by assumption.
    rewrite (Hbasic (py "auto")) by (vm_compute; discriminate). reflexivity. }
  destruct (auto_search_returns rt self query top_k) as (hits & Hauto).
  assert (Hbuild : exists regs,
             _build_structured_result rt self hits query
             = Ok {| r_query := query;
                     r_chemical_data := filter (has_doc_type (py "chemical")) hits;
                     r_regulations := regs;
                     total_chemicals :=
                       Some (Z.of_nat (length (filter (has_doc_type (py "chemical"))
                                                      hits)));
                     total_regulations := Some (Z.of_nat (length regs)) |}).
  { unfold _build_structured_result. cbv zeta.
    destruct (find_related_regulations_returns rt self
                (filter (has_doc_type (py "chemical")) hits) query) as (related & ->).
    cbn [bind]. rewrite merge_regulations_eq. cbn [bind try_except]. eauto. }
  destruct Hbuild as (regs & Hbuild).
  destruct (fallback_search_returns rt self query top_k) as (fallback & Hfb & Hfq).
  exists hits. eexists. 
  assert (Hret : exists r,
             retrieve rt self query strategy top_k = Ok r
             /\ r_query r = query
             /\ (filter (has_doc_type (py "chemical")) hits <> [] \/ regs <> [] ->
                 r = {| r_query := query;
                        r_chemical_data := filter (has_doc_type (py "chemical")) hits;
                        r_regulations := regs;
                        total_chemicals :=
                          Some (Z.of_nat (length (filter (has_doc_type (py "chemical"))
                                                         hits)));
                        total_regulations := Some (Z.of_nat (length regs)) |})
             /\ (filter (has_doc_type (py "chemical")) hits = [] -> regs = [] ->
                 r = if negb (is_empty (r_chemical_data fallback))
                        || negb (is_empty (r_regulations fallback))
                     then fallback
                     else {| r_query := query;
                             r_chemical_data :=
                               filter (has_doc_type (py "chemical")) hits;
                             r_regulations := regs;
                             total_chemicals :=
                               Some (Z.of_nat
                                       (length (filter (has_doc_type (py "chemical"))
                                                       hits)));
                             total_regulations := Some (Z.of_nat (length regs)) |})).
  { unfold retrieve. rewrite Hbasic by assumption. rewrite Hauto. cbn [bind].
    rewrite Hbuild. cbn [bind r_chemical_data r_regulations].
    destruct (filter (has_doc_type (py "chemical")) hits) as [|c chemicals].
    - destruct regs as [|g regs'].
      + cbn [is_empty andb]. rewrite Hfb. cbn [bind].
        destruct (negb (is_empty (r_chemical_data fallback))
                  || negb (is_empty (r_regulations fallback))) eqn:E;
          cbn [try_except]; eexists;
          (split; [reflexivity|]); (split; [first [exact Hfq|reflexivity]|]);
          (split; [intros [H|H]; congruence|intros _ _; reflexivity]).
      + cbn [is_empty andb try_except]. eexists. split; [reflexivity|].
        split; [reflexivity|]. split; [intros _; reflexivity|intros _ H; discriminate H].
    - cbn [is_empty andb try_except]. eexists. split; [reflexivity|].
      split; [reflexivity|]. split; [intros _; reflexivity|intros H; discriminate H]. }
  destruct Hret as (r & Hr & Hq & Hsome & Hnone).
  exists r. split; [exact Hauto|]. split; [exact Hbuild|].
  cbn [r_chemical_data r_regulations].
  split; [reflexivity|]. split; [exact Hr|]. split; [exact Hq|].
  split; [exact Hsome|].
  intros H1 H2. exists fallback. split; [exact Hfb|]. apply Hnone; assumption.
Qed.

(** With nothing found by either sub-search the merged searches find
    nothing. *)
Hypothesis exact_finds_nothing :
  forall q k, _exact_search rt self q k = Ok [].
Hypothesis semantic_finds_nothing :
  forall q k, _semantic_search self q k = Ok [].

Lemma py_slice_to_nil {A} (k : Z) : py_slice_to k (@nil A) = [].
Proof. unfold py_slice_to. destruct (k <? 0); apply firstn_nil. Qed.

Lemma hybrid_finds_nothing (q : pystr) (k : Z) :
  _hybrid_search rt self q k = Ok [].
Proof.
  unfold _hybrid_search.
  rewrite exact_finds_nothing, semantic_finds_nothing. cbn.
  rewrite py_slice_to_nil. reflexivity.
Qed.

Lemma auto_finds_nothing (q : pystr) (k : Z) :
  _auto_search rt self q k = Ok [].
Proof.
  unfold _auto_search. cbv zeta.
  destruct (pystr_eqb _ (py "un_number")).
  { rewrite exact_finds_nothing. reflexivity. }
  destruct (pystr_eqb _ (py "name_search")).
  { rewrite hybrid_finds_nothing. reflexivity. }
  rewrite semantic_finds_nothing. cbn [bind].
  destruct (Z.of_nat (length (@nil Hit)) <? k); [|reflexivity].
  rewrite exact_finds_nothing. cbn. rewrite py_slice_to_nil. reflexivity.
Qed.

Lemma basic_finds_nothing (q strategy : pystr) (k : Z) :
  basic_search rt self q strategy k = Ok [].
Proof.
  unfold basic_search.
  destruct (pystr_eqb strategy (py "exact")); [apply exact_finds_nothing|].
  destruct (pystr_eqb strategy (py "semantic")); [apply semantic_finds_nothing|].
  destruct (pystr_eqb strategy (py "hybrid")); [apply hybrid_finds_nothing|].
  apply auto_finds_nothing.
Qed.

Lemma list_set_nil : py_list_set rt [] = [].
Proof.
  unfold py_list_set. simpl. apply Permutation_nil. apply set_iter_perm.
Qed.

Lemma build_nothing (query : pystr) :
  _build_structured_result rt self [] query
  = Ok {| r_query := query; r_chemical_data := []; r_regulations := [];
          total_chemicals := Some 0; total_regulations := Some 0 |}.
Proof.
  unfold _build_structured_result, _find_related_regulations, specific_tiers,
    category_tier. cbn. rewrite list_set_nil. cbn. reflexivity.
Qed.

Lemma fallback_nothing (query : pystr) (top_k : Z) :
  _fallback_search rt self query top_k = Ok (empty_result query).
Proof.
  unfold _fallback_search.
  destruct (_extract_chemical_names rt query) as [|name names]; [reflexivity|].
  assert (H : for_each (name :: names) []
                (fun all_results name =>
                   results <- _hybrid_search rt self name top_k ;;
                   Ok (all_results ++ results)) = Ok []).
  { generalize (name :: names). induction l as [|x l IH]; [reflexivity|].
    cbn [for_each]. rewrite hybrid_finds_nothing. cbn. exact IH. }
  rewrite H. reflexivity.
Qed.

Lemma retrieve_nothing (query strategy : pystr) (top_k : Z) :
  retrieve rt self query strategy top_k
  = Ok {| r_query := query; r_chemical_data := []; r_regulations := [];
          total_chemicals := Some 0; total_regulations := Some 0 |}.
Proof.
  unfold retrieve. rewrite basic_finds_nothing. cbn [bind].
  rewrite build_nothing. cbn. rewrite fallback_nothing. reflexivity.
Qed.
End Retrieve.

Lemma retrieve_unknown_strategy_witness :
  exists r,
    retrieve cpython sample_retriever (py "UN1133") (py "hybird") 5 = Ok r
    /\ retrieve cpython sample_retriever (py "UN1133") (py "auto") 5 = Ok r
    /\ r_chemical_data r
       = map (exact_hit cpython (py "exact_un") 1)
             [adhesive_I; adhesive_II; adhesive_III; adhesive_none].
Proof.
  destruct (retrieve_unknown_strategy cpython sample_retriever
              (py "UN1133") (py "hybird") 5)
    as (_ & Hsame & hits & structured & r & Hauto & _ & Hchem & Hret & _ & Hsome & _);
    [vm_compute; discriminate..|].
  assert (Hhits : hits = map (exact_hit cpython (py "exact_un") 1)
                             [adhesive_I; adhesive_II; adhesive_III; adhesive_none]).
  { vm_compute in Hauto. injection Hauto as <-. vm_compute. reflexivity. }
  assert (Hc : r_chemical_data structured
               = map (exact_hit cpython (py "exact_un") 1)
                     [adhesive_I; adhesive_II; adhesive_III; adhesive_none]).
  { rewrite Hchem, Hhits. reflexivity. }
  exists r. split; [exact Hret|]. split; [rewrite <- Hsame; exact Hret|].
  assert (Hne : r_chemical_data structured <> []) by (rewrite Hc; discriminate).
  rewrite (Hsome (or_introl Hne)). exact Hc.
Defined.

(** A store whose session cannot be opened: Exact Search finds nothing. *)
Lemma exact_search_offline (rt : Runtime) (self : HybridRetriever)
  (query : pystr) (top_k : Z) :
  Session (mysql_handler self) = Raise OtherError ->
  _exact_search rt self query top_k = Ok [].
Proof.
  intros Hs. unfold _exact_search, name_hits, search_by_name, un_hits. cbv zeta.
  destruct (findall_un rt query) as [|m ms].
  - cbn. rewrite Hs. reflexivity.
  - cbn [for_each]. unfold query_by_un_number. rewrite Hs. reflexivity.
Qed.

(** An index that holds no document, or whose vectorizer was never
    fitted: Semantic Search finds nothing. *)
Lemma vector_search_untrained (vh : VectorHandler) (query : pystr) (top_k : option Z) :
  index vh = None \/ is_fitted (vectorizer vh) = false ->
  semantic_search vh query top_k = Ok [].
Proof.
  intros H. unfold semantic_search. cbv zeta.
  destruct (index vh) as [ix|]; [|reflexivity].
  destruct H as [H|H]; [discriminate|]. rewrite H.
  destruct (ntotal ix =? 0); reflexivity.
Qed.

Lemma semantic_search_untrained (self : HybridRetriever) (query : pystr) (top_k : Z) :
  index (vector_handler self) = None
  \/ is_fitted (vectorizer (vector_handler self)) = false ->
  _semantic_search self query top_k = Ok [].
Proof.
  intros H. unfold _semantic_search.
  rewrite vector_search_untrained by exact H. reflexivity.
Qed.

(** C1, amended.  [retrieve] returns normally for every query, strategy
    and [top_k], whatever the store and the index do, and its result
    carries the original query.  An error inside a sub-search is absorbed
    by that sub-search, which then contributes no hit, and the rest of the
    pipeline still runs; the result has empty [chemical_data] and
    [regulations] when neither sub-search finds anything, which is the
    case when the store cannot be reached and the index was never
    trained. *)
Theorem retrieve_never_raises (rt : Runtime) (self : HybridRetriever)
  (query strategy : pystr) (top_k : Z) :
  exists r,
    retrieve rt self query strategy top_k = Ok r
    /\ r_query r = query
    /\ ((forall q k, _exact_search rt self q k = Ok []) ->
        (forall q k, _semantic_search self q k = Ok []) ->
        r_chemical_data r = [] /\ r_regulations r = [])
    /\ (Session (mysql_handler self) = Raise OtherError ->
        index (vector_handler self) = None
        \/ is_fitted (vectorizer (vector_handler self)) = false ->
        r_chemical_data r = [] /\ r_regulations r = []).
Proof.
  destruct (retrieve_returns_tagged rt self query strategy top_k) as (r & Hr & Hq).
  exists r. split; [exact Hr|]. split; [exact Hq|].
  assert (Hnothing :
    (forall q k, _exact_search rt self q k = Ok []) ->
    (forall q k, _semantic_search self q k = Ok []) ->
    r_chemical_data r = [] /\ r_regulations r = []).
  { intros He Hs.
    rewrite (retrieve_nothing rt self He Hs query strategy top_k) in Hr.
    injection Hr as <-. split; reflexivity. }
  split; [exact Hnothing|].
  intros Hoff Hun. apply Hnothing.
  - intros q k. apply exact_search_offline. exact Hoff.
  - intros q k. apply semantic_search_untrained. exact Hun.
Qed.

Lemma retrieve_never_raises_witness :
  exists r,
    retrieve cpython unreachable_retriever (py "UN1133 电池的运输要求") (py "auto") 5
    = Ok r
    /\ r_query r = py "UN1133 电池的运输要求"
    /\ r_chemical_data r = [] /\ r_regulations r = [].
Proof.
  destruct (retrieve_never_raises cpython unreachable_retriever
              (py "UN1133 电池的运输要求") (py "auto") 5)
    as (r & Hr & Hq & _ & Hoff).
  exists r. split; [exact Hr|]. split; [exact Hq|].
  apply Hoff; [reflexivity|left; reflexivity].
Defined.

(** C1 as stated fails: the store raises while Exact Search runs inside
    the hybrid strategy; Exact Search turns the error into an empty list
    and the result still holds the two regulations Semantic Search
    found. *)
Lemma store_failure_not_empty_result :
  query_by_un_number (mysql_handler offline_retriever) 1133 = Raise OtherError
  /\ _exact_search cpython offline_retriever (py "UN1133") 3 = Ok []
  /\ exists r,
       retrieve cpython offline_retriever (py "UN1133") (py "hybrid") 5 = Ok r
       /\ r_chemical_data r = []
       /\ map (fun h => md_id (metadata h)) (r_regulations r)
          = [Some (py "appendix_0_0"); Some (py "appendix_1_0")].
Proof.
  split; [reflexivity|]. split; [vm_compute; reflexivity|].
  eexists. split; [vm_compute; reflexivity|]. split; reflexivity.
Qed.

(* ------------------------------------------------------------------ *)
(** ** Sorting by score *)

Lemma Qlt_bool_true (a b : Q) : Qlt_bool a b = true -> (a < b)%Q.
Proof.
  unfold Qlt_bool. intros H. apply negb_true_iff in H.
  apply Qnot_le_lt. intros Hle. apply Qle_bool_iff in Hle. congruence.
Qed.

Lemma Qlt_bool_false (a b : Q) : Qlt_bool a b = false -> (b <= a)%Q.
Proof.
  unfold Qlt_bool. intros H. apply negb_false_iff in H.
  apply Qle_bool_iff. exact H.
Qed.

Lemma insert_by_score_perm (x : Hit) (l : list Hit) :
  Permutation (x :: l) (insert_by_score x l).
Proof.
  induction l as [|y l IH]; simpl; [reflexivity|].
  destruct (Qlt_bool (score x) (score y)); [|reflexivity].
  rewrite perm_swap. constructor. exact IH.
Qed.

Lemma sort_by_score_perm (xs : list Hit) : Permutation xs (sort_by_score xs).
Proof.
  induction xs as [|x xs IH]; simpl; [constructor|].
  rewrite <- insert_by_score_perm. constructor. exact IH.
Qed.

Lemma sort_by_score_In (xs : list Hit) (h : Hit) :
  In h (sort_by_score xs) <-> In h xs.
Proof.
  split; apply Permutation_in;
    [symmetry|]; apply sort_by_score_perm.
Qed.

Lemma insert_by_score_sorted (x : Hit) (l : list Hit) :
  sorted_desc l -> sorted_desc (insert_by_score x l).
Proof.
  unfold sorted_desc. induction l as [|y l IH]; simpl; intros Hs.
  - repeat constructor.
  - inversion Hs as [|? ? Hl Hy]; subst.
    destruct (Qlt_bool (score x) (score y)) eqn:E.
    + constructor; [apply IH; exact Hl|].
      apply Forall_forall. intros z Hz.
      apply (Permutation_in _ (Permutation_sym (insert_by_score_perm x l))) in Hz.
      destruct Hz as [<-|Hz].
      * apply Qlt_le_weak. apply Qlt_bool_true. exact E.
      * rewrite Forall_forall in Hy. apply Hy. exact Hz.
    + apply Qlt_bool_false in E. constructor; [exact Hs|].
      constructor; [exact E|].
      apply Forall_forall. intros z Hz. rewrite Forall_forall in Hy.
      unfold by_score_desc in *. eapply Qle_trans; [apply Hy; exact Hz|exact E].
  Qed.

Lemma sort_by_score_sorted (xs : list Hit) : sorted_desc (sort_by_score xs).
Proof.
  induction xs as [|x xs IH]; simpl; [constructor|].
  apply insert_by_score_sorted. exact IH.
Qed.

(** The sort is stable: the hits of one score keep their order. *)
Lemma insert_by_score_stable (s : Q) (x : Hit) (l : list Hit) :
  filter (tied s) (insert_by_score x l) = filter (tied s) (x :: l).
Proof.
  induction l as [|y l IH]; [reflexivity|].
  cbn [insert_by_score]. destruct (Qlt_bool (score x) (score y)) eqn:E; [|reflexivity].
  cbn [filter] in *. rewrite IH.
  destruct (tied s x) eqn:Ex; [|reflexivity].
  destruct (tied s y) eqn:Ey; [|reflexivity].
  exfalso. unfold tied in *. apply Qeq_bool_iff in Ex, Ey.
  apply Qlt_bool_true in E. rewrite Ex, Ey in E. exact (Qlt_irrefl _ E).
Qed.

Lemma sort_by_score_stable (s : Q) (xs : list Hit) :
  filter (tied s) (sort_by_score xs) = filter (tied s) xs.
Proof.
  induction xs as [|x xs IH]; [reflexivity|].
  cbn [sort_by_score]. rewrite insert_by_score_stable.
  cbn [filter]. rewrite IH. reflexivity.
Qed.

Lemma sorted_desc_firstn (n : nat) (xs : list Hit) :
  sorted_desc xs -> sorted_desc (firstn n xs).
Proof.
  unfold sorted_desc. revert n. induction xs as [|x xs IH]; intros n Hs.
  - rewrite firstn_nil. constructor.
  - destruct n; simpl; [constructor|].
    inversion Hs as [|? ? Hxs Hx]; subst. constructor; [apply IH; exact Hxs|].
    apply Forall_forall. intros y Hy. apply In_firstn in Hy.
    rewrite Forall_forall in Hx. apply Hx. exact Hy.
Qed.

Lemma sorted_desc_slice (k : Z) (xs : list Hit) :
  sorted_desc xs -> sorted_desc (py_slice_to k xs).
Proof.
  intros H. unfold py_slice_to. destruct (k <? 0); apply sorted_desc_firstn; exact H.
Qed.

(* ------------------------------------------------------------------ *)
(** ** The de-duplication dictionary *)

Lemma existsb_pystr_In (k : pystr) (ks : list pystr) :
  existsb (pystr_eqb k) ks = true <-> In k ks.
Proof.
  rewrite existsb_exists. split.
  - intros (x & Hx & E). apply pystr_eqb_eq in E. subst. exact Hx.
  - intros H. exists k. split; [exact H|apply pystr_eqb_refl].
Qed.

Lemma dict_get_None (k : pystr) (d : dict) :
  dict_get k d = None <-> ~ In k (map fst d).
Proof.
  induction d as [|[k' v] d IH]; simpl; [tauto|].
  destruct (pystr_eqb k' k) eqn:E.
  - apply pystr_eqb_eq in E. subst. split; [discriminate|tauto].
  - assert (k' <> k) by (intros ->; rewrite pystr_eqb_refl in E; discriminate).
    rewrite IH. tauto.
Qed.

Lemma dict_get_Some (k : pystr) (v : Hit) (d : dict) :
  dict_get k d = Some v -> In (k, v) d.
Proof.
  induction d as [|[k' v'] d IH]; simpl; [discriminate|].
  destruct (pystr_eqb k' k) eqn:E.
  - apply pystr_eqb_eq in E. intros H. injection H as <-. subst. auto.
  - auto.
Qed.

Lemma dict_set_keys (k : pystr) (v : Hit) (d : dict) :
  map fst (dict_set k v d) = add_key (map fst d) k.
Proof.
  unfold add_key. induction d as [|[k' v'] d IH]; simpl; [reflexivity|].
  destruct (pystr_eqb k' k) eqn:E.
  - apply pystr_eqb_eq in E. subst. rewrite pystr_eqb_refl. reflexivity.
  - assert (E' : pystr_eqb k k' = false).
    { apply pystr_eqb_neq. intros ->. rewrite pystr_eqb_refl in E. discriminate. }
    rewrite E'. simpl. rewrite IH.
    destruct (existsb (pystr_eqb k) (map fst d)); reflexivity.
Qed.

(** The entries after an assignment, for a dictionary without repeated
    keys. *)
Lemma dict_set_In (k : pystr) (v : Hit) (d : dict) (k' : pystr) (v' : Hit) :
  NoDup (map fst d) ->
  In (k', v') (dict_set k v d) <->
  (k' = k /\ v' = v) \/ (k' <> k /\ In (k', v') d).
Proof.
  induction d as [|[k0 v0] d IH]; simpl; intros Hnd.
  - split.
    + intros [H|[]]. injection H as <- <-. auto.
    + intros [[-> ->]|[_ []]]. auto.
  - inversion Hnd as [|? ? Hk0 Hnd']; subst.
    destruct (pystr_eqb k0 k) eqn:E.
    + apply pystr_eqb_eq in E. subst k0. simpl. split.
      * intros [H|H]; [injection H as <- <-; auto|].
        right. split; [|auto]. intros ->. apply Hk0.
        apply in_map_iff. exists (k, v'). auto.
      * intros [[-> ->]|[Hne [H|H]]]; [auto| |auto].
        injection H as -> _. congruence.
    + assert (Hk : k0 <> k) by (intros ->; rewrite pystr_eqb_refl in E; discriminate).
      simpl. rewrite (IH Hnd'). split.
      * intros [H|[H|H]]; [injection H as <- <-; auto|auto|tauto].
      * intros [H|[Hne [H|H]]]; [auto|auto|auto].
  Qed.

Lemma dict_functional (d : dict) (k : pystr) (v1 v2 : Hit) :
  NoDup (map fst d) -> In (k, v1) d -> In (k, v2) d -> v1 = v2.
Proof.
  induction d as [|[k0 v0] d IH]; simpl; intros Hnd H1 H2; [contradiction|].
  inversion Hnd as [|? ? Hk0 Hnd']; subst.
  destruct H1 as [H1|H1], H2 as [H2|H2].
  - congruence.
  - injection H1 as -> ->. exfalso. apply Hk0. apply in_map_iff. exists (k, v2). auto.
  - injection H2 as -> ->. exfalso. apply Hk0. apply in_map_iff. exists (k, v1). auto.
  - eauto.
Qed.

Lemma add_key_NoDup (keys : list pystr) (k : pystr) :
  NoDup keys -> NoDup (add_key keys k).
Proof.
  intros H. unfold add_key. destruct (existsb (pystr_eqb k) keys) eqn:E; [exact H|].
  apply NoDup_app; [exact H|repeat constructor; auto|].
  intros x Hx [<- | []]. apply existsb_pystr_In in Hx. congruence.
Qed.

Lemma add_key_In (keys : list pystr) (k x : pystr) :
  In x (add_key keys k) <-> In x keys \/ x = k.
Proof.
  unfold add_key. destruct (existsb (pystr_eqb k) keys) eqn:E.
  - apply existsb_pystr_In in E. split; [auto|]. intros [H | ->]; assumption.
  - rewrite in_app_iff. simpl. intuition congruence.
Qed.

Lemma fold_add_key_In (ks keys : list pystr) (x : pystr) :
  In x (fold_left add_key ks keys) <-> In x keys \/ In x ks.
Proof.
  revert keys. induction ks as [|k ks IH]; simpl; intros keys; [tauto|].
  rewrite IH, add_key_In. intuition congruence.
Qed.

Lemma fold_add_key_NoDup (ks keys : list pystr) :
  NoDup keys -> NoDup (fold_left add_key ks keys).
Proof.
  revert keys. induction ks as [|k ks IH]; simpl; intros keys H; [exact H|].
  apply IH. apply add_key_NoDup. exact H.
Qed.

Lemma fold_add_key_known (ks keys : list pystr) :
  (forall k, In k ks -> In k keys) -> fold_left add_key ks keys = keys.
Proof.
  revert keys. induction ks as [|k ks IH]; simpl; intros keys H; [reflexivity|].
  assert (E : add_key keys k = keys).
  { unfold add_key. rewrite (proj2 (existsb_pystr_In k keys)); auto. }
  rewrite E. apply IH. auto.
Qed.

Lemma first_seen_twice (ks : list pystr) : first_seen (ks ++ ks) = first_seen ks.
Proof.
  unfold first_seen. rewrite fold_left_app. apply fold_add_key_known.
  intros k Hk. apply fold_add_key_In. auto.
Qed.

Lemma first_seen_In (ks : list pystr) (k : pystr) :
  In k (first_seen ks) <-> In k ks.
Proof. unfold first_seen. rewrite fold_add_key_In. simpl. tauto. Qed.

Lemma first_seen_NoDup (ks : list pystr) : NoDup (first_seen ks).
Proof. apply fold_add_key_NoDup. constructor. Qed.

(* ------------------------------------------------------------------ *)
(** ** Merge *)

Section Merge.
Variable rt : Runtime.

Lemma merge_step_keys (d : dict) (x : Hit) :
  map fst (merge_step rt d x) = add_key (map fst d) (merge_key rt x).
Proof.
  unfold merge_step. cbv zeta.
  destruct (dict_get (merge_key rt x) d) as [kept|] eqn:E.
  - assert (Hk : add_key (map fst d) (merge_key rt x) = map fst d).
    { unfold add_key. rewrite (proj2 (existsb_pystr_In _ _)); [reflexivity|].
      apply dict_get_Some in E. apply in_map_iff. exists (merge_key rt x, kept). auto. }
    destruct (Qlt_bool (score kept) (score x)); [apply dict_set_keys|congruence].
  - apply dict_set_keys.
Qed.

Lemma merged_keys (xs : list Hit) (d : dict) :
  map fst (fold_left (merge_step rt) xs d)
  = fold_left add_key (map (merge_key rt) xs) (map fst d).
Proof.
  revert d. induction xs as [|x xs IH]; simpl; intros d; [reflexivity|].
  rewrite IH, merge_step_keys. reflexivity.
Qed.

Lemma merge_step_inv (seen : list Hit) (d : dict) (x : Hit) :
  merge_inv rt seen d -> merge_inv rt (seen ++ [x]) (merge_step rt d x).
Proof.
  intros (Hnd & Hent & Hcov).
  assert (Hkeys := merge_step_keys d x).
  split; [rewrite Hkeys; apply add_key_NoDup; exact Hnd|].
  split.
  - (* entries *)
    intros k v Hin. unfold merge_step in Hin. cbv zeta in Hin.
    destruct (dict_get (merge_key rt x) d) as [kept|] eqn:E.
    + pose proof (dict_get_Some _ _ _ E) as Hkept.
      destruct (Hent _ _ Hkept) as (_ & _ & Hbest).
      destruct (Qlt_bool (score kept) (score x)) eqn:Elt.
      * apply (dict_set_In _ _ _ _ _ Hnd) in Hin.
        destruct Hin as [[-> ->]|[Hne Hin]].
        -- split; [reflexivity|]. split; [apply in_or_app; simpl; auto|].
           intros h Hh Hk. apply in_app_or in Hh. destruct Hh as [Hh|[<-|[]]].
           ++ apply Qlt_le_weak. eapply Qle_lt_trans; [apply Hbest; assumption|].
              apply Qlt_bool_true. exact Elt.
           ++ apply Qle_refl.
        -- destruct (Hent _ _ Hin) as (Hk & Hs & Hb).
           split; [exact Hk|]. split; [apply in_or_app; auto|].
           intros h Hh Hkh. apply in_app_or in Hh. destruct Hh as [Hh|[<-|[]]].
           ++ apply Hb; assumption.
           ++ congruence.
      * destruct (Hent _ _ Hin) as (Hk & Hs & Hb).
        split; [exact Hk|]. split; [apply in_or_app; auto|].
        intros h Hh Hkh. apply in_app_or in Hh. destruct Hh as [Hh|[<-|[]]].
        -- apply Hb; assumption.
        -- subst k. rewrite Hkh in Hkept.
           rewrite (dict_functional _ _ _ _ Hnd Hin Hkept).
           apply Qlt_bool_false. exact Elt.
    + pose proof (proj1 (dict_get_None _ _) E) as Habs.
      apply (dict_set_In _ _ _ _ _ Hnd) in Hin.
      destruct Hin as [[-> ->]|[Hne Hin]].
      * split; [reflexivity|]. split; [apply in_or_app; simpl; auto|].
        intros h Hh Hk. apply in_app_or in Hh. destruct Hh as [Hh|[<-|[]]].
        -- exfalso. apply Habs. rewrite <- Hk. apply Hcov. exact Hh.
        -- apply Qle_refl.
      * destruct (Hent _ _ Hin) as (Hk & Hs & Hb).
        split; [exact Hk|]. split; [apply in_or_app; auto|].
        intros h Hh Hkh. apply in_app_or in Hh. destruct Hh as [Hh|[<-|[]]].
        -- apply Hb; assumption.
        -- congruence.
  - (* coverage *)
    intros h Hh. rewrite Hkeys. apply add_key_In.
    apply in_app_or in Hh. destruct Hh as [Hh|[<-|[]]]; auto.
Qed.

Lemma merge_fold_inv (xs seen : list Hit) (d : dict) :
  merge_inv rt seen d ->
  merge_inv rt (seen ++ xs) (fold_left (merge_step rt) xs d).
Proof.
  revert seen d. induction xs as [|x xs IH]; simpl; intros seen d H.
  - rewrite app_nil_r. exact H.
  - replace (seen ++ x :: xs) with ((seen ++ [x]) ++ xs)
      by (rewrite <- app_assoc; reflexivity).
    apply IH. apply merge_step_inv. exact H.
Qed.

Lemma merge_inv_nil : merge_inv rt [] [].
Proof.
  split; [constructor|]. split; [intros ? ? []|intros ? []].
Qed.

(** A hit already seen changes nothing. *)
Lemma merge_step_seen (seen : list Hit) (d : dict) (x : Hit) :
  merge_inv rt seen d -> In x seen -> merge_step rt d x = d.
Proof.
  intros (Hnd & Hent & Hcov) Hx. unfold merge_step. cbv zeta.
  destruct (dict_get (merge_key rt x) d) as [kept|] eqn:E.
  - apply dict_get_Some in E. destruct (Hent _ _ E) as (_ & _ & Hbest).
    destruct (Qlt_bool (score kept) (score x)) eqn:Elt; [|reflexivity].
    apply Qlt_bool_true in Elt. exfalso.
    apply (Qlt_not_le _ _ Elt). apply Hbest; auto.
  - apply dict_get_None in E. exfalso. apply E. apply Hcov. exact Hx.
Qed.

Lemma merge_fold_seen (xs seen : list Hit) (d : dict) :
  merge_inv rt seen d -> (forall x, In x xs -> In x seen) ->
  fold_left (merge_step rt) xs d = d.
Proof.
  intros Hinv. induction xs as [|x xs IH]; simpl; intros Hxs; [reflexivity|].
  rewrite (merge_step_seen seen d x) by auto. apply IH. auto.
Qed.

Lemma merged_values_keys (seen : list Hit) (d : dict) :
  merge_inv rt seen d -> map (merge_key rt) (dict_values d) = map fst d.
Proof.
  intros (_ & Hent & _). unfold dict_values. rewrite map_map.
  apply map_ext_in. intros [k v] Hin. simpl. apply (Hent _ _ Hin).
Qed.

(** What [_merge_results] returns for any two lists. *)
Lemma merge_results_spec (results1 results2 : list Hit) :
  exists kept,
    _merge_results rt results1 results2 = Ok (sort_by_score kept)
    /\ map (merge_key rt) kept
       = first_seen (map (merge_key rt) (results1 ++ results2))
    /\ (forall h, In h kept ->
          In h (results1 ++ results2)
          /\ forall h', In h' (results1 ++ results2) ->
                        merge_key rt h' = merge_key rt h ->
                        (score h' <= score h)%Q).
Proof.
  set (xs := results1 ++ results2).
  pose proof (merge_fold_inv xs [] [] merge_inv_nil) as Hinv.
  simpl in Hinv.
  exists (dict_values (fold_left (merge_step rt) xs [])).
  split; [reflexivity|]. split.
  - rewrite (merged_values_keys _ _ Hinv). apply merged_keys.
  - intros h Hh. unfold dict_values in Hh. apply in_map_iff in Hh.
    destruct Hh as ([k v] & <- & Hin). simpl.
    destruct Hinv as (_ & Hent & _).
    destruct (Hent _ _ Hin) as (Hk & Hs & Hb).
    split; [exact Hs|]. intros h' Hh' Hkey. apply Hb; congruence.
Qed.

(** C7.  Merging a list with itself returns normally, with exactly the
    keys of the list, each once; the hit kept for a key is a hit of the
    list and no hit of the list with that key has a higher score (a hit
    replaces the one kept only when its score is strictly higher); the
    output is sorted by score, largest first, and hits of equal score
    stand in the order in which their keys were first seen.  Merging
    the list with itself gives what merging it with nothing gives. *)
Theorem merge_idempotent (L : list Hit) :
  exists out,
    _merge_results rt L L = Ok out
    /\ (forall k, In k (map (merge_key rt) out) <-> In k (map (merge_key rt) L))
    /\ NoDup (map (merge_key rt) out)
    /\ (forall h, In h out ->
          In h L
          /\ forall h', In h' L -> merge_key rt h' = merge_key rt h ->
                        (score h' <= score h)%Q)
    /\ sorted_desc out
    /\ (exists kept,
          map (merge_key rt) kept = first_seen (map (merge_key rt) L)
          /\ out = sort_by_score kept
          /\ forall s, filter (tied s) out = filter (tied s) kept)
    /\ _merge_results rt L [] = Ok out.
Proof.
  destruct (merge_results_spec L L) as (kept & Hret & Hkeys & Hbest).
  rewrite map_app, first_seen_twice in Hkeys.
  assert (Hperm : Permutation (map (merge_key rt) kept)
                              (map (merge_key rt) (sort_by_score kept))).
  { apply Permutation_map. apply sort_by_score_perm. }
  exists (sort_by_score kept). split; [exact Hret|]. split.
  { intros k. rewrite <- (first_seen_In (map (merge_key rt) L)), <- Hkeys.
    split; apply Permutation_in; [symmetry|]; exact Hperm. }
  split.
  { eapply Permutation_NoDup; [exact Hperm|]. rewrite Hkeys. apply first_seen_NoDup. }
  split.
  { intros h Hh. apply (proj1 (sort_by_score_In _ _)) in Hh.
    destruct (Hbest h Hh) as (Hin & Hb).
    split.
    - apply in_app_or in Hin. tauto.
    - intros h' Hh'. apply Hb. apply in_or_app. auto. }
  split; [apply sort_by_score_sorted|]. split.
  { exists kept. split; [exact Hkeys|]. split; [reflexivity|].
    intros s. apply sort_by_score_stable. }
  rewrite merge_results_eq in Hret. rewrite merge_results_eq.
  rewrite app_nil_r. rewrite fold_left_app in Hret.
  rewrite (merge_fold_seen L L) in Hret; [exact Hret| |auto].
  pose proof (merge_fold_inv L [] [] merge_inv_nil) as Hinv. exact Hinv.
Qed.
End Merge.

(* ------------------------------------------------------------------ *)
(** ** Packaging variants *)

(** Two records of one identifier have the same key exactly when their
    packaging groups read the same, a missing group reading [None]. *)
Lemma chemical_key_same_un (c1 c2 : Chemical) :
  un_number c1 = un_number c2 ->
  (chemical_key c1 = chemical_key c2 <-> packaging_text c1 = packaging_text c2).
Proof.
  intros Hun. unfold chemical_key. rewrite Hun. split.
  - intros H. apply app_inv_head in H. apply app_inv_head in H.
    apply app_inv_head in H. exact H.
  - intros ->. reflexivity.
Qed.

(** Where the key works as its comment says: two chemical hits of the
    input with the same identifier whose packaging groups read differently
    -- a missing group reads as the text [None] -- have different keys, and
    the output of Merge holds a hit under each of the two keys, of a score
    at least that of the input hit; an input hit that is alone under its
    key is itself in the output. *)
Theorem merge_keeps_packaging_variants (rt : Runtime)
  (results1 results2 : list Hit) (h1 h2 : Hit) (c1 c2 : Chemical) :
  In h1 (results1 ++ results2) ->
  In h2 (results1 ++ results2) ->
  chemical_data h1 = Some c1 ->
  chemical_data h2 = Some c2 ->
  un_number c1 = un_number c2 ->
  packaging_text c1 <> packaging_text c2 ->
  exists out,
    _merge_results rt results1 results2 = Ok out
    /\ merge_key rt h1 = chemical_key c1
    /\ merge_key rt h2 = chemical_key c2
    /\ merge_key rt h1 <> merge_key rt h2
    /\ (exists o1 o2,
          In o1 out /\ In o2 out /\ o1 <> o2
          /\ merge_key rt o1 = merge_key rt h1 /\ (score h1 <= score o1)%Q
          /\ merge_key rt o2 = merge_key rt h2 /\ (score h2 <= score o2)%Q)
    /\ ((forall h, In h (results1 ++ results2) ->
                   merge_key rt h = merge_key rt h1 -> h = h1) ->
        In h1 out)
    /\ ((forall h, In h (results1 ++ results2) ->
                   merge_key rt h = merge_key rt h2 -> h = h2) ->
        In h2 out).
Proof.
  intros Hin1 Hin2 Hc1 Hc2 Hun Hpkg.
  destruct (merge_results_spec rt results1 results2) as (kept & Hret & Hkeys & Hbest).
  assert (Hk1 : merge_key rt h1 = chemical_key c1) by (unfold merge_key; rewrite Hc1; reflexivity).
  assert (Hk2 : merge_key rt h2 = chemical_key c2) by (unfold merge_key; rewrite Hc2; reflexivity).
  assert (Hne : merge_key rt h1 <> merge_key rt h2).
  { rewrite Hk1, Hk2. intros H. apply Hpkg. apply chemical_key_same_un; assumption. }
  assert (Hfind : forall h, In h (results1 ++ results2) ->
            exists o, In o (sort_by_score kept)
                      /\ merge_key rt o = merge_key rt h
                      /\ (score h <= score o)%Q).
  { intros h Hh.
    assert (Hk : In (merge_key rt h) (map (merge_key rt) kept)).
    { rewrite Hkeys. apply first_seen_In. apply in_map. exact Hh. }
    apply in_map_iff in Hk. destruct Hk as (o & Hko & Ho).
    exists o. split; [apply sort_by_score_In; exact Ho|]. split; [exact Hko|].
    apply (Hbest o Ho); [exact Hh|congruence]. }
  assert (Halone : forall h0, In h0 (results1 ++ results2) ->
            (forall h, In h (results1 ++ results2) ->
                       merge_key rt h = merge_key rt h0 -> h = h0) ->
            In h0 (sort_by_score kept)).
  { intros h0 Hh0 Huniq. destruct (Hfind h0 Hh0) as (o & Ho & Hko & _).
    rewrite <- (Huniq o); [exact Ho| |exact Hko].
    apply (Hbest o). apply sort_by_score_In. exact Ho. }
  exists (sort_by_score kept).
  split; [exact Hret|]. split; [exact Hk1|]. split; [exact Hk2|].
  split; [exact Hne|]. split.
  - destruct (Hfind h1 Hin1) as (o1 & Ho1 & Hko1 & Hs1).
    destruct (Hfind h2 Hin2) as (o2 & Ho2 & Hko2 & Hs2).
    exists o1, o2. repeat split; try assumption.
    intros ->. congruence.
  - split; apply Halone; assumption.
Qed.

(** The regression case: UN 1133 with packaging groups I and II. *)
Lemma merge_keeps_packaging_variants_witness :
  exists out,
    _merge_results cpython
      [exact_hit cpython (py "exact_un") 1 adhesive_I]
      [exact_hit cpython (py "exact_un") 1 adhesive_II] = Ok out
    /\ In (exact_hit cpython (py "exact_un") 1 adhesive_I) out
    /\ In (exact_hit cpython (py "exact_un") 1 adhesive_II) out.
Proof.
  destruct (merge_keeps_packaging_variants cpython
              [exact_hit cpython (py "exact_un") 1 adhesive_I]
              [exact_hit cpython (py "exact_un") 1 adhesive_II]
              (exact_hit cpython (py "exact_un") 1 adhesive_I)
              (exact_hit cpython (py "exact_un") 1 adhesive_II)
              adhesive_I adhesive_II)
    as (out & Hret & _ & _ & Hne & _ & Halone1 & Halone2).
  - simpl. auto.
  - simpl. auto.
  - reflexivity.
  - reflexivity.
  - reflexivity.
  - vm_compute. discriminate.
  - exists out. split; [exact Hret|]. split.
    + apply Halone1. intros h [<-|[<-|[]]] Hk; [reflexivity|].
      exfalso. apply Hne. symmetry. exact Hk.
    + apply Halone2. intros h [<-|[<-|[]]] Hk; [|reflexivity].
      exfalso. apply Hne. exact Hk.
Defined.

(** C2.  The key of [_merge_results] is built "so that records with
    different packaging groups are not de-duplicated", yet it formats a
    missing group as the text [None]: of two records of UN 1133, one
    without packaging group and one with the group [None] as a text, Merge
    keeps a single hit although the two packaging groups differ. *)
Lemma missing_group_collides_with_None :
  un_number adhesive_none = un_number adhesive_None
  /\ packaging_group adhesive_none = None
  /\ packaging_group adhesive_None = Some (py "None")
  /\ _merge_results cpython
       [exact_hit cpython (py "exact_un") 1 adhesive_none]
       [exact_hit cpython (py "exact_un") 1 adhesive_None]
     = Ok [exact_hit cpython (py "exact_un") 1 adhesive_none].
Proof. repeat split; vm_compute; reflexivity. Qed.

(* ------------------------------------------------------------------ *)
(** ** Regulation Association *)

(** A loop with a flag that never falls and that one round raises. *)
Lemma for_each_trigger {A S} (P : S -> Prop) (flag : S -> bool)
  (body : S -> A -> M S) (x0 : A) :
  (forall s x s1, P s -> body s x = Ok s1 -> P s1) ->
  (forall s x s1, flag s = true -> body s x = Ok s1 -> flag s1 = true) ->
  (forall s s1, P s -> body s x0 = Ok s1 -> flag s1 = true) ->
  forall (xs : list A) (s s' : S),
    In x0 xs -> P s -> for_each xs s body = Ok s' -> flag s' = true.
Proof.
  intros HP Hmono Hfire. induction xs as [|x xs IH]; simpl; intros s s' Hin Hs H.
  - contradiction.
  - inv_Ok H. destruct Hin as [->|Hin].
    + assert (Hf : flag v = true) by (apply (Hfire s v Hs Hv)).
      revert H. apply (for_each_invariant (fun s => flag s = true)); [exact Hf|].
      intros s0 y s1 _ Hs0 Hb. apply (Hmono s0 y s1 Hs0 Hb).
    + apply (IH v s' Hin); [apply (HP s x v Hs Hv)|exact H].
Qed.

Section Association.
Variable rt : Runtime.
Variable vh : VectorHandler.

Lemma accept_keeps_iff (regulations : list Hit) (st : list Hit * bool) :
  found_iff_collected st -> found_iff_collected (accept_regulations st regulations).
Proof.
  unfold accept_regulations. revert st.
  induction regulations as [|reg regs IH]; simpl; intros [related found] H; [exact H|].
  apply IH. destruct (from_appendix reg && negb (hit_in reg related)); [|exact H].
  unfold found_iff_collected. simpl. split; [|reflexivity].
  intros _ E. apply app_eq_nil in E. destruct E as [_ E]. discriminate.
Qed.

Lemma accept_keeps_found (regulations : list Hit) (st : list Hit * bool) :
  snd st = true -> snd (accept_regulations st regulations) = true.
Proof.
  unfold accept_regulations. revert st.
  induction regulations as [|reg regs IH]; simpl; intros [related found] H; [exact H|].
  apply IH. destruct (from_appendix reg && negb (hit_in reg related)); [reflexivity|exact H].
Qed.

(** A regulation of the corpus among the results raises the flag: it is
    appended, or it was collected before. *)
Lemma accept_raises_found (regulations : list Hit) (reg : Hit) :
  In reg regulations -> from_appendix reg = true ->
  forall st, found_iff_collected st ->
             snd (accept_regulations st regulations) = true.
Proof.
  unfold accept_regulations.
  induction regulations as [|r regs IH]; simpl; intros Hin Happ [related found] Hst;
    [contradiction|].
  destruct Hin as [->|Hin].
  - apply (accept_keeps_found regs). rewrite Happ. simpl.
    destruct (hit_in reg related) eqn:E; simpl; [|reflexivity].
    apply Hst. simpl. intros ->. discriminate.
  - apply IH; [exact Hin|exact Happ|].
    apply (accept_keeps_iff [r] (related, found)). exact Hst.
Qed.

Section Kept.
(** A property of the loop state that accepting the results of a
    search of the index preserves. *)
Variable P : list Hit * bool -> Prop.
Hypothesis accept_keeps :
  forall st q k regulations,
    semantic_search vh q k = Ok regulations ->
    P st -> P (accept_regulations st regulations).

Lemma provision_tier_keeps (st st' : list Hit * bool) (info : Chemical) :
  P st -> provision_tier rt vh st info = Ok st' -> P st'.
Proof.
  unfold provision_tier. intros Hst.
  destruct (truthy_str (special_provisions info));
    [|intros H; injection H as <-; exact Hst].
  apply for_each_invariant; [exact Hst|].
  intros s p s1 _ Hs H. destruct (py_isdigit rt p).
  - inv_Ok H. injection H as <-. eapply accept_keeps; eauto.
  - injection H as <-. exact Hs.
Qed.

Lemma related_for_chemical_keeps (st st' : list Hit * bool) (chemical : Hit) :
  P st -> related_for_chemical rt vh st chemical = Ok st' -> P st'.
Proof.
  unfold related_for_chemical. intros Hst H.
  destruct (chemical_data chemical) as [info|]; [|injection H as <-; exact Hst].
  inv_Ok H. pose proof (provision_tier_keeps _ _ _ Hst Hv) as Hv1.
  destruct (snd v); [injection H as <-; exact Hv1|].
  inv_Ok H.
  assert (Hv2 : P v0).
  { destruct (negb (un_number info =? 0)).
    - inv_Ok Hv0. injection Hv0 as <-. eapply accept_keeps; eauto.
    - injection Hv0 as <-. exact Hv1. }
  destruct (negb (snd v0) && truthy_str (chinese_name info));
    [|injection H as <-; exact Hv2].
  revert H. apply for_each_invariant; [exact Hv2|].
  intros s term s1 _ Hs H. inv_Ok H. injection H as <-.
  eapply accept_keeps; eauto.
Qed.
End Kept.

Lemma provision_tier_returns (st : list Hit * bool) (info : Chemical) :
  exists st', provision_tier rt vh st info = Ok st'.
Proof.
  unfold provision_tier. destruct (truthy_str (special_provisions info)); [|eauto].
  apply for_each_returns. intros s p. destruct (py_isdigit rt p); [|eauto].
  destruct (vector_search_returns vh p (Some 5)) as (regs & ->). simpl. eauto.
Qed.

Lemma related_for_chemical_returns (st : list Hit * bool) (chemical : Hit) :
  exists st', related_for_chemical rt vh st chemical = Ok st'.
Proof.
  unfold related_for_chemical.
  destruct (chemical_data chemical) as [info|]; [|eauto].
  destruct (provision_tier_returns st info) as (st1 & ->). cbn [bind].
  destruct (snd st1); [eauto|].
  assert (H : exists st2,
             (if negb (un_number info =? 0)
              then regulations <- semantic_search vh (py_str_int (un_number info)) (Some 3) ;;
                   Ok (accept_regulations st1 regulations)
              else Ok st1) = Ok st2).
  { destruct (negb (un_number info =? 0)); [|eauto].
    destruct (vector_search_returns vh (py_str_int (un_number info)) (Some 3))
      as (regs & ->). simpl. eauto. }
  destruct H as (st2 & ->). cbn [bind].
  destruct (negb (snd st2) && truthy_str (chinese_name info)); [|eauto].
  apply for_each_returns. intros s term.
  destruct (vector_search_returns vh term (Some 3)) as (regs & ->). simpl. eauto.
Qed.

Lemma specific_tiers_returns (chemicals : list Hit) :
  exists st, specific_tiers rt vh chemicals = Ok st /\ found_iff_collected st.
Proof.
  unfold specific_tiers.
  destruct (for_each_returns (related_for_chemical rt vh)
              related_for_chemical_returns chemicals ([], false)) as (st & Hst).
  exists st. split; [exact Hst|].
  revert Hst. apply for_each_invariant.
  - unfold found_iff_collected. simpl. split; [discriminate|congruence].
  - intros s c s1 _ Hs H.
    eapply (related_for_chemical_keeps found_iff_collected); eauto.
    intros; apply accept_keeps_iff; assumption.
Qed.

Lemma category_tier_returns (chemicals related : list Hit) :
  exists regs, category_tier rt vh chemicals related = Ok regs.
Proof.
  unfold category_tier. apply for_each_returns. intros s term.
  destruct (vector_search_returns vh term (Some 2)) as (regs & ->). simpl. eauto.
Qed.

(** A numeric provision whose search meets the corpus raises
    [found_specific] in the round of its chemical. *)
Lemma provision_tier_fires (info : Chemical) (provision : pystr)
  (regulations : list Hit) (reg : Hit) :
  truthy_str (special_provisions info) = true ->
  In provision
     (py_split rt match special_provisions info with Some s => s | None => [] end) ->
  py_isdigit rt provision = true ->
  semantic_search vh provision (Some 5) = Ok regulations ->
  In reg regulations -> from_appendix reg = true ->
  forall st st', found_iff_collected st ->
                 provision_tier rt vh st info = Ok st' -> snd st' = true.
Proof.
  intros Htruthy Hp Hdigit Hsearch Hreg Happ st st' Hst.
  unfold provision_tier. rewrite Htruthy.
  apply (for_each_trigger found_iff_collected (fun s => snd s)) with (x0 := provision);
    try assumption.
  - intros s p s1 Hs H. destruct (py_isdigit rt p).
    + inv_Ok H. injection H as <-. apply accept_keeps_iff. exact Hs.
    + injection H as <-. exact Hs.
  - intros s p s1 Hs H. destruct (py_isdigit rt p).
    + inv_Ok H. injection H as <-. apply accept_keeps_found. exact Hs.
    + injection H as <-. exact Hs.
  - intros s s1 Hs H. rewrite Hdigit, Hsearch in H. simpl in H.
    injection H as <-. eapply accept_raises_found; eauto.
Qed.

Lemma specific_tiers_fire (chemicals : list Hit) (st : list Hit * bool) :
  provision_search_hits rt vh chemicals ->
  specific_tiers rt vh chemicals = Ok st -> snd st = true.
Proof.
  intros (chemical & info & provision & regulations & reg
          & Hc & Hinfo & Htruthy & Hp & Hdigit & Hsearch & Hreg & Happ).
  unfold specific_tiers.
  apply (for_each_trigger found_iff_collected (fun s => snd s)) with (x0 := chemical);
    try assumption.
  - intros s c s1 Hs H.
    eapply (related_for_chemical_keeps found_iff_collected); eauto.
    intros; apply accept_keeps_iff; assumption.
  - intros s c s1 Hs H.
    eapply (related_for_chemical_keeps (fun s => snd s = true)); eauto.
    intros; apply accept_keeps_found; assumption.
  - intros s s1 Hs H. unfold related_for_chemical in H. rewrite Hinfo in H.
    inv_Ok H.
    assert (Hv1 : snd v = true) by (eapply provision_tier_fires; eauto).
    rewrite Hv1 in H. injection H as <-. exact Hv1.
  - unfold found_iff_collected. simpl. split; [discriminate|congruence].
Qed.
End Association.

(** C6.  Regulation Association returns at most 3 hits sorted by score,
    largest first.  The category fallback runs only when the tiers before
    it collected nothing for any chemical; when they collected something
    the list returned is made of what they collected.  That is the case
    whenever the search of a purely numeric special provision of any
    chemical of the batch finds a document of the regulation corpus. *)
Theorem regulation_tiers (rt : Runtime) (self : HybridRetriever)
  (chemicals : list Hit) (query : pystr) :
  exists regs st,
    _find_related_regulations rt self chemicals query = Ok regs
    /\ specific_tiers rt (vector_handler self) chemicals = Ok st
    /\ sorted_desc regs
    /\ Z.of_nat (length regs) <= 3
    /\ (snd st = true <-> fst st <> [])
    /\ (snd st = true ->
        regs = py_slice_to 3 (sort_by_score (fst st))
        /\ forall h, In h regs -> In h (fst st))
    /\ (snd st = false ->
        exists fallback,
          category_tier rt (vector_handler self) chemicals [] = Ok fallback
          /\ regs = py_slice_to 3 (sort_by_score fallback))
    /\ (provision_search_hits rt (vector_handler self) chemicals -> snd st = true).
Proof.
  destruct (specific_tiers_returns rt (vector_handler self) chemicals)
    as (st & Hst & Hiff).
  assert (Hrel : exists related,
            (if negb (snd st)
             then category_tier rt (vector_handler self) chemicals (fst st)
             else Ok (fst st)) = Ok related).
  { destruct (negb (snd st)); [apply category_tier_returns|eauto]. }
  destruct Hrel as (related & Hrel).
  exists (py_slice_to 3 (sort_by_score related)), st.
  split.
  { unfold _find_related_regulations. rewrite Hst. cbn [bind]. rewrite Hrel. reflexivity. }
  split; [exact Hst|].
  split; [apply sorted_desc_slice, sort_by_score_sorted|].
  split; [apply py_slice_to_length; lia|].
  split; [exact Hiff|].
  split.
  { intros Hfound. rewrite Hfound in Hrel. simpl in Hrel. injection Hrel as <-.
    split; [reflexivity|]. intros h Hh. apply py_slice_to_incl in Hh.
    apply sort_by_score_In. exact Hh. }
  split.
  { intros Hnone. rewrite Hnone in Hrel. simpl in Hrel. exists related.
    assert (E : fst st = []).
    { destruct (fst st) eqn:E; [reflexivity|].
      assert (snd st = true) by (apply (proj2 Hiff); rewrite E; discriminate).
      congruence. }
    rewrite E in Hrel. split; [exact Hrel|reflexivity]. }
  intros Hhit. eapply specific_tiers_fire; eauto.
Qed.

Lemma regulation_tiers_witness :
  exists regs,
    _find_related_regulations cpython sample_retriever
      [exact_hit cpython (py "exact_un") 1 battery] (py "UN3480") = Ok regs
    /\ sorted_desc regs
    /\ map (fun h => md_id (metadata h)) regs
       = [Some (py "appendix_0_0"); Some (py "appendix_1_0")].
Proof.
  destruct (regulation_tiers cpython sample_retriever
              [exact_hit cpython (py "exact_un") 1 battery] (py "UN3480"))
    as (regs & st & Hret & Hst & Hsorted & _ & _ & Hfound & _ & Hfire).
  exists regs. split; [exact Hret|]. split; [exact Hsorted|].
  assert (Hhit : provision_search_hits cpython (vector_handler sample_retriever)
                   [exact_hit cpython (py "exact_un") 1 battery]).
  { exists (exact_hit cpython (py "exact_un") 1 battery), battery, (py "188").
    eexists. eexists.
    split; [left; reflexivity|]. split; [reflexivity|]. split; [reflexivity|].
    split; [vm_compute; auto|]. split; [reflexivity|].
    split; [vm_compute; reflexivity|]. split; [left; reflexivity|reflexivity]. }
  destruct (Hfound (Hfire Hhit)) as (-> & _).
  vm_compute in Hst. injection Hst as <-. vm_compute. reflexivity.
Defined.

(* ------------------------------------------------------------------ *)
(** ** Semantic Search *)

Section SemanticSearch.
Variable vh : VectorHandler.

Lemma format_result_raw (acc acc' : list Hit) (p : Q * Z) :
  Forall (raw_result vh) acc ->
  format_result vh acc p = Ok acc' ->
  Forall (raw_result vh) acc' /\ (length acc' <= S (length acc))%nat.
Proof.
  intros Hacc. unfold format_result. destruct p as [sc idx].
  destruct ((0 <=? idx) && (idx <? Z.of_nat (length (documents vh)))
            && Qlt_bool (1 # 10) sc) eqn:E;
    [|intros H; injection H as <-; auto].
  destruct (nth_error (documents vh) (Z.to_nat idx)) as [doc|] eqn:Ed; [|discriminate].
  destruct (nth_error (vh_metadata vh) (Z.to_nat idx)) as [md|] eqn:Em; [|discriminate].
  destruct (Qle_bool (1 # 10) sc); intros H; injection H as <-; [|auto].
  split; [|rewrite length_app; simpl; lia].
  apply Forall_app. split; [exact Hacc|]. constructor; [|constructor].
  apply andb_true_iff in E. destruct E as [_ E]. apply Qlt_bool_true in E.
  repeat split; simpl; try assumption.
  - eapply nth_error_In; eauto.
  - eapply nth_error_In; eauto.
Qed.

Lemma format_results_raw (found : list (Q * Z)) :
  forall acc raw,
    Forall (raw_result vh) acc ->
    for_each found acc (format_result vh) = Ok raw ->
    Forall (raw_result vh) raw
    /\ (length raw <= length acc + length found)%nat.
Proof.
  induction found as [|p found IH]; simpl; intros acc raw Hacc H.
  - injection H as <-. split; [exact Hacc|lia].
  - inv_Ok H. destruct (format_result_raw _ _ _ Hacc Hv) as (Hv1 & Hlen).
    destruct (IH _ _ Hv1 H) as (Hraw & Hlen'). split; [exact Hraw|lia].
Qed.

Lemma vector_search_raw (query : pystr) (top_k : option Z) (raw : list Hit) :
  semantic_search vh query top_k = Ok raw -> Forall (raw_result vh) raw.
Proof.
  unfold semantic_search. cbv zeta.
  destruct (index vh) as [ix|]; [|intros H; injection H as <-; constructor].
  destruct (ntotal ix =? 0); [intros H; injection H as <-; constructor|].
  destruct (negb (is_fitted (vectorizer vh)));
    [intros H; injection H as <-; constructor|].
  destruct (transform (vectorizer vh) [query]) as [qv|e];
    [|intros H; injection H as <-; constructor].
  cbn [bind].
  destruct (index_search ix qv _) as [found|e];
    [|intros H; injection H as <-; constructor].
  cbn [bind].
  destruct (for_each found [] (format_result vh)) as [res|e] eqn:E;
    intros H; injection H as <-; [|constructor].
  apply (format_results_raw found [] res); [constructor|exact E].
Qed.

Lemma semantic_hit_scored (threshold : Q) (r h : Hit) :
  raw_result vh r -> In h (semantic_hit threshold r) -> scored_from threshold r h.
Proof.
  intros (Hd & Hs & _) Hh. unfold semantic_hit in Hh. rewrite Hd in Hh.
  cbv zeta in Hh.
  destruct (Qle_bool threshold (Qmax 0 (1 - (1 - score r)))) eqn:E;
    [|contradiction].
  destruct Hh as [<-|[]].
  assert (Heq : (Qmax 0 (1 - (1 - score r)) == score r)%Q).
  { rewrite Q.max_r; [ring|].
    apply Qlt_le_weak. eapply Qlt_trans; [|setoid_replace (1 - (1 - score r))%Q
                                               with (score r) by ring; exact Hs].
    reflexivity. }
  unfold scored_from. simpl.
  repeat split; try reflexivity.
  - exact Heq.
  - apply Qle_bool_iff. exact E.
  - apply Q.le_max_l.
  - intros H1. rewrite Heq. exact H1.
Qed.
End SemanticSearch.

(** C9, amended.  Semantic Search returns normally.  When the vectorizer
    was never trained -- no index yet, or an index with an unfitted
    vectorizer -- both layers return the empty list: the [ValueError] of
    the vectorizer's [transform] is never reached.  When the vectorizer
    is fitted and the index holds documents, the query is encoded by the
    handler's vectorizer, the index is asked for
    [min(top_k or the configured default, ntotal)] neighbours, and no more
    results are returned than the index gave; every result of the index
    layer has a similarity above 0.1, and every hit of the retriever has
    the score [max(0, 1 - distance)], equal to the similarity, not
    negative, not below the configured threshold, and at most 1 when the
    similarity is. *)
Theorem semantic_search_contract (self : HybridRetriever)
  (query : pystr) (top_k : Z) :
  exists raw hits,
    semantic_search (vector_handler self) query (Some top_k) = Ok raw
    /\ _semantic_search self query top_k = Ok hits
    /\ hits = flat_map (semantic_hit (similarity_threshold self)) raw
    /\ (index (vector_handler self) = None
        \/ is_fitted (vectorizer (vector_handler self)) = false ->
        raw = [] /\ hits = [])
    /\ (forall ix query_vector found,
          index (vector_handler self) = Some ix ->
          ntotal ix <> 0 ->
          transform (vectorizer (vector_handler self)) [query] = Ok query_vector ->
          index_search ix query_vector (Z.min top_k (ntotal ix)) = Ok found ->
          semantic_search (vector_handler self) query None
          = semantic_search (vector_handler self) query
              (Some (retrieval_top_k (vector_handler self)))
          /\ (length raw <= length found)%nat
          /\ (Z.of_nat (length found) <= Z.min top_k (ntotal ix) ->
              Z.of_nat (length hits) <= top_k))
    /\ Forall (raw_result (vector_handler self)) raw
    /\ (forall h, In h hits ->
          exists r, In r raw /\ scored_from (similarity_threshold self) r h).
Proof.
  destruct (vector_search_returns (vector_handler self) query (Some top_k))
    as (raw & Hraw).
  pose proof (vector_search_raw _ _ _ _ Hraw) as Hall.
  exists raw, (flat_map (semantic_hit (similarity_threshold self)) raw).
  split; [exact Hraw|].
  split; [unfold _semantic_search; rewrite Hraw; reflexivity|].
  split; [reflexivity|].
  split.
  { intros Hun. rewrite (vector_search_untrained _ _ _ Hun) in Hraw.
    injection Hraw as <-. split; reflexivity. }
  split.
  { intros ix qv found Hix Hnz Htr Hfound.
    split; [reflexivity|].
    assert (Hlen : (length raw <= length found)%nat).
    { revert Hraw. unfold semantic_search. cbv zeta. rewrite Hix.
      apply Z.eqb_neq in Hnz. rewrite Hnz.
      assert (Hfit : is_fitted (vectorizer (vector_handler self)) = true).
      { unfold transform in Htr.
        destruct (is_fitted (vectorizer (vector_handler self))); [reflexivity|discriminate]. }
      rewrite Hfit, Htr. cbn [negb bind]. rewrite Hfound. cbn [bind].
      destruct (for_each found [] (format_result (vector_handler self)))
        as [res|e] eqn:E; intros H; injection H as <-; [|simpl; lia].
      destruct (format_results_raw (vector_handler self) found [] res) as (_ & Hl);
        [constructor|exact E|exact Hl]. }
    split; [exact Hlen|].
    intros Hcap.
    assert (Hhits : (length (flat_map (semantic_hit (similarity_threshold self)) raw)
                     <= length raw)%nat).
    { clear. induction raw as [|r raw' IH]; simpl; [lia|].
      rewrite length_app. unfold semantic_hit at 1.
      destruct (Qle_bool _ _); simpl; lia. }
    lia. }
  split; [exact Hall|].
  intros h Hh. apply in_flat_map in Hh. destruct Hh as (r & Hr & Hh).
  exists r. split; [exact Hr|].
  apply (semantic_hit_scored (vector_handler self)); [|exact Hh].
  rewrite Forall_forall in Hall. apply Hall. exact Hr.
Qed.

Lemma semantic_search_contract_witness :
  exists hits,
    _semantic_search sample_retriever (py "188") 3 = Ok hits
    /\ map score hits = [(4 # 5)%Q; (1 # 2)%Q]
    /\ Z.of_nat (length hits) <= 3.
Proof.
  destruct (semantic_search_contract sample_retriever (py "188") 3)
    as (raw & hits & Hraw & Hhits & Hflat & _ & Hfit & _).
  exists hits. split; [exact Hhits|].
  destruct (Hfit sample_index [[1%Q]] [((4 # 5)%Q, 0); ((1 # 2)%Q, 1); ((1 # 20)%Q, 2)])
    as (_ & _ & Hcap); try reflexivity; [discriminate|].
  split; [|apply Hcap; vm_compute; discriminate].
  vm_compute in Hraw. injection Hraw as <-. rewrite Hflat. vm_compute. reflexivity.
Defined.

(** C9 as stated fails: with an index on disk and a vectorizer that was
    never fitted, [transform] would raise, and Semantic Search returns the
    empty list instead of failing. *)
Lemma unfitted_search_returns_nothing :
  transform (vectorizer unfitted_store) [py "188"]
  = Raise (ValueError (py "向量化器尚未训练"))
  /\ semantic_search unfitted_store (py "188") (Some 3) = Ok []
  /\ _semantic_search
       {| mysql_handler := catalogue sample_rows; vector_handler := unfitted_store;
          similarity_threshold := (1 # 10)%Q |} (py "188") 3 = Ok []
  /\ semantic_search untrained_store (py "188") None = Ok [].
Proof. repeat split; reflexivity. Qed.

(* ------------------------------------------------------------------ *)
(** ** Document types *)

Lemma Forall_incl {A} (P : A -> Prop) (xs ys : list A) :
  (forall x, In x xs -> In x ys) -> Forall P ys -> Forall P xs.
Proof.
  intros Hincl Hys. apply Forall_forall. intros x Hx.
  rewrite Forall_forall in Hys. auto.
Qed.

Section DocTypes.
Variable rt : Runtime.
Variable self : HybridRetriever.
Local Abbreviation vh := (vector_handler self).

Lemma exact_hit_ok (kind : pystr) (sc : Q) (c : Chemical) :
  hit_ok vh (exact_hit rt kind sc c).
Proof. left. exists c. repeat split. Qed.

Lemma raw_result_ok (h : Hit) : raw_result vh h -> hit_ok vh h.
Proof. intros (_ & _ & Hc & Hm & _). right. auto. Qed.

Lemma exact_search_ok (query : pystr) (top_k : Z) (hits : list Hit) :
  _exact_search rt self query top_k = Ok hits -> Forall (hit_ok vh) hits.
Proof.
  unfold _exact_search. cbv zeta.
  match goal with |- try_except ?b _ = _ -> _ => destruct b as [l|e] eqn:E end;
    cbn [try_except]; intros H; injection H as <-; [|constructor].
  inv_Ok E. inv_Ok E. injection E as <-. apply Forall_py_slice_to.
  assert (Hv1 : Forall (hit_ok vh) v).
  { destruct (findall_un rt query) as [|m ms]; [injection Hv as <-; constructor|].
    inv_Ok Hv. revert Hv. unfold un_hits.
    apply for_each_invariant; [constructor|].
    intros results m' results' _ Hres H. inv_Ok H. injection H as <-.
    apply Forall_app. split; [exact Hres|].
    apply Forall_forall. intros h Hh. apply in_map_iff in Hh.
    destruct Hh as (c & <- & _). apply exact_hit_ok. }
  destruct v as [|h0 v']; [|injection Hv0 as <-; exact Hv1].
  unfold name_hits in Hv0. inv_Ok Hv0. inv_Ok Hv0. injection Hv0 as <-.
  apply Forall_forall. intros h Hh. apply in_map_iff in Hh.
  destruct Hh as (c & <- & _). apply exact_hit_ok.
Qed.

Lemma semantic_search_ok (query : pystr) (top_k : Z) (hits : list Hit) :
  _semantic_search self query top_k = Ok hits -> Forall (hit_ok vh) hits.
Proof.
  unfold _semantic_search. intros H.
  destruct (vector_search_returns vh query (Some top_k)) as (raw & Hraw).
  rewrite Hraw in H. cbn in H. injection H as <-.
  pose proof (vector_search_raw vh query (Some top_k) raw Hraw) as Hall.
  rewrite Forall_forall in Hall.
  apply Forall_forall. intros h Hin. apply in_flat_map in Hin.
  destruct Hin as (r & Hr & Hin).
  destruct (semantic_hit_scored vh _ r h (Hall r Hr) Hin) as (_ & Hm & Hc & _).
  right. split; [exact Hc|]. rewrite Hm. apply (Hall r Hr).
Qed.

Lemma merge_results_incl (results1 results2 out : list Hit) (h : Hit) :
  _merge_results rt results1 results2 = Ok out ->
  In h out -> In h (results1 ++ results2).
Proof.
  intros H Hh.
  destruct (merge_results_spec rt results1 results2) as (kept & Hret & _ & Hbest).
  rewrite H in Hret. injection Hret as ->.
  apply (proj1 (sort_by_score_In _ _)) in Hh. apply (Hbest h Hh).
Qed.

Lemma merge_results_ok (P : Hit -> Prop) (results1 results2 out : list Hit) :
  Forall P results1 -> Forall P results2 ->
  _merge_results rt results1 results2 = Ok out -> Forall P out.
Proof.
  intros H1 H2 H. apply (Forall_incl P out (results1 ++ results2)).
  - intros h. apply (merge_results_incl _ _ _ _ H).
  - apply Forall_app. auto.
Qed.

Lemma hybrid_search_ok (query : pystr) (top_k : Z) (hits : list Hit) :
  _hybrid_search rt self query top_k = Ok hits -> Forall (hit_ok vh) hits.
Proof.
  destruct (hybrid_search_eq rt self query top_k) as (ex & se & co & Hex & Hse & Hco & ->).
  intros H. injection H as <-. apply Forall_py_slice_to.
  eapply merge_results_ok; [| |exact Hco].
  - eapply exact_search_ok; eauto.
  - eapply semantic_search_ok; eauto.
Qed.

Lemma auto_search_ok (query : pystr) (top_k : Z) (hits : list Hit) :
  _auto_search rt self query top_k = Ok hits -> Forall (hit_ok vh) hits.
Proof.
  unfold _auto_search. cbv zeta.
  match goal with |- try_except ?b _ = _ -> _ => destruct b as [l|e] eqn:E end;
    cbn [try_except]; intros H; injection H as <-; [|constructor].
  destruct (pystr_eqb _ (py "un_number")); [eapply exact_search_ok; eauto|].
  destruct (pystr_eqb _ (py "name_search")); [eapply hybrid_search_ok; eauto|].
  inv_Ok E. pose proof (semantic_search_ok _ _ _ Hv) as Hsem.
  destruct (Z.of_nat (length v) <? top_k); [|injection E as <-; exact Hsem].
  inv_Ok E. inv_Ok E. injection E as <-. apply Forall_py_slice_to.
  eapply merge_results_ok; [exact Hsem| |exact Hv1].
  eapply exact_search_ok; eauto.
Qed.

Lemma basic_search_ok (query strategy : pystr) (top_k : Z) (hits : list Hit) :
  basic_search rt self query strategy top_k = Ok hits -> Forall (hit_ok vh) hits.
Proof.
  unfold basic_search.
  destruct (pystr_eqb strategy (py "exact")); [apply exact_search_ok|].
  destruct (pystr_eqb strategy (py "semantic")); [apply semantic_search_ok|].
  destruct (pystr_eqb strategy (py "hybrid")); [apply hybrid_search_ok|].
  apply auto_search_ok.
Qed.

(** Regulation Association collects results of the index that come from
    the regulation corpus. *)
Lemma accept_regulations_related (q : pystr) (k : option Z)
  (regulations : list Hit) (st : list Hit * bool) :
  semantic_search vh q k = Ok regulations ->
  Forall (related_ok vh) (fst st) ->
  Forall (related_ok vh) (fst (accept_regulations st regulations)).
Proof.
  intros Hs. pose proof (vector_search_raw vh q k regulations Hs) as Hraw.
  clear Hs. unfold accept_regulations. revert st.
  induction regulations as [|reg regs IH]; simpl; intros [related found] Hst;
    [exact Hst|].
  inversion Hraw as [|? ? Hreg Hregs]; subst.
  apply (IH Hregs).
  destruct (from_appendix reg) eqn:Ea; simpl; [|exact Hst].
  destruct (hit_in reg related); simpl; [exact Hst|].
  apply Forall_app. split; [exact Hst|].
  constructor; [split; assumption|constructor].
Qed.

Lemma find_related_regulations_ok (chemicals : list Hit) (query : pystr)
  (regs : list Hit) :
  _find_related_regulations rt self chemicals query = Ok regs ->
  Forall (related_ok vh) regs.
Proof.
  unfold _find_related_regulations.
  match goal with |- try_except ?b _ = _ -> _ => destruct b as [l|e] eqn:E end;
    cbn [try_except]; intros H; injection H as <-; [|constructor].
  inv_Ok E. inv_Ok E. injection E as <-. apply Forall_py_slice_to.
  assert (Hst : Forall (related_ok vh) (fst v)).
  { revert Hv. unfold specific_tiers.
    apply (for_each_invariant (fun st => Forall (related_ok vh) (fst st)));
      [constructor|].
    intros s c s1 _ Hs H.
    eapply (related_for_chemical_keeps rt vh
              (fun st => Forall (related_ok vh) (fst st))); eauto.
    intros st q k regulations Hq Hst. eapply accept_regulations_related; eauto. }
  apply (Forall_incl _ _ v0); [intros h; apply sort_by_score_In|].
  destruct (negb (snd v)); [|injection Hv0 as <-; exact Hst].
  revert Hv0. unfold category_tier. apply for_each_invariant; [exact Hst|].
  intros s term s1 _ Hs H. inv_Ok H. injection H as <-.
  apply (accept_regulations_related term (Some 2) v1 (s, false) Hv0 Hs).
Qed.

Lemma keep_first_incl (xs : list Hit) :
  forall (d : dict) (h : Hit),
    In h (dict_values (fold_left (keep_first rt) xs d)) ->
    In h (dict_values d) \/ In h xs.
Proof.
  induction xs as [|x xs IH]; simpl; intros d h Hh; [auto|].
  destruct (IH _ _ Hh) as [Hd|Hx]; [|auto].
  unfold keep_first in Hd. cbv zeta in Hd.
  destruct (dict_get (document_key rt x) d) eqn:E; [auto|].
  unfold dict_values in Hd. apply in_map_iff in Hd.
  destruct Hd as ([k v] & <- & Hin). simpl.
  assert (Hset : forall d0, In (k, v) (dict_set (document_key rt x) x d0) ->
                            In (k, v) d0 \/ v = x).
  { induction d0 as [|[k0 v0] d0 IHd]; simpl.
    - intros [H|[]]. injection H as _ <-. auto.
    - destruct (pystr_eqb k0 (document_key rt x)); simpl.
      + intros [H|H]; [injection H as _ <-; auto|auto].
      + intros [H|H]; [auto|]. destruct (IHd H); auto. }
  destruct (Hset d Hin) as [H | ->]; [|auto].
  left. unfold dict_values. apply in_map_iff. exists (k, v). auto.
Qed.

Lemma merge_regulations_incl (regulations1 regulations2 out : list Hit) (h : Hit) :
  _merge_regulations rt regulations1 regulations2 = Ok out ->
  In h out -> In h (regulations1 ++ regulations2).
Proof.
  rewrite merge_regulations_eq. intros H Hh. injection H as <-.
  apply (proj1 (sort_by_score_In _ _)) in Hh.
  destruct (keep_first_incl _ _ _ Hh) as [[]|H]. exact H.
Qed.
End DocTypes.

Lemma str_opt_eqb_Some (o : option pystr) (t : pystr) :
  str_opt_eqb o (Some t) = true -> o = Some t.
Proof.
  destruct o as [s|]; simpl; [|discriminate].
  intros H. apply pystr_eqb_eq in H. congruence.
Qed.

Lemma empty_result_ok (vh : VectorHandler) (query : pystr) :
  result_ok vh (empty_result query).
Proof. split; constructor. Qed.

Section Results.
Variable rt : Runtime.
Variable self : HybridRetriever.
Local Abbreviation vh := (vector_handler self).

Lemma build_structured_result_ok (basic_results : list Hit) (query : pystr)
  (r : RetrievalResult) :
  Forall (hit_ok vh) basic_results ->
  _build_structured_result rt self basic_results query = Ok r ->
  result_ok vh r.
Proof.
  intros Hbasic. unfold _build_structured_result. cbv zeta.
  match goal with |- try_except ?b _ = _ -> _ => destruct b as [l|e] eqn:E end;
    cbn [try_except]; intros H; injection H as <-; [|apply empty_result_ok].
  inv_Ok E. inv_Ok E. injection E as <-. rewrite Forall_forall in Hbasic.
  split; simpl; apply Forall_forall; intros h Hh.
  - apply filter_In in Hh. destruct Hh as [Hin Ht].
    split; [auto|]. apply str_opt_eqb_Some. exact Ht.
  - apply (merge_regulations_incl rt _ _ _ _ Hv0) in Hh.
    apply in_app_or in Hh. destruct Hh as [Hh|Hh].
    + apply filter_In in Hh. destruct Hh as [Hin Ht].
      split; [auto|]. left. apply str_opt_eqb_Some. exact Ht.
    + pose proof (find_related_regulations_ok rt self _ _ _ Hv) as Hrel.
      rewrite Forall_forall in Hrel. destruct (Hrel h Hh) as (Hraw & Happ).
      split; [apply raw_result_ok; exact Hraw|auto].
Qed.

Lemma fallback_search_ok (query : pystr) (top_k : Z) (r : RetrievalResult) :
  _fallback_search rt self query top_k = Ok r -> result_ok vh r.
Proof.
  unfold _fallback_search.
  match goal with |- try_except ?b _ = _ -> _ => destruct b as [l|e] eqn:E end;
    cbn [try_except]; intros H; injection H as <-; [|apply empty_result_ok].
  destruct (_extract_chemical_names rt query) as [|name names];
    [injection E as <-; apply empty_result_ok|].
  inv_Ok E.
  assert (Hall : Forall (hit_ok vh) v).
  { revert Hv. apply for_each_invariant; [constructor|].
    intros all n all' _ Hacc H. inv_Ok H. injection H as <-.
    apply Forall_app. split; [exact Hacc|]. eapply hybrid_search_ok; eauto. }
  destruct v as [|h0 v']; [injection E as <-; apply empty_result_ok|].
  eapply build_structured_result_ok; eauto.
Qed.

Lemma retrieve_ok (query strategy : pystr) (top_k : Z) (r : RetrievalResult) :
  retrieve rt self query strategy top_k = Ok r -> result_ok vh r.
Proof.
  unfold retrieve.
  match goal with |- try_except ?b _ = _ -> _ => destruct b as [l|e] eqn:E end;
    cbn [try_except]; intros H; injection H as <-; [|apply empty_result_ok].
  inv_Ok E. inv_Ok E.
  pose proof (build_structured_result_ok _ _ _ (basic_search_ok rt self _ _ _ _ Hv) Hv0)
    as Hsr.
  destruct (is_empty (r_chemical_data v0) && is_empty (r_regulations v0));
    [|injection E as <-; exact Hsr].
  inv_Ok E. pose proof (fallback_search_ok _ _ _ Hv1) as Hfr.
  destruct (negb (is_empty (r_chemical_data v1)) || negb (is_empty (r_regulations v1)));
    injection E as <-; assumption.
Qed.
End Results.

(** The keys of a catalogue record and of a chunk of the corpus begin
    with different letters. *)
Lemma chemical_key_head (c : Chemical) :
  exists rest, chemical_key c = 117%N :: rest.
Proof.
  unfold chemical_key. change (py "un_") with [117; 110; 95]%N. simpl. eauto.
Qed.

Lemma corpus_key_head (i j : Z) :
  exists rest, md_id (corpus_metadata i j) = Some (97%N :: rest).
Proof.
  unfold corpus_metadata. simpl.
  change (py "appendix_") with [97; 112; 112; 101; 110; 100; 105; 120; 95]%N.
  simpl. eauto.
Qed.

Section StoreInvariant.
Variable rt : Runtime.
Variable vh : VectorHandler.
Hypothesis Hstore : store_ok vh.

Lemma stored_metadata (h : Hit) :
  In (metadata h) (vh_metadata vh) -> imported (metadata h).
Proof.
  intros H. unfold store_ok in Hstore. rewrite Forall_forall in Hstore. auto.
Qed.

Lemma corpus_hit_is_regulation (h : Hit) :
  hit_ok vh h ->
  source (metadata h) = Some (py "appendix_a") ->
  doc_type (metadata h) = Some (py "regulation")
  /\ chemical_data h = None
  /\ exists i j, metadata h = corpus_metadata i j.
Proof.
  intros [(c & _ & _ & Hs)|(Hc & Hm)] Hsrc.
  - rewrite Hs in Hsrc. vm_compute in Hsrc. discriminate.
  - destruct (stored_metadata h Hm) as [(c & E)|(i & j & E)].
    + rewrite E in Hsrc. vm_compute in Hsrc. discriminate.
    + rewrite E. split; [reflexivity|]. split; [exact Hc|]. eauto.
Qed.

Lemma regulation_hit_is_corpus (h : Hit) :
  hit_ok vh h ->
  doc_type (metadata h) = Some (py "regulation") ->
  chemical_data h = None /\ exists i j, metadata h = corpus_metadata i j.
Proof.
  intros [(c & _ & Hd & _)|(Hc & Hm)] Hreg.
  - rewrite Hd in Hreg. vm_compute in Hreg. discriminate.
  - destruct (stored_metadata h Hm) as [(c & E)|(i & j & E)].
    + rewrite E in Hreg. vm_compute in Hreg. discriminate.
    + split; [exact Hc|]. eauto.
Qed.

Lemma keys_never_conflated (h1 h2 : Hit) (c : Chemical) :
  hit_ok vh h2 ->
  chemical_data h1 = Some c ->
  doc_type (metadata h2) = Some (py "regulation") ->
  merge_key rt h1 <> merge_key rt h2.
Proof.
  intros H2 Hc Hreg.
  destruct (regulation_hit_is_corpus h2 H2 Hreg) as (Hnone & i & j & E).
  unfold merge_key, document_key. rewrite Hc, Hnone, E.
  destruct (chemical_key_head c) as (r1 & ->).
  destruct (corpus_key_head i j) as (r2 & ->).
  discriminate.
Qed.

Lemma regulation_bucket_typed (h : Hit) :
  regulation_bucket_ok vh h -> doc_type (metadata h) = Some (py "regulation").
Proof.
  intros (Hok & [H|H]); [exact H|].
  apply corpus_hit_is_regulation; [exact Hok|].
  apply str_opt_eqb_Some. exact H.
Qed.
End StoreInvariant.

(* ------------------------------------------------------------------ *)
(** ** The index as the imports build it *)

Lemma process_markdown_content_metadata (rt : Runtime)
  (chunks : pystr -> list pystr) (sections : list pystr) (c : pystr) (md : Metadata) :
  In (c, md) (process_markdown_content rt chunks sections) ->
  exists i j, md = regulation_metadata i j.
Proof.
  unfold process_markdown_content. intros H. apply in_flat_map in H.
  destruct H as ([i section] & _ & H).
  destruct (py_strip rt section); [contradiction|].
  apply in_flat_map in H. destruct H as ([j chunk] & _ & H).
  destruct (50 <? Z.of_nat (length (py_strip rt chunk))); [|contradiction].
  destruct H as [H|[]]. injection H as _ <-. eauto.
Qed.

Lemma markdown_batch_imported (rt : Runtime)
  (chunks : pystr -> list pystr) (sections : list pystr) :
  Forall imported
    (map snd (markdown_batch (process_markdown_content rt chunks sections))).
Proof.
  apply Forall_forall. intros md H. apply in_map_iff in H.
  destruct H as ([c md'] & <- & H). unfold markdown_batch in H.
  apply in_map_iff in H. destruct H as ([c0 md0] & E & H). injection E as <- <-.
  destruct (process_markdown_content_metadata _ _ _ _ _ H) as (i & j & ->).
  right. exists i, j. reflexivity.
Qed.

Lemma mysql_batch_imported (chemicals : list Chemical) :
  Forall imported (map snd (mysql_batch chemicals)).
Proof.
  apply Forall_forall. intros md H. apply in_map_iff in H.
  destruct H as ([c md'] & <- & H). unfold mysql_batch in H.
  apply in_flat_map in H. destruct H as (chemical & _ & H).
  destruct (create_chemical_document chemical); [contradiction|].
  destruct H as [H|[]]. injection H as _ <-. left. exists chemical. reflexivity.
Qed.

Lemma add_documents_batch_store_ok (ix : Indexer) (vh : VectorHandler)
  (batch : list (pystr * Metadata)) :
  store_ok vh -> Forall imported (map snd batch) ->
  store_ok (fst (_add_documents_batch ix vh batch)).
Proof.
  intros Hvh Hbatch. unfold _add_documents_batch, store_ok in *.
  destruct (index vh) as [i|].
  - destruct (transform (vectorizer vh) (map fst batch)) as [vectors|e]; [|exact Hvh].
    destruct (index_add ix i vectors); simpl; [apply Forall_app; auto|exact Hvh].
  - destruct (sk_fit_transform ix (map fst batch)) as [[tr vectors]|e]; [|exact Hvh].
    destruct (flat_ip ix vectors) as [i|e]; [|exact Hvh].
    destruct (index_add ix i vectors); simpl; [apply Forall_app; auto|exact Hvh].
Qed.

(** Once an index exists, adding documents keeps the vectorizer that was
    fitted on the first batch: queries are encoded by the vectorizer that
    encoded the documents. *)
Lemma add_documents_batch_vectorizer (ix : Indexer) (vh : VectorHandler)
  (batch : list (pystr * Metadata)) (i : FaissIndex) :
  index vh = Some i ->
  vectorizer (fst (_add_documents_batch ix vh batch)) = vectorizer vh.
Proof.
  intros Hi. unfold _add_documents_batch. rewrite Hi.
  destruct (transform (vectorizer vh) (map fst batch)) as [vectors|e]; [|reflexivity].
  destruct (index_add ix i vectors); reflexivity.
Qed.

Lemma import_batch_store_ok (ix : Indexer) (vh : VectorHandler)
  (batch : list (pystr * Metadata)) :
  store_ok vh -> Forall imported (map snd batch) ->
  store_ok (fst (import_batch ix vh batch)).
Proof.
  intros Hvh Hbatch. unfold import_batch.
  destruct batch as [|b batch']; [exact Hvh|].
  pose proof (add_documents_batch_store_ok ix vh (b :: batch') Hvh Hbatch) as H.
  destruct (_add_documents_batch ix vh (b :: batch')) as [vh' [u|e]]; exact H.
Qed.

(** Both imports, whether they succeed or fail, leave an index whose
    every entry is a catalogue row or a chunk of the corpus. *)
Lemma imports_keep_store_ok (rt : Runtime) (ix : Indexer) (vh : VectorHandler) :
  store_ok vh ->
  (forall chemicals, store_ok (fst (import_mysql_data ix vh chemicals)))
  /\ (forall chunks sections,
        store_ok (fst (import_markdown_data rt ix vh chunks sections))).
Proof.
  intros Hvh. split.
  - intros chemicals. unfold import_mysql_data.
    destruct chemicals as [|c cs]; [exact Hvh|].
    apply import_batch_store_ok; [exact Hvh|apply mysql_batch_imported].
  - intros chunks sections. unfold import_markdown_data.
    pose proof (markdown_batch_imported rt chunks sections) as Hb.
    destruct (process_markdown_content rt chunks sections) as [|d ds];
      [exact Hvh|].
    apply import_batch_store_ok; assumption.
Qed.

Lemma untrained_store_ok : store_ok untrained_store.
Proof. constructor. Qed.

Lemma sample_store_ok : store_ok sample_store.
Proof.
  unfold store_ok. simpl.
  repeat (constructor; [right; eexists; eexists; reflexivity|]). constructor.
Qed.

(** C8.  Over an index whose entries were written by the two imports, for
    every query, strategy and [top_k], in the hit list of the selected
    strategy and in the two buckets of the result: a hit that carries
    [chemical_data] has [doc_type] [chemical]; a hit that comes from the
    document corpus (source [appendix_a]) has [doc_type] [regulation] and
    carries no [chemical_data]; every hit of the [chemical_data] bucket is
    typed [chemical] and every hit of the [regulations] bucket
    [regulation]; and the merge key of a hit carrying [chemical_data] is
    never the key of a regulation hit. *)
Theorem doc_type_invariant (rt : Runtime) (self : HybridRetriever)
  (query strategy : pystr) (top_k : Z) :
  store_ok (vector_handler self) ->
  exists hits r,
    basic_search rt self query strategy top_k = Ok hits
    /\ retrieve rt self query strategy top_k = Ok r
    /\ (forall h c, In h (hits ++ hits_of r) -> chemical_data h = Some c ->
                    doc_type (metadata h) = Some (py "chemical"))
    /\ (forall h, In h (hits ++ hits_of r) ->
                  source (metadata h) = Some (py "appendix_a") ->
                  doc_type (metadata h) = Some (py "regulation")
                  /\ chemical_data h = None)
    /\ (forall h, In h (r_chemical_data r) ->
                  doc_type (metadata h) = Some (py "chemical"))
    /\ (forall h, In h (r_regulations r) ->
                  doc_type (metadata h) = Some (py "regulation"))
    /\ (forall h1 h2 c, In h1 (hits ++ hits_of r) -> In h2 (hits ++ hits_of r) ->
                        chemical_data h1 = Some c ->
                        doc_type (metadata h2) = Some (py "regulation") ->
                        merge_key rt h1 <> merge_key rt h2).
Proof.
  intros Hstore.
  destruct (basic_search_returns rt self query strategy top_k) as (hits & Hhits).
  destruct (retrieve_returns_tagged rt self query strategy top_k) as (r & Hr & _).
  pose proof (basic_search_ok rt self _ _ _ _ Hhits) as Hok.
  destruct (retrieve_ok rt self _ _ _ _ Hr) as (Hchem & Hregs).
  rewrite Forall_forall in Hok, Hchem, Hregs.
  assert (Hall : forall h, In h (hits ++ hits_of r) -> hit_ok (vector_handler self) h).
  { intros h Hh. unfold hits_of in Hh. apply in_app_or in Hh.
    destruct Hh as [Hh|Hh]; [auto|]. apply in_app_or in Hh.
    destruct Hh as [Hh|Hh]; [apply (Hchem h Hh)|apply (Hregs h Hh)]. }
  exists hits, r. split; [exact Hhits|]. split; [exact Hr|].
  split.
  { intros h c Hh Hc. destruct (Hall h Hh) as [(c' & _ & Hd & _)|(Hnone & _)];
      [exact Hd|congruence]. }
  split.
  { intros h Hh Hsrc.
    destruct (corpus_hit_is_regulation (vector_handler self) Hstore h (Hall h Hh) Hsrc)
      as (Hd & Hc & _). auto. }
  split; [intros h Hh; apply (Hchem h Hh)|].
  split.
  { intros h Hh. apply (regulation_bucket_typed (vector_handler self) Hstore).
    apply (Hregs h Hh). }
  intros h1 h2 c Hh1 Hh2 Hc Hreg.
  apply (keys_never_conflated rt (vector_handler self) Hstore h1 h2 c);
    auto.
Qed.

Lemma doc_type_invariant_witness :
  exists r,
    retrieve cpython sample_retriever (py "UN1133") (py "auto") 5 = Ok r
    /\ length (r_chemical_data r) = 4%nat
    /\ length (r_regulations r) = 2%nat
    /\ (forall h, In h (r_regulations r) ->
                  doc_type (metadata h) = Some (py "regulation")).
Proof.
  destruct (doc_type_invariant cpython sample_retriever (py "UN1133") (py "auto") 5
              sample_store_ok)
    as (hits & r & _ & Hr & _ & _ & _ & Hregs & _).
  exists r. split; [exact Hr|].
  vm_compute in Hr. injection Hr as <-.
  split; [reflexivity|]. split; [reflexivity|]. exact Hregs.
Defined.

(* ------------------------------------------------------------------ *)
(** * Further properties of the retriever *)

(** ** Merging regulations *)

Section MergeRegulations.
Variable rt : Runtime.

Lemma keep_first_keys (d : dict) (x : Hit) :
  map fst (keep_first rt d x) = add_key (map fst d) (document_key rt x).
Proof.
  unfold keep_first. cbv zeta.
  destruct (dict_get (document_key rt x) d) as [kept|] eqn:E.
  - unfold add_key. rewrite (proj2 (existsb_pystr_In _ _)); [reflexivity|].
    apply dict_get_Some in E. apply in_map_iff.
    exists (document_key rt x, kept). auto.
  - apply dict_set_keys.
Qed.

Lemma kept_keys (xs : list Hit) (d : dict) :
  map fst (fold_left (keep_first rt) xs d)
  = fold_left add_key (map (document_key rt) xs) (map fst d).
Proof.
  revert d. induction xs as [|x xs IH]; simpl; intros d; [reflexivity|].
  rewrite IH, keep_first_keys. reflexivity.
Qed.

Lemma first_with_key_app (key : Hit -> pystr) (xs ys : list Hit) (h : Hit) :
  first_with_key key xs h -> first_with_key key (xs ++ ys) h.
Proof.
  intros (pre & post & -> & Hpre). exists pre, (post ++ ys).
  split; [|exact Hpre]. rewrite <- app_assoc. reflexivity.
Qed.

Lemma keep_first_inv (seen : list Hit) (d : dict) (x : Hit) :
  keep_inv rt seen d -> keep_inv rt (seen ++ [x]) (keep_first rt d x).
Proof.
  intros (Hnd & Hent & Hcov).
  assert (Hkeys := keep_first_keys d x).
  split; [rewrite Hkeys; apply add_key_NoDup; exact Hnd|].
  split.
  - intros k v Hin. unfold keep_first in Hin. cbv zeta in Hin.
    destruct (dict_get (document_key rt x) d) as [kept|] eqn:E.
    + destruct (Hent _ _ Hin) as (Hk & Hf).
      split; [exact Hk|apply first_with_key_app; exact Hf].
    + pose proof (proj1 (dict_get_None _ _) E) as Habs.
      apply (dict_set_In _ _ _ _ _ Hnd) in Hin.
      destruct Hin as [[-> ->]|[Hne Hin]].
      * split; [reflexivity|]. exists seen, []. split; [reflexivity|].
        intros y Hy Heq. apply Habs. rewrite <- Heq. apply Hcov. exact Hy.
      * destruct (Hent _ _ Hin) as (Hk & Hf).
        split; [exact Hk|apply first_with_key_app; exact Hf].
  - intros h Hh. rewrite Hkeys. apply add_key_In.
    apply in_app_or in Hh. destruct Hh as [Hh|[<-|[]]]; auto.
Qed.

Lemma keep_fold_inv (xs seen : list Hit) (d : dict) :
  keep_inv rt seen d ->
  keep_inv rt (seen ++ xs) (fold_left (keep_first rt) xs d).
Proof.
  revert seen d. induction xs as [|x xs IH]; simpl; intros seen d H.
  - rewrite app_nil_r. exact H.
  - replace (seen ++ x :: xs) with ((seen ++ [x]) ++ xs)
      by (rewrite <- app_assoc; reflexivity).
    apply IH. apply keep_first_inv. exact H.
Qed.

Lemma keep_inv_nil : keep_inv rt [] [].
Proof.
  split; [constructor|]. split; [intros ? ? []|intros ? []].
Qed.

Lemma merge_regulations_kept (regulations1 regulations2 : list Hit) :
  exists kept,
    _merge_regulations rt regulations1 regulations2 = Ok (sort_by_score kept)
    /\ map (document_key rt) kept
       = first_seen (map (document_key rt) (regulations1 ++ regulations2))
    /\ (forall h, In h kept ->
          first_with_key (document_key rt) (regulations1 ++ regulations2) h).
Proof.
  set (xs := regulations1 ++ regulations2).
  pose proof (keep_fold_inv xs [] [] keep_inv_nil) as Hinv. simpl in Hinv.
  set (d := fold_left (keep_first rt) xs []) in *.
  exists (dict_values d).
  split; [apply merge_regulations_eq|]. split.
  - transitivity (map fst d); [|apply kept_keys].
    destruct Hinv as (_ & Hent & _). unfold dict_values. rewrite map_map.
    apply map_ext_in. intros [k v] Hin. simpl. apply (Hent _ _ Hin).
  - intros h Hh. unfold dict_values in Hh. apply in_map_iff in Hh.
    destruct Hh as ([k v] & <- & Hin). simpl.
    destruct Hinv as (_ & Hent & _). apply (Hent _ _ Hin).
Qed.

Lemma first_seen_length (ks : list pystr) : (length (first_seen ks) <= length ks)%nat.
Proof.
  apply NoDup_incl_length; [apply first_seen_NoDup|].
  intros k. apply first_seen_In.
Qed.

Lemma merge_regulations_length (regulations1 regulations2 out : list Hit) :
  _merge_regulations rt regulations1 regulations2 = Ok out ->
  (length out <= length regulations1 + length regulations2)%nat.
Proof.
  destruct (merge_regulations_kept regulations1 regulations2) as (kept & -> & Hkeys & _).
  intros H. injection H as <-.
  rewrite <- (Permutation_length (sort_by_score_perm kept)).
  rewrite <- (length_map (document_key rt) kept), Hkeys.
  rewrite <- length_app, <- (length_map (document_key rt) (regulations1 ++ regulations2)).
  apply first_seen_length.
Qed.

Lemma merge_regulations_distinct (regulations1 regulations2 out : list Hit) :
  _merge_regulations rt regulations1 regulations2 = Ok out ->
  sorted_desc out
  /\ NoDup (map (document_key rt) out)
  /\ (forall h, In h (regulations1 ++ regulations2) ->
        exists h', In h' out /\ document_key rt h' = document_key rt h).
Proof.
  destruct (merge_regulations_kept regulations1 regulations2) as (kept & -> & Hkeys & _).
  intros H. injection H as <-.
  split; [apply sort_by_score_sorted|]. split.
  - eapply Permutation_NoDup.
    + apply Permutation_map. apply sort_by_score_perm.
    + rewrite Hkeys. apply first_seen_NoDup.
  - intros h Hh.
    assert (Hk : In (document_key rt h) (map (document_key rt) kept)).
    { rewrite Hkeys. apply first_seen_In. apply in_map. exact Hh. }
    apply in_map_iff in Hk. destruct Hk as (h' & E & Hin).
    exists h'. split; [apply sort_by_score_In; exact Hin|exact E].
Qed.

(** X1.  [_merge_regulations] returns normally.  Its output is sorted by
    score, largest first, and holds one regulation per id, the ids in the
    order in which they were first met; the regulation kept for an id is
    the first one of [regulations1 ++ regulations2] with that id, whatever
    the scores of the later ones. *)
Theorem merge_regulations_first_wins (regulations1 regulations2 : list Hit) :
  exists kept,
    _merge_regulations rt regulations1 regulations2 = Ok (sort_by_score kept)
    /\ sorted_desc (sort_by_score kept)
    /\ map (document_key rt) kept
       = first_seen (map (document_key rt) (regulations1 ++ regulations2))
    /\ NoDup (map (document_key rt) (sort_by_score kept))
    /\ (forall h, In h (sort_by_score kept) ->
          first_with_key (document_key rt) (regulations1 ++ regulations2) h)
    /\ (forall h, In h (regulations1 ++ regulations2) ->
          exists h', In h' (sort_by_score kept)
                     /\ document_key rt h' = document_key rt h).
Proof.
  destruct (merge_regulations_kept regulations1 regulations2)
    as (kept & Hret & Hkeys & Hfirst).
  destruct (merge_regulations_distinct _ _ _ Hret) as (Hsorted & Hnd & Hcov).
  exists kept. split; [exact Hret|]. split; [exact Hsorted|].
  split; [exact Hkeys|]. split; [exact Hnd|]. split; [|exact Hcov].
  intros h Hh. apply Hfirst. apply sort_by_score_In. exact Hh.
Qed.
End MergeRegulations.

(* ------------------------------------------------------------------ *)
(** ** Merging results: order of the arguments, distinct keys *)

Section MergeMore.
Variable rt : Runtime.

Lemma merge_results_best (results1 results2 : list Hit) :
  exists out,
    _merge_results rt results1 results2 = Ok out
    /\ best_per_key rt (results1 ++ results2) out.
Proof.
  destruct (merge_results_spec rt results1 results2) as (kept & Hret & Hkeys & Hbest).
  assert (Hperm : Permutation (map (merge_key rt) kept)
                              (map (merge_key rt) (sort_by_score kept))).
  { apply Permutation_map. apply sort_by_score_perm. }
  exists (sort_by_score kept). split; [exact Hret|]. split.
  { eapply Permutation_NoDup; [exact Hperm|]. rewrite Hkeys. apply first_seen_NoDup. }
  split.
  { intros k. rewrite <- (first_seen_In (map (merge_key rt) (results1 ++ results2))).
    rewrite <- Hkeys. split; apply Permutation_in; [symmetry|]; exact Hperm. }
  intros h Hh. apply (proj1 (sort_by_score_In _ _)) in Hh. apply Hbest. exact Hh.
Qed.

(** Two best-per-key selections from lists with the same elements agree
    on the keys, on the number of hits and on the score of each key. *)
Lemma best_per_key_agree (xs ys out1 out2 : list Hit) :
  (forall h, In h xs <-> In h ys) ->
  best_per_key rt xs out1 -> best_per_key rt ys out2 ->
  (forall k, In k (map (merge_key rt) out1) <-> In k (map (merge_key rt) out2))
  /\ length out1 = length out2
  /\ (forall h1 h2, In h1 out1 -> In h2 out2 ->
        merge_key rt h1 = merge_key rt h2 -> (score h1 == score h2)%Q).
Proof.
  intros Hsame (Hnd1 & Hk1 & Hb1) (Hnd2 & Hk2 & Hb2).
  assert (Hkeys : forall k, In k (map (merge_key rt) out1)
                            <-> In k (map (merge_key rt) out2)).
  { intros k. rewrite Hk1, Hk2, !in_map_iff.
    split; intros (h & E & Hh); exists h; (split; [exact E|apply Hsame; exact Hh]). }
  split; [exact Hkeys|]. split.
  - rewrite <- (length_map (merge_key rt) out1), <- (length_map (merge_key rt) out2).
    apply Permutation_length. apply NoDup_Permutation; assumption.
  - intros h1 h2 H1 H2 E.
    destruct (Hb1 _ H1) as (Hx1 & Hmax1). destruct (Hb2 _ H2) as (Hy2 & Hmax2).
    apply Qle_antisym.
    + apply Hmax2; [apply Hsame; exact Hx1|exact E].
    + apply Hmax1; [apply Hsame; exact Hy2|symmetry; exact E].
Qed.

(** X2.  The order of the two arguments of [_merge_results] does not
    change which keys come out, how many hits, or the score kept for a
    key: [_hybrid_search] passes the exact hits first, [_auto_search] the
    semantic hits first. *)
Theorem merge_results_commutes (results1 results2 : list Hit) :
  exists out12 out21,
    _merge_results rt results1 results2 = Ok out12
    /\ _merge_results rt results2 results1 = Ok out21
    /\ (forall k, In k (map (merge_key rt) out12)
                  <-> In k (map (merge_key rt) out21))
    /\ length out12 = length out21
    /\ (forall h1 h2, In h1 out12 -> In h2 out21 ->
          merge_key rt h1 = merge_key rt h2 -> (score h1 == score h2)%Q)
    /\ sorted_desc out12 /\ sorted_desc out21.
Proof.
  destruct (merge_results_best results1 results2) as (out12 & H12 & B12).
  destruct (merge_results_best results2 results1) as (out21 & H21 & B21).
  exists out12, out21. split; [exact H12|]. split; [exact H21|].
  assert (Hsame : forall h, In h (results1 ++ results2) <-> In h (results2 ++ results1)).
  { intros h. rewrite !in_app_iff. tauto. }
  destruct (best_per_key_agree _ _ _ _ Hsame B12 B21) as (Hk & Hl & Hs).
  split; [exact Hk|]. split; [exact Hl|]. split; [exact Hs|].
  rewrite merge_results_eq in H12, H21.
  injection H12 as <-. injection H21 as <-.
  split; apply sort_by_score_sorted.
Qed.

Lemma dict_set_fresh (k : pystr) (v : Hit) (d : dict) :
  ~ In k (map fst d) -> dict_set k v d = d ++ [(k, v)].
Proof.
  induction d as [|[k' v'] d IH]; simpl; intros Hn; [reflexivity|].
  rewrite pystr_eqb_neq by tauto. rewrite IH by tauto. reflexivity.
Qed.

Lemma merge_fold_distinct (xs : list Hit) :
  forall d : dict,
    NoDup (map fst d ++ map (merge_key rt) xs) ->
    fold_left (merge_step rt) xs d = d ++ map (fun x => (merge_key rt x, x)) xs.
Proof.
  induction xs as [|x xs IH]; simpl; intros d Hnd; [rewrite app_nil_r; reflexivity|].
  assert (Hfresh : ~ In (merge_key rt x) (map fst d)).
  { intros Hin. apply NoDup_remove_2 in Hnd. apply Hnd. apply in_or_app. auto. }
  unfold merge_step at 2. cbv zeta.
  rewrite (proj2 (dict_get_None _ _) Hfresh).
  rewrite (dict_set_fresh _ _ _ Hfresh).
  rewrite IH.
  - rewrite <- app_assoc. reflexivity.
  - rewrite map_app. simpl. rewrite <- app_assoc. exact Hnd.
Qed.

(** X3.  When no two input hits share a key, [_merge_results] drops
    nothing: it returns the concatenation of its arguments sorted by
    score, largest first, hits of equal score in their input order. *)
Theorem merge_results_distinct_keys (results1 results2 : list Hit) :
  NoDup (map (merge_key rt) (results1 ++ results2)) ->
  _merge_results rt results1 results2 = Ok (sort_by_score (results1 ++ results2))
  /\ Permutation (results1 ++ results2) (sort_by_score (results1 ++ results2))
  /\ forall s, filter (tied s) (sort_by_score (results1 ++ results2))
               = filter (tied s) (results1 ++ results2).
Proof.
  intros Hnd. split; [|split; [apply sort_by_score_perm|intros s; apply sort_by_score_stable]].
  rewrite merge_results_eq. rewrite (merge_fold_distinct _ []) by exact Hnd.
  simpl. unfold dict_values. rewrite map_map. simpl. rewrite map_id. reflexivity.
Qed.

(** The output never holds more hits than the input, and only hits of the
    input. *)
Lemma merge_results_length (results1 results2 out : list Hit) :
  _merge_results rt results1 results2 = Ok out ->
  (length out <= length results1 + length results2)%nat.
Proof.
  intros H. destruct (merge_results_best results1 results2) as (out' & H' & Hnd & Hk & _).
  rewrite H in H'. injection H' as <-.
  rewrite <- length_app, <- (length_map (merge_key rt) out),
    <- (length_map (merge_key rt) (results1 ++ results2)).
  apply NoDup_incl_length; [exact Hnd|]. intros k. apply Hk.
Qed.

Lemma NoDup_map_inj {A B} (f : A -> B) (xs : list A) (a b : A) :
  NoDup (map f xs) -> In a xs -> In b xs -> f a = f b -> a = b.
Proof.
  induction xs as [|x xs IH]; simpl; intros Hnd Ha Hb E; [contradiction|].
  inversion Hnd as [|? ? Hx Hnd']; subst.
  destruct Ha as [-> | Ha], Hb as [-> | Hb].
  - reflexivity.
  - exfalso. apply Hx. rewrite E. apply in_map. exact Hb.
  - exfalso. apply Hx. rewrite <- E. apply in_map. exact Ha.
  - auto.
Qed.

(** X4.  The index stores every packaging variant of an identifier under
    the one id [chemical_<un>].  Two hits that come from the index (no
    [chemical_data]) for two rows with the same UN number therefore have
    the same merge key, and [_merge_results] keeps exactly one hit for
    both, with a score at least as high as either. *)
Theorem merge_collapses_indexed_variants
  (results1 results2 : list Hit) (h1 h2 : Hit) (c1 c2 : Chemical) :
  In h1 (results1 ++ results2) ->
  In h2 (results1 ++ results2) ->
  chemical_data h1 = None ->
  chemical_data h2 = None ->
  metadata h1 = mysql_metadata c1 ->
  metadata h2 = mysql_metadata c2 ->
  un_number c1 = un_number c2 ->
  merge_key rt h1 = py "chemical_" ++ py_str_int (un_number c1)
  /\ merge_key rt h2 = merge_key rt h1
  /\ exists out o,
       _merge_results rt results1 results2 = Ok out
       /\ In o out
       /\ merge_key rt o = merge_key rt h1
       /\ (forall o', In o' out -> merge_key rt o' = merge_key rt h1 -> o' = o)
       /\ (score h1 <= score o)%Q /\ (score h2 <= score o)%Q.
Proof.
  intros Hin1 Hin2 Hd1 Hd2 Hm1 Hm2 Hun.
  assert (K1 : merge_key rt h1 = py "chemical_" ++ py_str_int (un_number c1)).
  { unfold merge_key, document_key. rewrite Hd1, Hm1. reflexivity. }
  assert (K2 : merge_key rt h2 = merge_key rt h1).
  { rewrite K1. unfold merge_key, document_key. rewrite Hd2, Hm2, Hun. reflexivity. }
  split; [exact K1|]. split; [exact K2|].
  destruct (merge_results_best results1 results2) as (out & Hret & Hnd & Hk & Hb).
  assert (Hkey : In (merge_key rt h1) (map (merge_key rt) out)).
  { apply Hk. apply in_map. exact Hin1. }
  apply in_map_iff in Hkey. destruct Hkey as (o & Eo & Ho).
  exists out, o. split; [exact Hret|]. split; [exact Ho|]. split; [exact Eo|].
  split.
  - intros o' Ho' Eo'. apply (NoDup_map_inj (merge_key rt) out); auto. congruence.
  - destruct (Hb _ Ho) as (_ & Hmax). split; apply Hmax; congruence.
Qed.
End MergeMore.

Lemma merge_results_distinct_keys_witness :
  _merge_results cpython
    [exact_hit cpython (py "exact_un") 1 adhesive_I]
    [exact_hit cpython (py "exact_un") 1 adhesive_II; indexed_hit battery (1 # 2)]
  = Ok [exact_hit cpython (py "exact_un") 1 adhesive_I;
        exact_hit cpython (py "exact_un") 1 adhesive_II;
        indexed_hit battery (1 # 2)].
Proof.
  refine (proj1 (merge_results_distinct_keys cpython _ _ _)).
  vm_compute. repeat constructor; simpl; intuition discriminate.
Defined.

Lemma merge_collapses_indexed_variants_witness :
  exists out o,
    _merge_results cpython
      [indexed_hit adhesive_I (1 # 2)] [indexed_hit adhesive_II (4 # 5)] = Ok out
    /\ In o out
    /\ (forall o', In o' out ->
          merge_key cpython o' = merge_key cpython (indexed_hit adhesive_I (1 # 2)) ->
          o' = o)
    /\ (4 # 5 <= score o)%Q.
Proof.
  destruct (merge_collapses_indexed_variants cpython
              [indexed_hit adhesive_I (1 # 2)] [indexed_hit adhesive_II (4 # 5)]
              (indexed_hit adhesive_I (1 # 2)) (indexed_hit adhesive_II (4 # 5))
              adhesive_I adhesive_II)
    as (_ & _ & out & o & Hret & Ho & _ & Huniq & _ & Hs);
    [simpl; auto|simpl; auto|reflexivity|reflexivity|reflexivity|reflexivity|reflexivity|].
  exists out, o. split; [exact Hret|]. split; [exact Ho|]. split; [exact Huniq|exact Hs].
Defined.

(* ------------------------------------------------------------------ *)
(** ** The searches of the retriever *)

Lemma NoDup_firstn {A} (n : nat) (xs : list A) : NoDup xs -> NoDup (firstn n xs).
Proof.
  intros H. rewrite <- (firstn_skipn n xs) in H. apply NoDup_app_remove_r in H. exact H.
Qed.

Lemma py_slice_to_firstn {A} (k : Z) (xs : list A) :
  exists n, py_slice_to k xs = firstn n xs.
Proof. unfold py_slice_to. destruct (k <? 0); eauto. Qed.

Section Searches.
Variable rt : Runtime.
Variable self : HybridRetriever.

(** X5.  [_hybrid_search] returns normally; its hits are sorted by score,
    largest first, no two of them share a merge key, each is a hit of one
    of the two sub-searches run with the cap [top_k // 2 + 1], and for a
    non-negative [top_k] there are at most [top_k] of them. *)
Theorem hybrid_search_sorted_distinct (query : pystr) (top_k : Z) :
  exists hits exact_results semantic_results,
    _hybrid_search rt self query top_k = Ok hits
    /\ _exact_search rt self query (top_k / 2 + 1) = Ok exact_results
    /\ _semantic_search self query (top_k / 2 + 1) = Ok semantic_results
    /\ sorted_desc hits
    /\ NoDup (map (merge_key rt) hits)
    /\ (forall h, In h hits -> In h exact_results \/ In h semantic_results)
    /\ (0 <= top_k -> Z.of_nat (length hits) <= top_k).
Proof.
  destruct (hybrid_search_eq rt self query top_k)
    as (ex & se & combined & Hex & Hse & Hm & Hh).
  exists (py_slice_to top_k combined), ex, se.
  split; [exact Hh|]. split; [exact Hex|]. split; [exact Hse|].
  destruct (merge_results_best rt ex se) as (out & Hout & Hnd & _ & Hb).
  rewrite Hm in Hout. injection Hout as <-.
  split.
  { apply sorted_desc_slice. rewrite merge_results_eq in Hm. injection Hm as <-.
    apply sort_by_score_sorted. }
  split.
  { destruct (py_slice_to_firstn top_k combined) as (n & ->).
    rewrite <- firstn_map. apply NoDup_firstn. exact Hnd. }
  split.
  { intros h Hin. apply py_slice_to_incl in Hin.
    apply in_app_or. apply (Hb _ Hin). }
  apply py_slice_to_length.
Qed.

(** X6.  The three branches of [_auto_search].  A query with an
    identifier token is answered by the exact search alone; otherwise a
    query with one of the ten chemical nouns is answered by the hybrid
    search; otherwise the semantic hits are returned as they are when
    there are at least [top_k] of them, and else topped up by an exact
    search for the missing number of hits, merged and cut to [top_k]. *)
Theorem auto_search_dispatch (query : pystr) (top_k : Z) :
  (search_un rt None query = true ->
   _auto_search rt self query top_k = _exact_search rt self query top_k)
  /\ (search_un rt None query = false ->
      existsb (fun keyword => py_in keyword query) chemical_keywords = true ->
      _auto_search rt self query top_k = _hybrid_search rt self query top_k)
  /\ (search_un rt None query = false ->
      existsb (fun keyword => py_in keyword query) chemical_keywords = false ->
      exists semantic_results,
        _semantic_search self query top_k = Ok semantic_results
        /\ (top_k <= Z.of_nat (length semantic_results) ->
            _auto_search rt self query top_k = Ok semantic_results)
        /\ (Z.of_nat (length semantic_results) < top_k ->
            exists exact_results combined,
              _exact_search rt self query (top_k - Z.of_nat (length semantic_results))
              = Ok exact_results
              /\ _merge_results rt semantic_results exact_results = Ok combined
              /\ _auto_search rt self query top_k = Ok (py_slice_to top_k combined))).
Proof.
  split; [|split].
  - intros Hun. unfold _auto_search, _detect_query_type. rewrite Hun.
    cbv zeta. change (pystr_eqb (py "un_number") (py "un_number")) with true. cbv iota.
    destruct (exact_search_returns rt self query top_k) as (hits & ->). reflexivity.
  - intros Hun Hkw. unfold _auto_search, _detect_query_type. rewrite Hun, Hkw.
    cbv zeta.
    change (pystr_eqb (py "name_search") (py "un_number")) with false.
    change (pystr_eqb (py "name_search") (py "name_search")) with true. cbv iota.
    destruct (hybrid_search_returns rt self query top_k) as (hits & ->). reflexivity.
  - intros Hun Hkw.
    destruct (semantic_search_returns self query top_k) as (se & Hse).
    exists se. split; [exact Hse|].
    unfold _auto_search, _detect_query_type. rewrite Hun, Hkw. cbv zeta.
    change (pystr_eqb (py "natural_language") (py "un_number")) with false.
    change (pystr_eqb (py "natural_language") (py "name_search")) with false. cbv iota.
    rewrite Hse. cbn [bind]. split.
    + intros Hle. rewrite (proj2 (Z.ltb_ge _ _) Hle). reflexivity.
    + intros Hlt. rewrite (proj2 (Z.ltb_lt _ _) Hlt).
      destruct (exact_search_returns rt self query (top_k - Z.of_nat (length se)))
        as (ex & Hex).
      exists ex, (sort_by_score (dict_values (fold_left (merge_step rt) (se ++ ex) []))).
      split; [exact Hex|]. split; [apply merge_results_eq|].
      rewrite Hex. reflexivity.
Qed.

Lemma find_related_regulations_length (chemicals : list Hit) (query : pystr)
  (regs : list Hit) :
  _find_related_regulations rt self chemicals query = Ok regs ->
  (length regs <= 3)%nat.
Proof.
  unfold _find_related_regulations. intros H.
  destruct (specific_tiers rt (vector_handler self) chemicals) as [st|e];
    cbn [bind try_except] in H; [|injection H as <-; simpl; lia].
  destruct (if negb (snd st) then _ else _) as [related|e];
    cbn [bind try_except] in H; injection H as <-; [|simpl; lia].
  pose proof (py_slice_to_length 3 (sort_by_score related)). lia.
Qed.

(** Hits without a catalogue record start no association. *)
Lemma specific_tiers_no_record (chemicals : list Hit) :
  Forall (fun h => chemical_data h = None) chemicals ->
  forall st, for_each chemicals st (related_for_chemical rt (vector_handler self)) = Ok st.
Proof.
  induction 1 as [|h l Hh _ IH]; intros st; [reflexivity|].
  cbn [for_each]. unfold related_for_chemical at 1. rewrite Hh. cbn [bind]. apply IH.
Qed.

Lemma chemical_categories_no_record (chemicals : list Hit) :
  Forall (fun h => chemical_data h = None) chemicals ->
  chemical_categories chemicals = [].
Proof.
  induction 1 as [|h l Hh _ IH]; [reflexivity|].
  unfold chemical_categories in *. simpl. rewrite Hh. exact IH.
Qed.

Lemma category_tier_without_record (chemicals related : list Hit) :
  Forall (fun h => chemical_data h = None) chemicals ->
  category_tier rt (vector_handler self) chemicals related = Ok related.
Proof.
  intros H. unfold category_tier. rewrite (chemical_categories_no_record _ H).
  rewrite list_set_nil. reflexivity.
Qed.

Lemma no_related_without_record (chemicals : list Hit) (query : pystr) :
  Forall (fun h => chemical_data h = None) chemicals ->
  _find_related_regulations rt self chemicals query = Ok [].
Proof.
  intros H. unfold _find_related_regulations, specific_tiers.
  rewrite (specific_tiers_no_record chemicals H). cbn [bind snd fst negb].
  rewrite (category_tier_without_record chemicals [] H). reflexivity.
Qed.

(** X7.  Regulation Association is driven by the catalogue record of a
    hit alone: for chemicals that all come from the semantic index (no
    [chemical_data]) it runs no search and returns no regulation. *)
Theorem no_record_no_related_regulations (chemicals : list Hit) (query : pystr) :
  Forall (fun h => chemical_data h = None) chemicals ->
  specific_tiers rt (vector_handler self) chemicals = Ok ([], false)
  /\ category_tier rt (vector_handler self) chemicals [] = Ok []
  /\ _find_related_regulations rt self chemicals query = Ok [].
Proof.
  intros H.
  split; [apply specific_tiers_no_record; exact H|].
  split; [apply category_tier_without_record; exact H|].
  apply no_related_without_record. exact H.
Qed.

(** X8.  [_build_structured_result] returns normally.  The chemical
    bucket is the hits typed [chemical], in their order; the regulation
    bucket is sorted by score, holds each id once, covers the id of every
    hit typed [regulation], takes its hits from those and from the (at
    most three) associated regulations; both totals are the lengths of
    the buckets. *)
Theorem build_structured_result_buckets (basic_results : list Hit) (query : pystr) :
  exists related regs,
    _find_related_regulations rt self
      (filter (has_doc_type (py "chemical")) basic_results) query = Ok related
    /\ _merge_regulations rt
         (filter (has_doc_type (py "regulation")) basic_results) related = Ok regs
    /\ _build_structured_result rt self basic_results query
       = Ok {| r_query := query;
               r_chemical_data := filter (has_doc_type (py "chemical")) basic_results;
               r_regulations := regs;
               total_chemicals :=
                 Some (Z.of_nat (length (filter (has_doc_type (py "chemical"))
                                                basic_results)));
               total_regulations := Some (Z.of_nat (length regs)) |}
    /\ sorted_desc regs
    /\ NoDup (map (document_key rt) regs)
    /\ (forall h, In h regs ->
          (In h basic_results /\ has_doc_type (py "regulation") h = true)
          \/ In h related)
    /\ (forall h, In h basic_results -> has_doc_type (py "regulation") h = true ->
          exists h', In h' regs /\ document_key rt h' = document_key rt h)
    /\ (length related <= 3)%nat
    /\ (length regs
        <= length (filter (has_doc_type (py "regulation")) basic_results) + 3)%nat.
Proof.
  destruct (find_related_regulations_returns rt self
              (filter (has_doc_type (py "chemical")) basic_results) query)
    as (related & Hrel).
  destruct (merge_regulations_kept rt
              (filter (has_doc_type (py "regulation")) basic_results) related)
    as (kept & Hregs & _).
  exists related, (sort_by_score kept).
  split; [exact Hrel|]. split; [exact Hregs|].
  split.
  { unfold _build_structured_result. cbv zeta. rewrite Hrel. cbn [bind].
    rewrite Hregs. reflexivity. }
  destruct (merge_regulations_distinct rt _ _ _ Hregs) as (Hsorted & Hnd & Hcov).
  split; [exact Hsorted|]. split; [exact Hnd|].
  pose proof (find_related_regulations_length _ _ _ Hrel) as Hlen.
  split.
  { intros h Hh. apply (merge_regulations_incl rt _ _ _ _ Hregs) in Hh.
    apply in_app_or in Hh. destruct Hh as [Hh|Hh]; [left|right; exact Hh].
    apply filter_In in Hh. exact Hh. }
  split.
  { intros h Hh Ht. apply Hcov. apply in_or_app. left. apply filter_In. auto. }
  split; [exact Hlen|].
  pose proof (merge_regulations_length rt _ _ _ Hregs). lia.
Qed.
End Searches.

Lemma no_record_no_related_regulations_witness :
  _find_related_regulations cpython sample_retriever
    [indexed_hit battery (4 # 5); indexed_hit adhesive_III (1 # 2)] (py "电池")
  = Ok [].
Proof.
  refine (proj2 (proj2 (no_record_no_related_regulations cpython sample_retriever
                          _ _ _))).
  repeat constructor.
Defined.

(* ------------------------------------------------------------------ *)
(** ** Substrings and stripping *)

Lemma starts_with_spec (p s : pystr) :
  starts_with p s = true <-> exists post, s = p ++ post.
Proof.
  revert s. induction p as [|a p IH]; intros s; simpl.
  - split; [eauto|reflexivity].
  - destruct s as [|b s].
    + split; [discriminate|]. intros (post & H). discriminate.
    + rewrite andb_true_iff, IH, N.eqb_eq. split.
      * intros (-> & post & ->). eauto.
      * intros (post & H). injection H as -> ->. eauto.
Qed.

Lemma py_in_spec (sub s : pystr) :
  py_in sub s = true <-> exists pre post, s = pre ++ sub ++ post.
Proof.
  induction s as [|c s IH].
  - simpl. rewrite orb_false_r, starts_with_spec. split.
    + intros (post & H). exists [], post. exact H.
    + intros (pre & post & H). destruct pre; [eauto|discriminate].
  - cbn [py_in]. rewrite orb_true_iff, starts_with_spec, IH. split.
    + intros [(post & H)|(pre & post & H)].
      * exists [], post. exact H.
      * exists (c :: pre), post. rewrite H. reflexivity.
    + intros (pre & post & H). destruct pre as [|c' pre].
      * left. exists post. exact H.
      * right. injection H as _ H. eauto.
Qed.

Lemma py_in_false (sub s pre post : pystr) :
  py_in sub s = false -> s <> pre ++ sub ++ post.
Proof.
  intros H E. assert (py_in sub s = true) by (apply py_in_spec; eauto). congruence.
Qed.

(** A string that contains [a ++ sub] contains [sub]. *)
Lemma py_in_tail (a sub s : pystr) :
  py_in (a ++ sub) s = true -> py_in sub s = true.
Proof.
  rewrite !py_in_spec. intros (pre & post & ->).
  exists (pre ++ a), post. rewrite <- !app_assoc. reflexivity.
Qed.

Section Strip.
Variable rt : Runtime.

Lemma lstrip_split (s : pystr) :
  exists ws, s = ws ++ lstrip rt s /\ Forall (fun c => isspace rt c = true) ws.
Proof.
  induction s as [|c r (ws & E & Hws)]; [exists []; split; [reflexivity|constructor]|].
  simpl. destruct (isspace rt c) eqn:Ec.
  - exists (c :: ws). split; [simpl; congruence|constructor; assumption].
  - exists []. split; [reflexivity|constructor].
Qed.

Lemma lstrip_head (s r : pystr) (c : N) :
  lstrip rt s = c :: r -> isspace rt c = false.
Proof.
  induction s as [|a s IH]; simpl; [discriminate|].
  destruct (isspace rt a) eqn:Ea; [exact IH|]. intros H. injection H as <- _. exact Ea.
Qed.

Lemma lstrip_fixed (c : N) (r : pystr) :
  isspace rt c = false -> lstrip rt (c :: r) = c :: r.
Proof. intros H. simpl. rewrite H. reflexivity. Qed.

Lemma lstrip_idem (s : pystr) : lstrip rt (lstrip rt s) = lstrip rt s.
Proof.
  destruct (lstrip rt s) as [|c r] eqn:E; [reflexivity|].
  apply lstrip_fixed. eapply lstrip_head. exact E.
Qed.

Lemma py_strip_stripped (s : pystr) : stripped rt (py_strip rt s).
Proof.
  unfold stripped, py_strip.
  set (t := lstrip rt s). set (u := lstrip rt (rev t)).
  split; [|rewrite rev_involutive; apply lstrip_idem].
  destruct (lstrip_split (rev t)) as (ws & E & _). fold u in E.
  assert (Et : t = rev u ++ rev ws).
  { rewrite <- (rev_involutive t), E, rev_app_distr. reflexivity. }
  destruct (rev u) as [|c r] eqn:Eu; [reflexivity|].
  apply lstrip_fixed. apply (lstrip_head s (r ++ rev ws)).
  fold t. rewrite Et. reflexivity.
Qed.

Lemma py_strip_fixed (s : pystr) : stripped rt s -> py_strip rt s = s.
Proof.
  intros (H1 & H2). unfold py_strip. rewrite H1, H2. apply rev_involutive.
Qed.

Lemma py_strip_idem (s : pystr) : py_strip rt (py_strip rt s) = py_strip rt s.
Proof. apply py_strip_fixed. apply py_strip_stripped. Qed.

(** Stripping removes white space at the two ends and nothing else. *)
Lemma py_strip_split (s : pystr) :
  exists a b,
    s = a ++ py_strip rt s ++ b
    /\ Forall (fun c => isspace rt c = true) a
    /\ Forall (fun c => isspace rt c = true) b.
Proof.
  unfold py_strip.
  destruct (lstrip_split s) as (a & Ea & Ha).
  destruct (lstrip_split (rev (lstrip rt s))) as (b & Eb & Hb).
  exists a, (rev b). split; [|split; [exact Ha|apply Forall_rev; exact Hb]].
  rewrite <- rev_app_distr, <- Eb, rev_involutive. exact Ea.
Qed.

Lemma py_strip_length (s : pystr) : (length (py_strip rt s) <= length s)%nat.
Proof.
  destruct (py_strip_split s) as (a & b & E & _).
  rewrite E at 2. rewrite !length_app. lia.
Qed.

Lemma lstrip_all_space (s : pystr) :
  Forall (fun c => isspace rt c = true) s -> lstrip rt s = [].
Proof.
  induction 1 as [|c r Hc _ IH]; [reflexivity|]. simpl. rewrite Hc. exact IH.
Qed.

Lemma py_strip_nil_iff (s : pystr) :
  py_strip rt s = [] <-> Forall (fun c => isspace rt c = true) s.
Proof.
  split.
  - intros H. destruct (py_strip_split s) as (a & b & E & Ha & Hb).
    rewrite H in E. rewrite E. apply Forall_app. auto.
  - intros H. unfold py_strip. rewrite (lstrip_all_space _ H). reflexivity.
Qed.
End Strip.

(* ------------------------------------------------------------------ *)
(** ** Names extracted for the fallback *)

Lemma lazy_until_inv (suffix : pystr) :
  forall s g, lazy_until suffix s = Some g ->
              ~ In 10%N g /\ exists post, s = g ++ suffix ++ post.
Proof.
  induction s as [|c r IH]; intros g; cbn [lazy_until].
  - destruct (starts_with suffix []) eqn:E; [|discriminate].
    intros H. injection H as <-. split; [intros []|].
    apply starts_with_spec in E. exact E.
  - destruct (starts_with suffix (c :: r)) eqn:E.
    + intros H. injection H as <-. split; [intros []|].
      apply starts_with_spec in E. exact E.
    + destruct (c =? 10)%N eqn:Ec; [discriminate|].
      destruct (lazy_until suffix r) as [g'|] eqn:El; [|discriminate].
      intros H. injection H as <-.
      destruct (IH g' eq_refl) as (Hn & post & ->).
      split; [|exists post; reflexivity].
      intros [E10 | Hin]; [subst c; discriminate|contradiction].
Qed.

Lemma search_capture_inv (suffix : pystr) :
  forall s g, search_capture suffix s = Some g ->
              g <> [] /\ ~ In 10%N g
              /\ exists pre post, s = pre ++ g ++ suffix ++ post.
Proof.
  induction s as [|c r IH]; intros g; cbn [search_capture]; [discriminate|].
  destruct (c =? 10)%N eqn:Ec.
  - intros H. destruct (IH g H) as (Hg & Hn & pre & post & ->).
    split; [exact Hg|]. split; [exact Hn|]. exists (c :: pre), post. reflexivity.
  - destruct (lazy_until suffix r) as [g'|] eqn:El.
    + intros H. injection H as <-.
      destruct (lazy_until_inv suffix r g' El) as (Hn & post & ->).
      split; [discriminate|]. split.
      * intros [E10 | Hin]; [subst c; discriminate|contradiction].
      * exists [], post. reflexivity.
    + intros H. destruct (IH g H) as (Hg & Hn & pre & post & ->).
      split; [exact Hg|]. split; [exact Hn|]. exists (c :: pre), post. reflexivity.
Qed.

Lemma search_capture_absent (suffix s : pystr) :
  py_in suffix s = false -> search_capture suffix s = None.
Proof.
  intros H. destruct (search_capture suffix s) as [g|] eqn:E; [|reflexivity].
  destruct (search_capture_inv _ _ _ E) as (_ & _ & pre & post & Hs).
  exfalso. apply (py_in_false suffix s (pre ++ g) post H).
  rewrite <- app_assoc. exact Hs.
Qed.

Lemma unique_In (names : list pystr) :
  forall seen x, In x (unique seen names) -> In x names /\ ~ In x seen.
Proof.
  induction names as [|n names IH]; intros seen x; simpl; [contradiction|].
  destruct (existsb (pystr_eqb n) seen) eqn:E.
  - intros H. destruct (IH _ _ H). auto.
  - intros [<- | H].
    + split; [auto|]. intros Hin. apply existsb_pystr_In in Hin. congruence.
    + destruct (IH _ _ H) as (H1 & H2). split; [auto|]. intros Hin. apply H2. right. exact Hin.
Qed.

Lemma unique_NoDup (names : list pystr) :
  forall seen, NoDup (unique seen names).
Proof.
  induction names as [|n names IH]; intros seen; simpl; [constructor|].
  destruct (existsb (pystr_eqb n) seen); [apply IH|].
  constructor; [|apply IH]. intros Hin. apply unique_In in Hin.
  apply (proj2 Hin). left. reflexivity.
Qed.

(** X9.  [_extract_chemical_names] gives at most three names, no name
    twice.  Each name is the stripped text captured before one of the
    eighteen suffixes: it stands in the query on one line in front of that
    suffix, has two characters or more, no white space at either end and
    no run of three ASCII digits.  A query that contains none of the
    suffixes gives no name, and then [_fallback_search] returns the empty
    result. *)
Theorem extract_chemical_names_spec (rt : Runtime) (query : pystr) :
  (length (_extract_chemical_names rt query) <= 3)%nat
  /\ NoDup (_extract_chemical_names rt query)
  /\ (forall name, In name (_extract_chemical_names rt query) ->
        2 <= Z.of_nat (length name)
        /\ search_3_digits name = false
        /\ stripped rt name
        /\ exists suffix g pre post,
             In suffix name_patterns
             /\ query = pre ++ g ++ suffix ++ post
             /\ ~ In 10%N g
             /\ name = py_strip rt g)
  /\ ((forall suffix, In suffix name_patterns -> py_in suffix query = false) ->
      _extract_chemical_names rt query = []
      /\ forall self top_k,
           _fallback_search rt self query top_k = Ok (empty_result query)).
Proof.
  unfold _extract_chemical_names. cbv zeta.
  split; [apply firstn_le_length|].
  split; [apply NoDup_firstn; apply unique_NoDup|].
  split.
  - intros name Hin. apply In_firstn in Hin. apply unique_In in Hin.
    destruct Hin as (Hin & _). apply in_flat_map in Hin.
    destruct Hin as (suffix & Hs & Hin).
    destruct (search_capture suffix query) as [g|] eqn:Eg; [|contradiction].
    cbv zeta in Hin.
    destruct ((2 <=? Z.of_nat (length (py_strip rt g)))
              && negb (search_3_digits (py_strip rt g))) eqn:Ec; [|contradiction].
    destruct Hin as [<- | []].
    apply andb_true_iff in Ec. destruct Ec as (E1 & E2).
    split; [apply Z.leb_le; exact E1|].
    split; [apply negb_true_iff; exact E2|].
    split; [apply py_strip_stripped|].
    destruct (search_capture_inv _ _ _ Eg) as (_ & Hn & pre & post & Hq).
    exists suffix, g, pre, post. auto.
  - intros Hnone.
    assert (E : flat_map
                  (fun suffix =>
                     match search_capture suffix query with
                     | Some g =>
                       if (2 <=? Z.of_nat (length (py_strip rt g)))
                          && negb (search_3_digits (py_strip rt g))
                       then [py_strip rt g] else []
                     | None => []
                     end) name_patterns = []).
    { induction name_patterns as [|p ps IH]; [reflexivity|].
      simpl. rewrite (search_capture_absent p query) by (apply Hnone; simpl; auto).
      simpl. apply IH. intros s Hs. apply Hnone. simpl. auto. }
    assert (E' : _extract_chemical_names rt query = []).
    { unfold _extract_chemical_names. rewrite E. reflexivity. }
    split; [unfold _extract_chemical_names in E'; exact E'|].
    intros self top_k. unfold _fallback_search. rewrite E'. reflexivity.
Qed.

(* ------------------------------------------------------------------ *)
(** ** Keyword expansion *)

Lemma py_list_set_perm (rt : Runtime) (xs : list pystr) :
  Permutation (nodup (list_eq_dec N.eq_dec) xs) (py_list_set rt xs).
Proof. apply set_iter_perm. Qed.

Lemma py_list_set_NoDup (rt : Runtime) (xs : list pystr) : NoDup (py_list_set rt xs).
Proof.
  eapply Permutation_NoDup; [apply py_list_set_perm|apply NoDup_nodup].
Qed.

Lemma py_list_set_In (rt : Runtime) (xs : list pystr) (x : pystr) :
  In x (py_list_set rt xs) <-> In x xs.
Proof.
  rewrite <- (nodup_In (list_eq_dec N.eq_dec) xs x). split.
  - apply Permutation_in. symmetry. apply py_list_set_perm.
  - apply Permutation_in. apply py_list_set_perm.
Qed.

Lemma py_list_set_length (rt : Runtime) (xs : list pystr) :
  (length (py_list_set rt xs) <= length xs)%nat.
Proof.
  pose proof (Permutation_length (py_list_set_perm rt xs)) as E.
  assert (H : (length (nodup (list_eq_dec N.eq_dec) xs) <= length xs)%nat).
  { apply NoDup_incl_length; [apply NoDup_nodup|]. intros x. apply nodup_In. }
  unfold pystr in *. lia.
Qed.

Lemma py_list_set_nil_iff (rt : Runtime) (xs : list pystr) :
  py_list_set rt xs = [] <-> xs = [].
Proof.
  split.
  - intros H. destruct xs as [|x xs]; [reflexivity|].
    assert (Hin : In x (py_list_set rt (x :: xs))) by (apply py_list_set_In; simpl; auto).
    rewrite H in Hin. contradiction.
  - intros ->. unfold py_list_set. simpl. apply Permutation_nil. apply set_iter_perm.
Qed.

(** X10.  [_expand_search_terms] gives at most six terms, none twice.  It
    gives none exactly when the query contains none of the four triggers,
    and for a query that mentions a battery the two lithium-battery names
    are always among the terms. *)
Theorem expand_search_terms_spec (rt : Runtime) (query : pystr) :
  NoDup (_expand_search_terms rt query)
  /\ (length (_expand_search_terms rt query) <= 6)%nat
  /\ (_expand_search_terms rt query = []
      <-> py_in (py "电池") query = false
          /\ py_in (py "易燃") query = false
          /\ py_in (py "腐蚀") query = false
          /\ py_in (py "有毒") query = false)
  /\ (py_in (py "电池") query = true ->
      In (py "锂离子电池") (_expand_search_terms rt query)
      /\ In (py "锂金属电池") (_expand_search_terms rt query)).
Proof.
  assert (Hsub : py_in (py "锂电池") query = true -> py_in (py "电池") query = true).
  { apply (py_in_tail [38146%N] (py "电池") query). }
  unfold _expand_search_terms. cbv zeta.
  split; [apply py_list_set_NoDup|].
  split.
  { etransitivity; [apply py_list_set_length|].
    rewrite length_app.
    destruct (py_in (py "锂电池") query), (py_in (py "电池") query),
      (py_in (py "锂") query), (py_in (py "易燃") query),
      (py_in (py "腐蚀") query), (py_in (py "有毒") query); simpl; lia. }
  split.
  { rewrite py_list_set_nil_iff.
    destruct (py_in (py "锂电池") query) eqn:E1.
    - rewrite (Hsub eq_refl). split; [discriminate|intros (H & _); discriminate].
    - destruct (py_in (py "电池") query), (py_in (py "锂") query),
        (py_in (py "易燃") query), (py_in (py "腐蚀") query),
        (py_in (py "有毒") query); simpl;
        (split; [try discriminate; auto|intros (? & ? & ? & ?); try discriminate; auto]). }
  intros Hb. rewrite !py_list_set_In, !in_app_iff. rewrite Hb.
  destruct (py_in (py "锂电池") query), (py_in (py "锂") query); simpl; auto.
Qed.

(* ------------------------------------------------------------------ *)
(** ** [str] and [int] on integers *)

Lemma py_ascii_cons (c : ascii) (s : string) :
  (N_of_ascii c <? 128)%N = true -> py (String c s) = N_of_ascii c :: py s.
Proof. intros H. unfold py. cbn [list_ascii_of_string map utf8_decode]. rewrite H. reflexivity. Qed.

Lemma py_string_of_uint (d : Decimal.uint) :
  py (NilEmpty.string_of_uint d) = digit_codes d.
Proof.
  induction d; cbn [NilEmpty.string_of_uint digit_codes];
    [reflexivity|rewrite py_ascii_cons by reflexivity; rewrite IHd; reflexivity..].
Qed.

Lemma digit_codes_ascii (d : Decimal.uint) :
  Forall (fun c => ascii_digit c = true) (digit_codes d).
Proof. induction d; simpl; constructor; auto. Qed.

Lemma digit_codes_nonnil (d : Decimal.uint) : d <> Decimal.Nil -> digit_codes d <> [].
Proof. destruct d; simpl; congruence. Qed.

Lemma digit_codes_inj (d1 : Decimal.uint) :
  forall d2, digit_codes d1 = digit_codes d2 -> d1 = d2.
Proof.
  induction d1; destruct d2; simpl; intros H; try discriminate H;
    try reflexivity; injection H as H; f_equal; auto.
Qed.

(** [str(n)] is the decimal numeral of [n], with a minus sign when [n] is
    negative. *)
Lemma py_str_int_nonneg (n : Z) :
  0 <= n ->
  exists d, py_str_int n = digit_codes d /\ d <> Decimal.Nil
            /\ Z.of_N (Pos.of_uint d) = n.
Proof.
  intros Hn. destruct n as [|p|p]; [| |lia].
  - exists (Decimal.D0 Decimal.Nil). repeat split. discriminate.
  - exists (Pos.to_uint p).
    pose proof (DecimalPos.Unsigned.to_uint_nonnil p) as Hnil.
    split; [|split; [exact Hnil|rewrite DecimalPos.Unsigned.of_to; reflexivity]].
    unfold py_str_int. cbn [Z.to_int NilZero.string_of_int].
    rewrite <- py_string_of_uint. unfold NilZero.string_of_uint.
    destruct (Pos.to_uint p); [congruence|reflexivity..].
Qed.

Lemma py_str_int_neg (n : Z) :
  n < 0 ->
  exists d, py_str_int n = 45%N :: digit_codes d /\ d <> Decimal.Nil
            /\ Z.of_N (Pos.of_uint d) = - n.
Proof.
  intros Hn. destruct n as [|p|p]; [lia|lia|].
  exists (Pos.to_uint p).
  pose proof (DecimalPos.Unsigned.to_uint_nonnil p) as Hnil.
  split; [|split; [exact Hnil|rewrite DecimalPos.Unsigned.of_to; reflexivity]].
  unfold py_str_int. cbn [Z.to_int NilZero.string_of_int].
  rewrite py_ascii_cons by reflexivity. f_equal.
  rewrite <- py_string_of_uint. unfold NilZero.string_of_uint.
  destruct (Pos.to_uint p); [congruence|reflexivity..].
Qed.

Lemma py_str_int_inj (a b : Z) : py_str_int a = py_str_int b -> a = b.
Proof.
  intros H.
  destruct (Z.lt_ge_cases a 0) as [Ha|Ha], (Z.lt_ge_cases b 0) as [Hb|Hb].
  - destruct (py_str_int_neg a Ha) as (d1 & E1 & _ & V1).
    destruct (py_str_int_neg b Hb) as (d2 & E2 & _ & V2).
    rewrite E1, E2 in H. injection H as H. apply digit_codes_inj in H. subst. lia.
  - destruct (py_str_int_neg a Ha) as (d1 & E1 & _).
    destruct (py_str_int_nonneg b Hb) as (d2 & E2 & N2 & _).
    rewrite E1, E2 in H. exfalso.
    pose proof (digit_codes_ascii d2) as Hd. rewrite <- H in Hd.
    inversion Hd as [|? ? Hc _]. discriminate Hc.
  - destruct (py_str_int_nonneg a Ha) as (d1 & E1 & N1 & _).
    destruct (py_str_int_neg b Hb) as (d2 & E2 & _).
    rewrite E1, E2 in H. exfalso.
    pose proof (digit_codes_ascii d1) as Hd. rewrite H in Hd.
    inversion Hd as [|? ? Hc _]. discriminate Hc.
  - destruct (py_str_int_nonneg a Ha) as (d1 & E1 & _ & V1).
    destruct (py_str_int_nonneg b Hb) as (d2 & E2 & _ & V2).
    rewrite E1, E2 in H. apply digit_codes_inj in H. subst. lia.
Qed.

(** The characters of [str(n)] are ASCII digits and the minus sign, and
    there is at least one. *)
Lemma py_str_int_chars (n : Z) :
  py_str_int n <> []
  /\ Forall (fun c => ascii_digit c = true \/ c = 45%N) (py_str_int n).
Proof.
  destruct (Z.lt_ge_cases n 0) as [Hn|Hn].
  - destruct (py_str_int_neg n Hn) as (d & -> & _). split; [discriminate|].
    constructor; [auto|]. eapply Forall_impl; [|apply digit_codes_ascii]. auto.
  - destruct (py_str_int_nonneg n Hn) as (d & -> & Hnil & _).
    split; [apply digit_codes_nonnil; exact Hnil|].
    eapply Forall_impl; [|apply digit_codes_ascii]. auto.
Qed.

Lemma py_int_digit_codes (rt : Runtime) (d : Decimal.uint) :
  (forall c, ascii_digit c = true -> decimal rt c = Some (Z.of_N c - 48)) ->
  py_int rt (digit_codes d) = Z.of_N (Pos.of_uint d).
Proof.
  intros Hdec. unfold py_int.
  set (f := fun (acc : Z) (c : N) =>
              10 * acc + match decimal rt c with Some v => v | None => 0 end).
  assert (Hstep : forall a c, ascii_digit c = true -> f a c = 10 * a + (Z.of_N c - 48)).
  { intros a c Hc. unfold f. rewrite (Hdec c Hc). reflexivity. }
  assert (Hacc : forall d acc,
             fold_left f (digit_codes d) (Z.pos acc) = Z.pos (Pos.of_uint_acc d acc)).
  { induction d0; intros acc; cbn [digit_codes fold_left Pos.of_uint_acc];
      [reflexivity|..];
      (rewrite Hstep by reflexivity; rewrite <- IHd0; f_equal; lia). }
  induction d; cbn [digit_codes fold_left Pos.of_uint]; [reflexivity|..];
    rewrite Hstep by reflexivity; [exact IHd|apply Hacc..].
Qed.

(** [int(str(n)) = n] for a natural number. *)
Lemma py_int_str_int (rt : Runtime) (n : Z) :
  reads_ascii rt -> 0 <= n -> py_int rt (py_str_int n) = n.
Proof.
  intros (Hd & _) Hn. destruct (py_str_int_nonneg n Hn) as (d & -> & _ & V).
  rewrite py_int_digit_codes; [exact V|]. intros c Hc. apply (Hd c Hc).
Qed.

Lemma cpython_reads_ascii : reads_ascii cpython.
Proof.
  split.
  - intros c Hc. simpl. rewrite Hc. repeat split.
    unfold ascii_digit in Hc. apply andb_true_iff in Hc. destruct Hc as (H1 & H2).
    apply N.leb_le in H1, H2.
    destruct ((9 <=? c)%N && (c <=? 13)%N) eqn:E1.
    { apply andb_true_iff in E1. destruct E1 as (_ & E1). apply N.leb_le in E1. lia. }
    destruct ((28 <=? c)%N && (c <=? 32)%N) eqn:E2; [|reflexivity].
    apply andb_true_iff in E2. destruct E2 as (_ & E2). apply N.leb_le in E2. lia.
  - intros c Hc. simpl. rewrite Hc. apply orb_true_iff. left. apply orb_true_r.
Qed.

(* ------------------------------------------------------------------ *)
(** ** Looking a chemical up by its UN number *)

Section Identifier.
Variable rt : Runtime.
Hypothesis Hrt : reads_ascii rt.

Lemma digit_is_dec (c : N) : ascii_digit c = true -> is_dec rt c = true.
Proof. intros Hc. unfold is_dec. rewrite (proj1 (proj1 Hrt c Hc)). reflexivity. Qed.

Lemma digit_is_word (c : N) : ascii_digit c = true -> is_word rt c = true.
Proof.
  intros Hc. unfold is_word. rewrite (proj1 (proj2 (proj1 Hrt c Hc))). reflexivity.
Qed.

Lemma more_digits_all (ds : pystr) :
  Forall (fun c => ascii_digit c = true) ds ->
  forall prev, ascii_digit prev = true -> more_digits rt prev ds = Some ds.
Proof.
  induction 1 as [|c r Hc _ IH]; intros prev Hp.
  - cbn [more_digits]. unfold at_boundary. cbn [word_opt hd_error].
    rewrite (digit_is_word prev Hp). reflexivity.
  - cbn [more_digits]. rewrite (digit_is_dec c Hc), (IH c Hc). reflexivity.
Qed.

Lemma spaces_digits_all (ds : pystr) :
  ds <> [] -> Forall (fun c => ascii_digit c = true) ds ->
  spaces_digits rt ds = Some (O, ds).
Proof.
  intros Hne Hds. destruct ds as [|c r]; [congruence|].
  inversion Hds as [|? ? Hc Hr]; subst.
  cbn [spaces_digits]. rewrite (proj2 (proj2 (proj1 Hrt c Hc))).
  unfold digits_b. rewrite (digit_is_dec c Hc), (more_digits_all r Hr c Hc). reflexivity.
Qed.

Lemma match_un_tagged (ds : pystr) :
  ds <> [] -> Forall (fun c => ascii_digit c = true) ds ->
  match_un rt None (py "UN" ++ ds) = Some (ds, (2 + length ds)%nat).
Proof.
  intros Hne Hds. unfold match_un, match_tagged.
  change (py "UN" ++ ds) with (85%N :: 78%N :: ds).
  unfold at_boundary. cbn [word_opt hd_error]. unfold is_word at 1.
  rewrite (proj2 Hrt 85%N eq_refl). cbn [orb xorb].
  change (is_U 85 && is_N 78) with true. cbv iota.
  rewrite (spaces_digits_all ds Hne Hds). reflexivity.
Qed.

Lemma findall_scan_skip (s : pystr) :
  forall prev k, (length s <= k)%nat -> findall_scan rt prev s k = [].
Proof.
  induction s as [|c r IH]; intros prev k Hk; [reflexivity|].
  simpl in Hk. destruct k as [|k]; [lia|]. cbn [findall_scan]. apply IH. lia.
Qed.

Lemma findall_un_tagged (ds : pystr) :
  ds <> [] -> Forall (fun c => ascii_digit c = true) ds ->
  findall_un rt (py "UN" ++ ds) = [ds].
Proof.
  intros Hne Hds. unfold findall_un.
  pose proof (match_un_tagged ds Hne Hds) as Hm.
  change (py "UN" ++ ds) with (85%N :: 78%N :: ds) in *.
  cbn [findall_scan]. rewrite Hm. f_equal. apply findall_scan_skip. simpl. lia.
Qed.

Lemma search_un_tagged (ds : pystr) :
  ds <> [] -> Forall (fun c => ascii_digit c = true) ds ->
  search_un rt None (py "UN" ++ ds) = true.
Proof.
  intros Hne Hds. pose proof (match_un_tagged ds Hne Hds) as Hm.
  change (py "UN" ++ ds) with (85%N :: 78%N :: ds) in *.
  cbn [search_un]. rewrite Hm. reflexivity.
Qed.

Lemma py_slice_to_map {A B} (f : A -> B) (k : Z) (xs : list A) :
  py_slice_to k (map f xs) = map f (py_slice_to k xs).
Proof.
  unfold py_slice_to. rewrite length_map. destruct (k <? 0); apply firstn_map.
Qed.

Lemma py_slice_to_cons {A} (k : Z) (x : A) (xs : list A) :
  0 < k -> exists r, py_slice_to k (x :: xs) = x :: r.
Proof.
  intros Hk. unfold py_slice_to. rewrite (proj2 (Z.ltb_ge k 0)) by lia.
  destruct (Z.to_nat k) as [|m] eqn:E; [lia|]. simpl. eauto.
Qed.

Variable self : HybridRetriever.
Variable rows : list Chemical.
Hypothesis Hstore : mysql_handler self = catalogue rows.

(** The exact search for [UN<n>] when the table holds rows numbered [n]. *)
Lemma exact_search_identifier (n top_k : Z) :
  0 <= n ->
  filter (fun c => un_number c =? n) rows <> [] ->
  _exact_search rt self (py "UN" ++ py_str_int n) top_k
  = Ok (map (exact_hit rt (py "exact_un") 1)
            (py_slice_to top_k (filter (fun c => un_number c =? n) rows))).
Proof.
  intros Hn Hfound.
  destruct (py_str_int_nonneg n Hn) as (d & Ed & Hd & _).
  assert (Hne : py_str_int n <> []) by (rewrite Ed; apply digit_codes_nonnil; exact Hd).
  assert (Hds : Forall (fun c => ascii_digit c = true) (py_str_int n))
    by (rewrite Ed; apply digit_codes_ascii).
  unfold _exact_search. cbv zeta.
  rewrite (findall_un_tagged _ Hne Hds).
  assert (Hq : query_by_un_number (mysql_handler self) (py_int rt (py_str_int n))
               = Ok (filter (fun c => un_number c =? n) rows)).
  { rewrite (py_int_str_int rt n Hrt Hn), Hstore.
    unfold query_by_un_number. simpl.
    destruct (filter (fun c => un_number c =? n) rows); reflexivity. }
  unfold un_hits. cbn [for_each]. rewrite Hq. cbn [bind app].
  destruct (filter (fun c => un_number c =? n) rows) as [|c found] eqn:Ef;
    [congruence|].
  cbn [map try_except]. rewrite <- py_slice_to_map. reflexivity.
Qed.

Lemma auto_search_identifier (query : pystr) (top_k : Z) :
  search_un rt None query = true ->
  _auto_search rt self query top_k = _exact_search rt self query top_k.
Proof.
  intros Hun. unfold _auto_search, _detect_query_type. rewrite Hun.
  cbv zeta. change (pystr_eqb (py "un_number") (py "un_number")) with true. cbv iota.
  destruct (exact_search_returns rt self query top_k) as (hits & ->). reflexivity.
Qed.

Lemma filter_all {A} (f : A -> bool) (xs : list A) :
  Forall (fun x => f x = true) xs -> filter f xs = xs.
Proof.
  induction 1 as [|x l Hx _ IH]; [reflexivity|]. simpl. rewrite Hx, IH. reflexivity.
Qed.

Lemma filter_none {A} (f : A -> bool) (xs : list A) :
  Forall (fun x => f x = false) xs -> filter f xs = [].
Proof.
  induction 1 as [|x l Hx _ IH]; [reflexivity|]. simpl. rewrite Hx, IH. reflexivity.
Qed.

(** X11.  Over a table holding [rows], the query [UN<n>] with the default
    strategy finds exactly the rows numbered [n]: when there is one at
    least and [top_k] is positive, [retrieve] returns the first [top_k] of
    them in table order, every packaging variant as a hit of its own with
    score 1, counts them in [total_chemicals], and does not run the
    fallback search. *)
Theorem retrieve_by_identifier (n top_k : Z) :
  0 <= n ->
  0 < top_k ->
  filter (fun c => un_number c =? n) rows <> [] ->
  _exact_search rt self (py "UN" ++ py_str_int n) top_k
  = Ok (map (exact_hit rt (py "exact_un") 1)
            (py_slice_to top_k (filter (fun c => un_number c =? n) rows)))
  /\ _auto_search rt self (py "UN" ++ py_str_int n) top_k
     = _exact_search rt self (py "UN" ++ py_str_int n) top_k
  /\ exists r,
       retrieve rt self (py "UN" ++ py_str_int n) (py "auto") top_k = Ok r
       /\ r_query r = py "UN" ++ py_str_int n
       /\ r_chemical_data r
          = map (exact_hit rt (py "exact_un") 1)
                (py_slice_to top_k (filter (fun c => un_number c =? n) rows))
       /\ r_chemical_data r <> []
       /\ total_chemicals r
          = Some (Z.min top_k
                    (Z.of_nat (length (filter (fun c => un_number c =? n) rows)))).
Proof.
  intros Hn Hk Hfound.
  pose proof (exact_search_identifier n top_k Hn Hfound) as Hex.
  destruct (py_str_int_nonneg n Hn) as (d & Ed & Hd & _).
  assert (Hun : search_un rt None (py "UN" ++ py_str_int n) = true).
  { apply search_un_tagged; rewrite Ed;
      [apply digit_codes_nonnil; exact Hd|apply digit_codes_ascii]. }
  pose proof (auto_search_identifier _ top_k Hun) as Hauto.
  split; [exact Hex|]. split; [exact Hauto|].
  set (query := py "UN" ++ py_str_int n) in *.
  set (found := filter (fun c => un_number c =? n) rows) in *.
  set (hits := map (exact_hit rt (py "exact_un") 1) (py_slice_to top_k found)) in *.
  assert (Hchem : filter (has_doc_type (py "chemical")) hits = hits).
  { apply filter_all. unfold hits. apply Forall_map. apply Forall_forall.
    intros c _. reflexivity. }
  assert (Hregs : filter (has_doc_type (py "regulation")) hits = []).
  { apply filter_none. unfold hits. apply Forall_map. apply Forall_forall.
    intros c _. reflexivity. }
  destruct (find_related_regulations_returns rt self hits query) as (related & Hrel).
  assert (Hne : hits <> []).
  { unfold hits. destruct found as [|c found']; [congruence|].
    destruct (py_slice_to_cons top_k c found' Hk) as (r & ->). discriminate. }
  assert (Hemp : is_empty hits = false) by (destruct hits; [congruence|reflexivity]).
  eexists. split.
  - unfold retrieve, basic_search.
    change (pystr_eqb (py "auto") (py "exact")) with false.
    change (pystr_eqb (py "auto") (py "semantic")) with false.
    change (pystr_eqb (py "auto") (py "hybrid")) with false. cbv iota.
    rewrite Hauto, Hex. cbn [bind].
    unfold _build_structured_result. cbv zeta. rewrite Hchem, Hregs, Hrel. cbn [bind].
    rewrite merge_regulations_eq. cbn [bind try_except r_chemical_data].
    rewrite Hemp. cbn [andb]. reflexivity.
  - cbn [r_query r_chemical_data total_chemicals].
    split; [reflexivity|]. split; [reflexivity|]. split; [exact Hne|].
    f_equal. unfold hits. rewrite length_map. unfold py_slice_to.
    rewrite (proj2 (Z.ltb_ge top_k 0)) by lia. rewrite length_firstn. lia.
Qed.
End Identifier.

Lemma retrieve_by_identifier_witness :
  exists r,
    retrieve cpython sample_retriever (py "UN1133") (py "auto") 3 = Ok r
    /\ r_chemical_data r
       = map (exact_hit cpython (py "exact_un") 1)
             [adhesive_I; adhesive_II; adhesive_III]
    /\ total_chemicals r = Some 3.
Proof.
  destruct (retrieve_by_identifier cpython cpython_reads_ascii sample_retriever
              sample_rows eq_refl 1133 3)
    as (_ & _ & r & Hret & _ & Hchem & _ & Htotal);
    [lia|lia|vm_compute; discriminate|].
  exists r. split; [exact Hret|]. split; [exact Hchem|exact Htotal].
Defined.

(* ------------------------------------------------------------------ *)
(** ** The documents handed to the index *)

Lemma ends_with_char (x : N) (a b : pystr) :
  b <> [] -> Forall (fun c => c <> x) b -> ends_with [x] (a ++ b) = false.
Proof.
  intros Hne Hb. unfold ends_with. rewrite rev_app_distr.
  destruct (rev b) as [|c r] eqn:E.
  - exfalso. apply Hne. rewrite <- (rev_involutive b), E. reflexivity.
  - assert (Hc : In c b) by (apply in_rev; rewrite E; simpl; auto).
    rewrite Forall_forall in Hb. specialize (Hb c Hc).
    simpl. apply N.eqb_neq in Hb. rewrite N.eqb_sym in Hb. rewrite Hb. reflexivity.
Qed.

Lemma py_str_int_no_char (x : N) (n : Z) :
  ascii_digit x = false -> x <> 45%N -> Forall (fun c => c <> x) (py_str_int n).
Proof.
  intros Hx1 Hx2. eapply Forall_impl; [|apply (proj2 (py_str_int_chars n))].
  intros c [Hc | ->]; [|congruence]. intros ->. congruence.
Qed.

Lemma starts_with_app (p s : pystr) : starts_with p (p ++ s) = true.
Proof. apply starts_with_spec. eauto. Qed.

Lemma py_join_head (sep p : pystr) (rest : list pystr) :
  exists tail, py_join sep (p :: rest) = p ++ tail.
Proof.
  destruct rest as [|q rest]; simpl; [exists []; rewrite app_nil_r; reflexivity|].
  eauto.
Qed.

(** A row with a UN number always gives a document, which starts with the
    number. *)
Lemma create_chemical_document_numbered (chemical_record : Chemical) :
  un_number chemical_record <> 0 ->
  exists tail,
    create_chemical_document chemical_record
    = (py "联合国编号：UN" ++ py_str_int (un_number chemical_record)) ++ tail.
Proof.
  intros Hun. unfold create_chemical_document. cbv zeta.
  rewrite (proj2 (Z.eqb_neq _ _) Hun). cbn [negb app filter].
  assert (Hkeep : negb (is_empty (py "联合国编号：UN"
                                  ++ py_str_int (un_number chemical_record)))
                  && negb (ends_with (py "：")
                             (py "联合国编号：UN"
                              ++ py_str_int (un_number chemical_record))) = true).
  { change (py "：") with [65306%N].
    rewrite ends_with_char;
      [reflexivity|apply (proj1 (py_str_int_chars _))
       |apply py_str_int_no_char; [reflexivity|discriminate]]. }
  rewrite Hkeep. apply py_join_head.
Qed.

(** X12.  [import_mysql_data] hands every row with a non-zero UN number
    to the index: one document per row, in table order, each starting
    with the label and the number, each under the id [chemical_<un>]. *)
Theorem mysql_batch_covers_numbered_rows (chemicals : list Chemical) :
  Forall (fun c => un_number c <> 0) chemicals ->
  mysql_batch chemicals
  = map (fun c => (create_chemical_document c, mysql_metadata c)) chemicals
  /\ map (fun d => md_id (snd d)) (mysql_batch chemicals)
     = map (fun c => Some (py "chemical_" ++ py_str_int (un_number c))) chemicals
  /\ Forall (fun c =>
               starts_with (py "联合国编号：UN" ++ py_str_int (un_number c))
                           (create_chemical_document c) = true)
            chemicals.
Proof.
  intros H.
  assert (E : mysql_batch chemicals
              = map (fun c => (create_chemical_document c, mysql_metadata c)) chemicals).
  { induction H as [|c l Hc _ IH]; [reflexivity|].
    unfold mysql_batch in *. cbn [flat_map map]. rewrite IH.
    destruct (create_chemical_document_numbered c Hc) as (tail & Ed).
    destruct (create_chemical_document c) as [|x doc] eqn:Edoc; [|reflexivity].
    exfalso. symmetry in Ed. apply app_eq_nil in Ed. destruct Ed as (Ed & _).
    apply app_eq_nil in Ed. destruct Ed as (Ed & _). discriminate Ed. }
  split; [exact E|]. split.
  - rewrite E, map_map. reflexivity.
  - eapply Forall_impl; [|exact H]. intros c Hc.
    destruct (create_chemical_document_numbered c Hc) as (tail & ->).
    apply starts_with_app.
Qed.

Lemma mysql_batch_covers_numbered_rows_witness :
  map (fun d => md_id (snd d)) (mysql_batch sample_rows)
  = map (fun c => Some (py "chemical_" ++ py_str_int (un_number c))) sample_rows.
Proof.
  refine (proj1 (proj2 (mysql_batch_covers_numbered_rows sample_rows _))).
  repeat constructor; discriminate.
Defined.

Lemma split_at_unique (x : N) (a : pystr) :
  forall a' b b',
    ~ In x a -> ~ In x a' -> a ++ x :: b = a' ++ x :: b' -> a = a' /\ b = b'.
Proof.
  induction a as [|c a IH]; intros [|c' a'] b b' Ha Ha' E; simpl in *.
  - injection E as E. auto.
  - injection E as E _. exfalso. apply Ha'. auto.
  - injection E as E _. exfalso. apply Ha. auto.
  - injection E as -> E. destruct (IH a' b b') as (-> & ->); auto.
Qed.

(** The id of a chunk determines its section and its number. *)
Lemma section_chunk_text_inj (i j i' j' : Z) :
  py_str_int i ++ 95%N :: py_str_int j = py_str_int i' ++ 95%N :: py_str_int j' ->
  i = i' /\ j = j'.
Proof.
  intros E.
  assert (Hno : forall n, ~ In 95%N (py_str_int n)).
  { intros n Hin.
    pose proof (py_str_int_no_char 95%N n eq_refl ltac:(discriminate)) as Hf.
    rewrite Forall_forall in Hf. apply (Hf _ Hin). reflexivity. }
  apply split_at_unique in E; [|apply Hno..].
  destruct E as (Ei & Ej). split; apply py_str_int_inj; assumption.
Qed.

Lemma corpus_id_inj (i j i' j' : Z) :
  py "appendix_" ++ py_str_int i ++ py "_" ++ py_str_int j
  = py "appendix_" ++ py_str_int i' ++ py "_" ++ py_str_int j' ->
  i = i' /\ j = j'.
Proof.
  intros E. apply app_inv_head in E. apply section_chunk_text_inj. exact E.
Qed.

(** A list whose images under [key] are distinct has distinct images under
    any function that is at least as fine as [key] on the list. *)
Lemma NoDup_map_finer {A B C} (key : A -> C) (id : A -> B) (l : list A) :
  NoDup (map key l) ->
  (forall a b, In a l -> In b l -> id a = id b -> key a = key b) ->
  NoDup (map id l).
Proof.
  induction l as [|a l IH]; simpl; intros Hnd Hfine; [constructor|].
  inversion Hnd as [|? ? Ha Hnd']; subst. constructor.
  - intros Hin. apply in_map_iff in Hin. destruct Hin as (b & E & Hb).
    apply Ha. apply in_map_iff. exists b. split; [|exact Hb].
    apply Hfine; auto.
  - apply IH; auto.
Qed.

Section Chunks.
Variable rt : Runtime.
Variable chunks : pystr -> list pystr.

Lemma section_chunks_kept (i : Z) (cs : list pystr) :
  forall lo,
    NoDup (map section_chunk
             (flat_map
                (fun '(j, chunk) =>
                   if 50 <? Z.of_nat (length (py_strip rt chunk))
                   then [(py_strip rt chunk, regulation_metadata i j)]
                   else [])
                (enumerate lo cs)))
    /\ Forall (kept_chunk rt i lo)
         (flat_map
            (fun '(j, chunk) =>
               if 50 <? Z.of_nat (length (py_strip rt chunk))
               then [(py_strip rt chunk, regulation_metadata i j)]
               else [])
            (enumerate lo cs)).
Proof.
  induction cs as [|c cs IH]; intros lo; [split; constructor|].
  cbn [enumerate flat_map]. destruct (IH (lo + 1)) as (Hnd & Hall).
  assert (Hall' : Forall (kept_chunk rt i lo)
                    (flat_map
                       (fun '(j, chunk) =>
                          if 50 <? Z.of_nat (length (py_strip rt chunk))
                          then [(py_strip rt chunk, regulation_metadata i j)]
                          else [])
                       (enumerate (lo + 1) cs))).
  { eapply Forall_impl; [|exact Hall].
    intros d (H1 & H2 & j & Hj & Hd). split; [exact H1|]. split; [exact H2|].
    exists j. split; [lia|exact Hd]. }
  destruct (50 <? Z.of_nat (length (py_strip rt c))) eqn:E; [|split; assumption].
  cbn [app map]. split.
  - constructor; [|exact Hnd]. intros Hin. apply in_map_iff in Hin.
    destruct Hin as (d & Ed & Hd). rewrite Forall_forall in Hall.
    destruct (Hall d Hd) as (_ & _ & j & Hj & Hmd).
    unfold section_chunk in Ed. rewrite Hmd in Ed. simpl in Ed.
    injection Ed as Ed. lia.
  - constructor; [|exact Hall'].
    split; [apply Z.ltb_lt; exact E|]. split; [apply py_strip_stripped|].
    exists lo. split; [lia|reflexivity].
Qed.

Lemma process_markdown_content_kept (sections : list pystr) :
  forall lo,
    NoDup (map section_chunk
             (flat_map
                (fun '(i, section) =>
                   match py_strip rt section with
                   | [] => []
                   | _ =>
                     flat_map
                       (fun '(j, chunk) =>
                          if 50 <? Z.of_nat (length (py_strip rt chunk))
                          then [(py_strip rt chunk, regulation_metadata i j)]
                          else [])
                       (enumerate 0 (chunks section))
                   end)
                (enumerate lo sections)))
    /\ Forall (fun d => exists i, lo <= i < lo + Z.of_nat (length sections)
                                  /\ kept_chunk rt i 0 d)
         (flat_map
            (fun '(i, section) =>
               match py_strip rt section with
               | [] => []
               | _ =>
                 flat_map
                   (fun '(j, chunk) =>
                      if 50 <? Z.of_nat (length (py_strip rt chunk))
                      then [(py_strip rt chunk, regulation_metadata i j)]
                      else [])
                   (enumerate 0 (chunks section))
               end)
            (enumerate lo sections)).
Proof.
  induction sections as [|s sections IH]; intros lo; [split; constructor|].
  cbn [enumerate flat_map]. destruct (IH (lo + 1)) as (Hnd & Hall).
  set (rest := flat_map _ (enumerate (lo + 1) sections)) in *.
  assert (Hall' : Forall (fun d => exists i,
                              lo <= i < lo + Z.of_nat (length (s :: sections))
                              /\ kept_chunk rt i 0 d) rest).
  { eapply Forall_impl; [|exact Hall]. intros d (i & Hi & Hd).
    exists i. split; [cbn [length]; lia|exact Hd]. }
  destruct (py_strip rt s) as [|x stripped_section]; [split; assumption|].
  destruct (section_chunks_kept lo (chunks s) 0) as (Hnd0 & Hall0).
  set (here := flat_map _ (enumerate 0 (chunks s))) in *.
  rewrite map_app. split.
  - apply NoDup_app; [exact Hnd0|exact Hnd|].
    intros p H1 H2. apply in_map_iff in H1, H2.
    destruct H1 as (d1 & E1 & Hd1), H2 as (d2 & E2 & Hd2).
    rewrite Forall_forall in Hall0, Hall.
    destruct (Hall0 d1 Hd1) as (_ & _ & j1 & _ & Hm1).
    destruct (Hall d2 Hd2) as (i2 & Hi2 & _ & _ & j2 & _ & Hm2).
    unfold section_chunk in E1, E2. rewrite Hm1 in E1. rewrite Hm2 in E2.
    simpl in E1, E2. rewrite <- E2 in E1. injection E1 as E1 _. lia.
  - apply Forall_app. split; [|exact Hall'].
    eapply Forall_impl; [|exact Hall0]. intros d Hd.
    exists lo. split; [cbn [length]; lia|exact Hd].
Qed.

(** X13.  Within one import of the regulation corpus no two chunks get
    the same id: the id [appendix_<i>_<j>] determines the section [i] and
    the chunk number [j].  Every chunk indexed has more than fifty
    characters, no white space at either end, and the metadata of the
    corpus with its section among those of the text. *)
Theorem markdown_batch_ids_distinct (sections : list pystr) :
  NoDup (map (fun d => md_id (snd d))
             (markdown_batch (process_markdown_content rt chunks sections)))
  /\ Forall (fun d =>
               50 < Z.of_nat (length (fst d))
               /\ stripped rt (fst d)
               /\ exists i j,
                    0 <= i < Z.of_nat (length sections) /\ 0 <= j
                    /\ snd d = corpus_metadata i j)
            (markdown_batch (process_markdown_content rt chunks sections)).
Proof.
  destruct (process_markdown_content_kept sections 0) as (Hnd & Hall).
  fold (process_markdown_content rt chunks sections) in Hnd, Hall.
  set (docs := process_markdown_content rt chunks sections) in *.
  rewrite Forall_forall in Hall.
  split.
  - unfold markdown_batch. rewrite map_map.
    apply (NoDup_map_finer section_chunk); [exact Hnd|].
    intros [c1 m1] [c2 m2] H1 H2 E.
    destruct (Hall _ H1) as (i1 & _ & _ & _ & j1 & _ & E1).
    destruct (Hall _ H2) as (i2 & _ & _ & _ & j2 & _ & E2).
    simpl in E1, E2. subst m1 m2. unfold section_chunk.
    change (Some (markdown_id (regulation_metadata i1 j1))
            = Some (markdown_id (regulation_metadata i2 j2))) in E.
    injection E as E.
    destruct (section_chunk_text_inj i1 j1 i2 j2 E) as (-> & ->). reflexivity.
  - apply Forall_forall. intros d Hd. unfold markdown_batch in Hd.
    apply in_map_iff in Hd. destruct Hd as ([c m] & <- & Hin).
    destruct (Hall _ Hin) as (i & Hi & H50 & Hs & j & Hj & Em).
    simpl in *. subst m.
    split; [exact H50|]. split; [exact Hs|].
    exists i, j. split; [lia|]. split; [exact Hj|reflexivity].
Qed.
End Chunks.

(* ------------------------------------------------------------------ *)
(** ** The index: adding, searching, counting, resetting *)

(** X14.  What a call of [_add_documents_batch] does to the handler.  On
    success the documents and the metadata grow by the batch, in order,
    and an index exists; the first batch fits the vectorizer, a later one
    leaves it as it is.  When the call raises, either nothing was stored,
    or everything was and only saving failed.  Documents and metadata
    that went by pairs before still do afterwards. *)
Theorem add_documents_batch_effect (ix : Indexer) (vh : VectorHandler)
  (batch : list (pystr * Metadata)) :
  retrieval_top_k (fst (_add_documents_batch ix vh batch)) = retrieval_top_k vh
  /\ (aligned vh -> aligned (fst (_add_documents_batch ix vh batch)))
  /\ (snd (_add_documents_batch ix vh batch) = Ok tt ->
      documents (fst (_add_documents_batch ix vh batch))
      = documents vh ++ map fst batch
      /\ vh_metadata (fst (_add_documents_batch ix vh batch))
         = vh_metadata vh ++ map snd batch
      /\ index (fst (_add_documents_batch ix vh batch)) <> None
      /\ (index vh = None ->
          exists tr vectors,
            sk_fit_transform ix (map fst batch) = Ok (tr, vectors)
            /\ vectorizer (fst (_add_documents_batch ix vh batch))
               = {| is_fitted := true; sk_transform := tr |})
      /\ (index vh <> None ->
          vectorizer (fst (_add_documents_batch ix vh batch)) = vectorizer vh))
  /\ (forall e, snd (_add_documents_batch ix vh batch) = Raise e ->
      (documents (fst (_add_documents_batch ix vh batch)) = documents vh
       /\ vh_metadata (fst (_add_documents_batch ix vh batch)) = vh_metadata vh)
      \/ (save_index ix (fst (_add_documents_batch ix vh batch)) = Raise e
          /\ documents (fst (_add_documents_batch ix vh batch))
             = documents vh ++ map fst batch
          /\ vh_metadata (fst (_add_documents_batch ix vh batch))
             = vh_metadata vh ++ map snd batch)).
Proof.
  unfold _add_documents_batch, aligned. cbv zeta.
  destruct (index vh) as [i|] eqn:Ei.
  - destruct (transform (vectorizer vh) (map fst batch)) as [vectors|e] eqn:Et;
      cbn [fst snd].
    + destruct (index_add ix i vectors) as [i'|e] eqn:Ea; cbn [fst snd].
      * cbn [documents vh_metadata index vectorizer retrieval_top_k].
        split; [reflexivity|]. split.
        { intros H. rewrite !length_app, !length_map. lia. }
        split.
        { intros _. split; [reflexivity|]. split; [reflexivity|].
          split; [discriminate|]. split; [discriminate|reflexivity]. }
        intros e He. right. auto.
      * cbn [documents vh_metadata index vectorizer retrieval_top_k].
        split; [reflexivity|]. split; [auto|]. split; [discriminate|].
        intros e' _. left. auto.
    + split; [reflexivity|]. split; [auto|]. split; [discriminate|].
      intros e' _. left. auto.
  - destruct (sk_fit_transform ix (map fst batch)) as [[tr vectors]|e] eqn:Ef;
      cbn [fst snd].
    + destruct (flat_ip ix vectors) as [i|e] eqn:Ei'; cbn [fst snd].
      * destruct (index_add ix i vectors) as [i'|e] eqn:Ea; cbn [fst snd].
        -- cbn [documents vh_metadata index vectorizer retrieval_top_k].
           split; [reflexivity|]. split.
           { intros H. rewrite !length_app, !length_map. lia. }
           split.
           { intros _. split; [reflexivity|]. split; [reflexivity|].
             split; [discriminate|]. split; [eauto|congruence]. }
           intros e He. right. auto.
        -- cbn [documents vh_metadata index vectorizer retrieval_top_k].
           split; [reflexivity|]. split; [auto|]. split; [discriminate|].
           intros e' _. left. auto.
      * cbn [documents vh_metadata index vectorizer retrieval_top_k].
        split; [reflexivity|]. split; [auto|]. split; [discriminate|].
        intros e' _. left. auto.
    + split; [reflexivity|]. split; [auto|]. split; [discriminate|].
      intros e' _. left. auto.
Qed.

Lemma add_documents_batch_aligned (ix : Indexer) (vh : VectorHandler)
  (batch : list (pystr * Metadata)) :
  aligned vh -> aligned (fst (_add_documents_batch ix vh batch)).
Proof.
  unfold _add_documents_batch, aligned. cbv zeta. intros H.
  destruct (index vh) as [i|].
  - destruct (transform (vectorizer vh) (map fst batch)) as [vectors|e]; [|exact H].
    destruct (index_add ix i vectors); cbn [fst documents vh_metadata]; [|exact H].
    rewrite !length_app, !length_map. lia.
  - destruct (sk_fit_transform ix (map fst batch)) as [[tr vectors]|e]; [|exact H].
    destruct (flat_ip ix vectors) as [i|e]; [|exact H].
    destruct (index_add ix i vectors); cbn [fst documents vh_metadata]; [|exact H].
    rewrite !length_app, !length_map. lia.
Qed.

Lemma import_batch_aligned (ix : Indexer) (vh : VectorHandler)
  (batch : list (pystr * Metadata)) :
  aligned vh -> aligned (fst (import_batch ix vh batch)).
Proof.
  intros H. unfold import_batch. destruct batch as [|d batch]; [exact H|].
  pose proof (add_documents_batch_aligned ix vh (d :: batch) H) as H'.
  destruct (_add_documents_batch ix vh (d :: batch)) as [vh' [u|e]]; exact H'.
Qed.

Lemma imports_keep_aligned (rt : Runtime) (ix : Indexer) (vh : VectorHandler) :
  aligned vh ->
  (forall chemicals, aligned (fst (import_mysql_data ix vh chemicals)))
  /\ (forall chunks sections,
        aligned (fst (import_markdown_data rt ix vh chunks sections))).
Proof.
  intros H. split.
  - intros chemicals. unfold import_mysql_data.
    destruct chemicals; [exact H|apply import_batch_aligned; exact H].
  - intros chunks sections. unfold import_markdown_data.
    destruct (process_markdown_content rt chunks sections);
      [exact H|apply import_batch_aligned; exact H].
Qed.

Lemma Qlt_bool_le (a b : Q) : Qlt_bool a b = true -> Qle_bool a b = true.
Proof.
  intros H. apply Qle_bool_iff. apply Qlt_le_weak. apply Qlt_bool_true. exact H.
Qed.

Section AlignedSearch.
Variable vh : VectorHandler.
Hypothesis Haligned : aligned vh.

Lemma format_result_aligned (acc : list Hit) (p : Q * Z) :
  (in_range vh p = true ->
   exists h, format_result vh acc p = Ok (acc ++ [h]) /\ result_at vh p h)
  /\ (in_range vh p = false -> format_result vh acc p = Ok acc).
Proof.
  destruct p as [sc idx]. unfold in_range, format_result. cbn [fst snd]. split.
  - intros Hin. rewrite Hin.
    apply andb_true_iff in Hin. destruct Hin as (Hin & Hsc).
    apply andb_true_iff in Hin. destruct Hin as (H0 & H1).
    apply Z.leb_le in H0. apply Z.ltb_lt in H1.
    assert (Hd : (Z.to_nat idx < length (documents vh))%nat) by lia.
    assert (Hm : (Z.to_nat idx < length (vh_metadata vh))%nat)
      by (unfold aligned in Haligned; lia).
    destruct (nth_error (documents vh) (Z.to_nat idx)) as [doc|] eqn:Ed;
      [|apply nth_error_None in Ed; lia].
    destruct (nth_error (vh_metadata vh) (Z.to_nat idx)) as [md|] eqn:Em;
      [|apply nth_error_None in Em; lia].
    rewrite (Qlt_bool_le _ _ Hsc).
    eexists. split; [reflexivity|]. repeat split; assumption.
  - intros Hout. rewrite Hout. reflexivity.
Qed.

Lemma format_results_aligned (found : list (Q * Z)) :
  forall acc, exists raw,
    for_each found acc (format_result vh) = Ok (acc ++ raw)
    /\ Forall2 (result_at vh) (filter (in_range vh) found) raw.
Proof.
  induction found as [|p found IH]; intros acc.
  - exists []. split; [rewrite app_nil_r; reflexivity|constructor].
  - cbn [for_each filter]. destruct (format_result_aligned acc p) as (Hin & Hout).
    destruct (in_range vh p) eqn:E.
    + destruct (Hin eq_refl) as (h & -> & Hh). cbn [bind].
      destruct (IH (acc ++ [h])) as (raw & -> & Hraw).
      exists (h :: raw). split; [rewrite <- app_assoc; reflexivity|].
      constructor; assumption.
    + rewrite (Hout eq_refl). cbn [bind]. apply IH.
Qed.

(** X15.  When the documents and the metadata of the handler go by
    pairs, as the imports leave them, [semantic_search] loses no answer
    of the index: it returns one result for each pair whose position is
    in range and whose score exceeds 0.1, in the order of the index, with
    the document and the metadata stored at that position. *)
Theorem semantic_search_aligned (query : pystr) (top_k : Z) (ix : FaissIndex)
  (query_vector : list Vec) (found : list (Q * Z)) :
  index vh = Some ix ->
  ntotal ix <> 0 ->
  transform (vectorizer vh) [query] = Ok query_vector ->
  index_search ix query_vector (Z.min top_k (ntotal ix)) = Ok found ->
  exists raw,
    semantic_search vh query (Some top_k) = Ok raw
    /\ Forall2 (result_at vh) (filter (in_range vh) found) raw
    /\ length raw = length (filter (in_range vh) found).
Proof.
  intros Hix Hn Ht Hs.
  destruct (format_results_aligned found []) as (raw & Hraw & Hall).
  exists raw. split; [|split; [exact Hall|symmetry; eapply Forall2_length; exact Hall]].
  unfold semantic_search. rewrite Hix. rewrite (proj2 (Z.eqb_neq _ _) Hn).
  assert (Hfit : is_fitted (vectorizer vh) = true).
  { unfold transform in Ht. destruct (is_fitted (vectorizer vh)); [reflexivity|].
    discriminate Ht. }
  rewrite Hfit. cbn [negb]. rewrite Ht. cbn [bind]. rewrite Hs. cbn [bind].
  rewrite Hraw. reflexivity.
Qed.
End AlignedSearch.

Lemma semantic_search_aligned_witness :
  exists raw,
    semantic_search sample_store (py "188") (Some 3) = Ok raw
    /\ length raw = 2%nat.
Proof.
  destruct (semantic_search_aligned sample_store eq_refl (py "188") 3 sample_index
              [[1%Q]] [((4 # 5)%Q, 0); ((1 # 2)%Q, 1); ((1 # 20)%Q, 2)])
    as (raw & Hret & _ & Hlen);
    [reflexivity|discriminate|reflexivity|reflexivity|].
  exists raw. split; [exact Hret|exact Hlen].
Defined.

Lemma counter_get_set (k k' : pystr) (v : Z) (d : counter) :
  counter_get k (counter_set k' v d)
  = if pystr_eqb k' k then v else counter_get k d.
Proof.
  induction d as [|[k0 v0] d IH]; simpl.
  - reflexivity.
  - destruct (pystr_eqb k0 k') eqn:E0.
    + apply pystr_eqb_eq in E0. subst k0. simpl.
      destruct (pystr_eqb k' k); reflexivity.
    + simpl. rewrite IH. destruct (pystr_eqb k0 k) eqn:E1; [|reflexivity].
      apply pystr_eqb_eq in E1. subst k0.
      destruct (pystr_eqb k' k) eqn:E2; [|reflexivity].
      apply pystr_eqb_eq in E2. subst k'. rewrite pystr_eqb_refl in E0. discriminate.
Qed.

Lemma counter_total_set (k : pystr) (v : Z) (d : counter) :
  counter_total (counter_set k v d) = counter_total d - counter_get k d + v.
Proof.
  unfold counter_total. induction d as [|[k0 v0] d IH]; simpl; [lia|].
  destruct (pystr_eqb k0 k); simpl; [lia|]. rewrite IH. lia.
Qed.

Lemma counter_total_tally (k : pystr) (d : counter) :
  counter_total (tally d k) = counter_total d + 1.
Proof. unfold tally. rewrite counter_total_set. lia. Qed.

Lemma counter_get_tally (k k' : pystr) (d : counter) :
  counter_get k (tally d k')
  = counter_get k d + (if pystr_eqb k' k then 1 else 0).
Proof.
  unfold tally. rewrite counter_get_set. destruct (pystr_eqb k' k) eqn:E; [|lia].
  apply pystr_eqb_eq in E. subst. reflexivity.
Qed.

Lemma count_where_cons {A} (f : A -> bool) (x : A) (xs : list A) :
  count_where f (x :: xs) = (if f x then 1 else 0) + count_where f xs.
Proof. unfold count_where. cbn [filter]. destruct (f x); cbn [length]; lia. Qed.

Lemma count_where_app {A} (f : A -> bool) (xs ys : list A) :
  count_where f (xs ++ ys) = count_where f xs + count_where f ys.
Proof. unfold count_where. rewrite filter_app, length_app. lia. Qed.

Lemma counted_spec (mds : list Metadata) :
  forall (dt src : counter),
    let counted :=
      fold_left
        (fun '(doc_types, sources) metadata =>
           (tally doc_types (or_unknown (doc_type metadata)),
            tally sources (or_unknown (source metadata))))
        mds (dt, src) in
    (forall t, counter_get t (fst counted)
               = counter_get t dt
                 + count_where (fun md => pystr_eqb (or_unknown (doc_type md)) t) mds)
    /\ (forall s, counter_get s (snd counted)
                  = counter_get s src
                    + count_where (fun md => pystr_eqb (or_unknown (source md)) s) mds)
    /\ counter_total (fst counted) = counter_total dt + Z.of_nat (length mds)
    /\ counter_total (snd counted) = counter_total src + Z.of_nat (length mds).
Proof.
  induction mds as [|md mds IH]; intros dt src; cbn [fold_left].
  - unfold count_where. simpl. repeat split; intros; lia.
  - specialize (IH (tally dt (or_unknown (doc_type md)))
                   (tally src (or_unknown (source md)))).
    cbv zeta in IH. destruct IH as (H1 & H2 & H3 & H4). cbv zeta.
    split; [|split; [|split]].
    + intros t. rewrite H1, counter_get_tally, count_where_cons. lia.
    + intros s. rewrite H2, counter_get_tally, count_where_cons. lia.
    + rewrite H3, counter_total_tally. cbn [length]. lia.
    + rewrite H4, counter_total_tally. cbn [length]. lia.
Qed.

Lemma collection_stats_counts_aux
  (config_collection_name config_embedding_model : pystr) (vh : VectorHandler) :
  (forall t,
     counter_get t
       (doc_types (get_collection_stats config_collection_name
                     config_embedding_model vh))
     = count_where (fun md => pystr_eqb (or_unknown (doc_type md)) t) (vh_metadata vh))
  /\ (forall s,
        counter_get s
          (sources (get_collection_stats config_collection_name
                      config_embedding_model vh))
        = count_where (fun md => pystr_eqb (or_unknown (source md)) s) (vh_metadata vh))
  /\ total_documents (get_collection_stats config_collection_name
                        config_embedding_model vh)
     = Z.of_nat (length (documents vh)).
Proof.
  pose proof (counted_spec (vh_metadata vh) [] []) as H. cbv zeta in H.
  destruct H as (H1 & H2 & _).
  split; [intros t; exact (H1 t)|]. split; [intros s; exact (H2 s)|reflexivity].
Qed.

(** X16.  [get_collection_stats] counts every metadata entry once under
    its document type and once under its source, an entry without the
    key under [unknown]: the count of a type is the number of entries of
    that type, and the counts of either dictionary add up to the number
    of entries.  [total_documents] is the number of documents and
    [index_size] is 0 without an index. *)
Theorem collection_stats_counts (config_collection_name config_embedding_model : pystr)
  (vh : VectorHandler) :
  (forall t,
     counter_get t
       (doc_types (get_collection_stats config_collection_name
                     config_embedding_model vh))
     = count_where (fun md => pystr_eqb (or_unknown (doc_type md)) t) (vh_metadata vh))
  /\ (forall s,
        counter_get s
          (sources (get_collection_stats config_collection_name
                      config_embedding_model vh))
        = count_where (fun md => pystr_eqb (or_unknown (source md)) s) (vh_metadata vh))
  /\ counter_total
       (doc_types (get_collection_stats config_collection_name
                     config_embedding_model vh))
     = Z.of_nat (length (vh_metadata vh))
  /\ counter_total
       (sources (get_collection_stats config_collection_name
                   config_embedding_model vh))
     = Z.of_nat (length (vh_metadata vh))
  /\ total_documents (get_collection_stats config_collection_name
                        config_embedding_model vh)
     = Z.of_nat (length (documents vh))
  /\ (index vh = None ->
      index_size (get_collection_stats config_collection_name
                    config_embedding_model vh) = 0).
Proof.
  pose proof (counted_spec (vh_metadata vh) [] []) as H. cbv zeta in H.
  destruct H as (H1 & H2 & H3 & H4).
  unfold get_collection_stats. cbv zeta. cbn [doc_types sources total_documents index_size].
  split; [intros t; exact (H1 t)|].
  split; [intros s; exact (H2 s)|].
  split; [exact H3|]. split; [exact H4|].
  split; [reflexivity|]. intros ->. reflexivity.
Qed.

Lemma remove_files_outcome (os_remove : ResetPath -> M unit) (disk : Disk) :
  (forall u, snd (remove_files os_remove disk [IndexPath; MetadataPath; DocumentsPath])
             = Ok u ->
     fst (remove_files os_remove disk [IndexPath; MetadataPath; DocumentsPath])
     = {| index_file := None; metadata_file := None; documents_file := None;
          vectorizer_file := vectorizer_file disk |})
  /\ (forall e, snd (remove_files os_remove disk [IndexPath; MetadataPath; DocumentsPath])
                = Raise e ->
        exists file_path,
          os_remove file_path = Raise e /\ path_present disk file_path = true)
  /\ vectorizer_file
       (fst (remove_files os_remove disk [IndexPath; MetadataPath; DocumentsPath]))
     = vectorizer_file disk.
Proof.
  destruct disk as [[fi|] [fm|] [fd|] fv];
    cbn [remove_files path_present path_exists without index_file metadata_file
         documents_file vectorizer_file];
    destruct (os_remove IndexPath) as [[]|e1] eqn:E1;
    destruct (os_remove MetadataPath) as [[]|e2] eqn:E2;
    destruct (os_remove DocumentsPath) as [[]|e3] eqn:E3;
    cbn [fst snd remove_files path_present path_exists without index_file
         metadata_file documents_file vectorizer_file];
    (split; [intros u Hu; try discriminate Hu; reflexivity|]);
    (split; [|reflexivity]);
    intros e He; try discriminate He; injection He as <-;
    first [exists IndexPath; split; [assumption|reflexivity]
          |exists MetadataPath; split; [assumption|reflexivity]
          |exists DocumentsPath; split; [assumption|reflexivity]].
Qed.

(** X17.  [reset_collection] answers [True] exactly when no removal was
    refused.  The handler is then empty (no index, no documents, no
    metadata) and every search returns nothing; the three files are gone
    from the disk; the vectorizer, in memory and on disk, is the one from
    before the reset.  When a removal is refused the handler is left as
    it was. *)
Theorem reset_collection_outcome (os_remove : ResetPath -> M unit) (disk : Disk)
  (vh : VectorHandler) (disk' : Disk) (vh' : VectorHandler) (ok : bool) :
  reset_collection os_remove disk vh = (disk', vh', ok) ->
  vectorizer vh' = vectorizer vh
  /\ retrieval_top_k vh' = retrieval_top_k vh
  /\ vectorizer_file disk' = vectorizer_file disk
  /\ (ok = true ->
      index vh' = None /\ documents vh' = [] /\ vh_metadata vh' = []
      /\ index_file disk' = None /\ metadata_file disk' = None
      /\ documents_file disk' = None
      /\ forall query top_k, semantic_search vh' query top_k = Ok [])
  /\ (ok = false ->
      vh' = vh
      /\ exists file_path e,
           os_remove file_path = Raise e /\ path_present disk file_path = true).
Proof.
  unfold reset_collection.
  destruct (remove_files_outcome os_remove disk) as (Hok & Hfail & Hvec).
  destruct (remove_files os_remove disk [IndexPath; MetadataPath; DocumentsPath])
    as [d [u|e]]; cbn [fst snd] in *.
  - rewrite (Hok u eq_refl). unfold _load_or_create_index.
    cbn [index_file metadata_file documents_file vectorizer_file].
    intros H. injection H as <- <- <-.
    cbn [vectorizer retrieval_top_k index documents vh_metadata index_file
         metadata_file documents_file vectorizer_file].
    split; [reflexivity|]. split; [reflexivity|]. split; [reflexivity|].
    split; [|discriminate].
    intros _. repeat (split; [reflexivity|]).
    intros query top_k. apply vector_search_untrained. left. reflexivity.
  - intros H. injection H as <- <- <-.
    split; [reflexivity|]. split; [reflexivity|]. split; [exact Hvec|].
    split; [discriminate|]. intros _. split; [reflexivity|].
    destruct (Hfail e eq_refl) as (p & Hp). exists p, e. exact Hp.
Qed.

Lemma reset_collection_outcome_witness :
  index (snd (fst (reset_collection (fun _ => Ok tt) sample_disk sample_store))) = None
  /\ vectorizer (snd (fst (reset_collection (fun _ => Ok tt) sample_disk sample_store)))
     = vectorizer sample_store
  /\ semantic_search
       (snd (fst (reset_collection (fun _ => Ok tt) sample_disk sample_store)))
       (py "188") (Some 3) = Ok [].
Proof.
  destruct (reset_collection_outcome (fun _ => Ok tt) sample_disk sample_store
              _ _ true eq_refl)
    as (Hvec & _ & _ & Hok & _).
  destruct (Hok eq_refl) as (Hix & _ & _ & _ & _ & _ & Hsearch).
  split; [exact Hix|]. split; [exact Hvec|apply Hsearch].
Defined.

(* ------------------------------------------------------------------ *)
(** ** Rebuilding the index *)

Lemma reset_collection_ok (os_remove : ResetPath -> M unit) (disk : Disk)
  (vh : VectorHandler) (disk' : Disk) (vh' : VectorHandler) :
  reset_collection os_remove disk vh = (disk', vh', true) ->
  vh' = {| vectorizer := vectorizer vh; index := None; documents := [];
           vh_metadata := []; retrieval_top_k := retrieval_top_k vh |}.
Proof.
  unfold reset_collection.
  destruct (remove_files_outcome os_remove disk) as (Hok & _ & _).
  destruct (remove_files os_remove disk [IndexPath; MetadataPath; DocumentsPath])
    as [d [u|e]]; cbn [fst snd] in *; [|discriminate].
  rewrite (Hok u eq_refl). unfold _load_or_create_index.
  cbn [index_file metadata_file documents_file vectorizer_file].
  intros H. injection H as _ <-. reflexivity.
Qed.

Lemma add_documents_batch_success (ix : Indexer) (vh vh' : VectorHandler)
  (batch : list (pystr * Metadata)) (u : unit) :
  _add_documents_batch ix vh batch = (vh', Ok u) ->
  documents vh' = documents vh ++ map fst batch
  /\ vh_metadata vh' = vh_metadata vh ++ map snd batch
  /\ (index vh = None ->
      exists tr vectors,
        sk_fit_transform ix (map fst batch) = Ok (tr, vectors)
        /\ vectorizer vh' = {| is_fitted := true; sk_transform := tr |})
  /\ (index vh <> None -> vectorizer vh' = vectorizer vh)
  /\ index vh' <> None.
Proof.
  unfold _add_documents_batch. cbv zeta.
  destruct (index vh) as [i|] eqn:Ei.
  - destruct (transform (vectorizer vh) (map fst batch)) as [vectors|e];
      [|intros H; discriminate H].
    destruct (index_add ix i vectors) as [i'|e]; [|intros H; discriminate H].
    intros H. injection H as <- _. cbn [documents vh_metadata vectorizer index].
    repeat split; try discriminate; congruence.
  - destruct (sk_fit_transform ix (map fst batch)) as [[tr vectors]|e];
      [|intros H; discriminate H].
    destruct (flat_ip ix vectors) as [i|e]; [|intros H; discriminate H].
    destruct (index_add ix i vectors) as [i'|e]; [|intros H; discriminate H].
    intros H. injection H as <- _. cbn [documents vh_metadata vectorizer index].
    repeat split; try discriminate; try congruence. intros _. eauto.
Qed.

Lemma import_batch_success (ix : Indexer) (vh vh' : VectorHandler)
  (batch : list (pystr * Metadata)) :
  batch <> [] ->
  import_batch ix vh batch = (vh', true) ->
  exists u, _add_documents_batch ix vh batch = (vh', Ok u).
Proof.
  intros Hne. unfold import_batch. destruct batch as [|d batch]; [congruence|].
  destruct (_add_documents_batch ix vh (d :: batch)) as [vh1 [u|e]];
    intros H; [|discriminate H].
  injection H as <-. eauto.
Qed.

Lemma count_where_all {A} (f : A -> bool) (xs : list A) :
  Forall (fun x => f x = true) xs -> count_where f xs = Z.of_nat (length xs).
Proof. intros H. unfold count_where. rewrite (filter_all f xs H). reflexivity. Qed.

Lemma count_where_none {A} (f : A -> bool) (xs : list A) :
  Forall (fun x => f x = false) xs -> count_where f xs = 0.
Proof. intros H. unfold count_where. rewrite (filter_none f xs H). reflexivity. Qed.

Lemma markdown_batch_metadata (rt : Runtime) (chunks : pystr -> list pystr)
  (sections : list pystr) :
  Forall (fun md => exists i j, md = corpus_metadata i j)
         (map snd (markdown_batch (process_markdown_content rt chunks sections))).
Proof.
  apply Forall_forall. intros md Hin. apply in_map_iff in Hin.
  destruct Hin as ([c md'] & <- & Hin). unfold markdown_batch in Hin.
  apply in_map_iff in Hin. destruct Hin as ([c0 md0] & E & Hin).
  destruct (process_markdown_content_metadata _ _ _ _ _ Hin) as (i & j & ->).
  injection E as _ <-. exists i, j. reflexivity.
Qed.

(** X18.  The build of the index from scratch: a successful reset, then
    a successful import of a table whose rows all have a UN number, then a
    successful import of the regulation corpus.  The index then holds one
    document per row followed by one per kept chunk; the vectorizer is the
    one fitted on the catalogue documents alone, the corpus having been
    vectorized with it; and the statistics report the rows as [chemical]
    from [mysql] and the chunks as [regulation] from [appendix_a]. *)
Theorem rebuild_index (rt : Runtime) (ix : Indexer) (os_remove : ResetPath -> M unit)
  (disk disk1 : Disk) (vh vh1 vh2 vh3 : VectorHandler)
  (chemicals : list Chemical) (chunks : pystr -> list pystr) (sections : list pystr)
  (config_collection_name config_embedding_model : pystr) :
  reset_collection os_remove disk vh = (disk1, vh1, true) ->
  chemicals <> [] ->
  Forall (fun c => un_number c <> 0) chemicals ->
  import_mysql_data ix vh1 chemicals = (vh2, true) ->
  import_markdown_data rt ix vh2 chunks sections = (vh3, true) ->
  documents vh3
  = map create_chemical_document chemicals
    ++ map fst (process_markdown_content rt chunks sections)
  /\ vh_metadata vh3
     = map mysql_metadata chemicals
       ++ map snd (markdown_batch (process_markdown_content rt chunks sections))
  /\ (exists tr vectors,
        sk_fit_transform ix (map create_chemical_document chemicals) = Ok (tr, vectors)
        /\ vectorizer vh3 = {| is_fitted := true; sk_transform := tr |})
  /\ store_ok vh3
  /\ aligned vh3
  /\ total_documents
       (get_collection_stats config_collection_name config_embedding_model vh3)
     = Z.of_nat (length chemicals)
       + Z.of_nat (length (process_markdown_content rt chunks sections))
  /\ counter_get (py "chemical")
       (doc_types (get_collection_stats config_collection_name
                     config_embedding_model vh3))
     = Z.of_nat (length chemicals)
  /\ counter_get (py "regulation")
       (doc_types (get_collection_stats config_collection_name
                     config_embedding_model vh3))
     = Z.of_nat (length (process_markdown_content rt chunks sections))
  /\ counter_get (py "mysql")
       (sources (get_collection_stats config_collection_name
                   config_embedding_model vh3))
     = Z.of_nat (length chemicals)
  /\ counter_get (py "appendix_a")
       (sources (get_collection_stats config_collection_name
                   config_embedding_model vh3))
     = Z.of_nat (length (process_markdown_content rt chunks sections)).
Proof.
  intros Hreset Hne Hun Hmysql Hmd.
  apply reset_collection_ok in Hreset.
  (* the catalogue *)
  assert (Ebatch : mysql_batch chemicals
                   = map (fun c => (create_chemical_document c, mysql_metadata c))
                         chemicals).
  { clear - Hun. induction Hun as [|c l Hc _ IH]; [reflexivity|].
    unfold mysql_batch in *. cbn [flat_map map]. rewrite IH.
    destruct (create_chemical_document_numbered c Hc) as (tail & Ed).
    destruct (create_chemical_document c) as [|x doc] eqn:Edoc; [|reflexivity].
    exfalso. symmetry in Ed. apply app_eq_nil in Ed. destruct Ed as (Ed & _).
    apply app_eq_nil in Ed. destruct Ed as (Ed & _). discriminate Ed. }
  unfold import_mysql_data in Hmysql.
  destruct chemicals as [|c0 chemicals0] eqn:Echem; [congruence|]. rewrite <- Echem in *.
  apply import_batch_success in Hmysql;
    [|rewrite Ebatch, Echem; discriminate].
  destruct Hmysql as (u2 & Hadd2).
  destruct (add_documents_batch_success _ _ _ _ _ Hadd2)
    as (Hd2 & Hm2 & Hfit2 & _ & Hix2).
  rewrite Hreset in Hd2, Hm2, Hfit2. cbn [documents vh_metadata index app] in Hd2, Hm2, Hfit2.
  destruct (Hfit2 eq_refl) as (tr & vectors & Hfit & Hvz2).
  rewrite Ebatch, map_map in Hd2, Hm2, Hfit. cbn [fst snd] in Hd2, Hm2, Hfit.
  (* the corpus *)
  unfold import_markdown_data in Hmd.
  set (docs := process_markdown_content rt chunks sections) in *.
  destruct docs as [|d0 docs0] eqn:Edocs; [discriminate Hmd|]. rewrite <- Edocs in *.
  apply import_batch_success in Hmd;
    [|rewrite Edocs; discriminate].
  destruct Hmd as (u3 & Hadd3).
  destruct (add_documents_batch_success _ _ _ _ _ Hadd3)
    as (Hd3 & Hm3 & _ & Hvz3 & _).
  assert (Hdocs : map fst (markdown_batch docs) = map fst docs).
  { unfold markdown_batch. rewrite map_map. apply map_ext. intros [c md]. reflexivity. }
  rewrite Hdocs, Hd2 in Hd3. rewrite Hm2 in Hm3.
  pose proof (markdown_batch_metadata rt chunks sections) as Hcorpus.
  fold docs in Hcorpus.
  split; [exact Hd3|]. split; [exact Hm3|].
  split; [exists tr, vectors; split; [exact Hfit|rewrite (Hvz3 Hix2); exact Hvz2]|].
  split.
  { unfold store_ok. rewrite Hm3. apply Forall_app. split.
    - apply Forall_forall. intros md Hin. apply in_map_iff in Hin.
      destruct Hin as (c & <- & _). left. eauto.
    - eapply Forall_impl; [|exact Hcorpus]. intros md (i & j & ->). right. eauto. }
  split.
  { unfold aligned. rewrite Hd3, Hm3, !length_app, !length_map.
    unfold markdown_batch. rewrite length_map. reflexivity. }
  destruct (collection_stats_counts_aux config_collection_name config_embedding_model vh3)
    as (Ht & Hs & Htot).
  assert (Hlen : length (map snd (markdown_batch docs)) = length docs).
  { unfold markdown_batch. rewrite !length_map. reflexivity. }
  split; [rewrite Htot, Hd3, length_app, !length_map; lia|].
  rewrite !Ht, !Hs, Hm3, !count_where_app.
  split; [|split; [|split]].
  - rewrite count_where_all, count_where_none, length_map; [lia| |].
    + eapply Forall_impl; [|exact Hcorpus]. intros md (i & j & ->). reflexivity.
    + apply Forall_forall. intros md Hin. apply in_map_iff in Hin.
      destruct Hin as (c & <- & _). reflexivity.
  - rewrite count_where_none, count_where_all, Hlen; [lia| |].
    + eapply Forall_impl; [|exact Hcorpus]. intros md (i & j & ->). reflexivity.
    + apply Forall_forall. intros md Hin. apply in_map_iff in Hin.
      destruct Hin as (c & <- & _). reflexivity.
  - rewrite count_where_all, count_where_none, length_map; [lia| |].
    + eapply Forall_impl; [|exact Hcorpus]. intros md (i & j & ->). reflexivity.
    + apply Forall_forall. intros md Hin. apply in_map_iff in Hin.
      destruct Hin as (c & <- & _). reflexivity.
  - rewrite count_where_none, count_where_all, Hlen; [lia| |].
    + eapply Forall_impl; [|exact Hcorpus]. intros md (i & j & ->). reflexivity.
    + apply Forall_forall. intros md Hin. apply in_map_iff in Hin.
      destruct Hin as (c & <- & _). reflexivity.
Qed.

Lemma rebuild_index_witness :
  total_documents (get_collection_stats (py "hazmat") (py "tfidf") rebuilt_store) = 6
  /\ counter_get (py "chemical")
       (doc_types (get_collection_stats (py "hazmat") (py "tfidf") rebuilt_store)) = 5
  /\ counter_get (py "regulation")
       (doc_types (get_collection_stats (py "hazmat") (py "tfidf") rebuilt_store)) = 1.
Proof.
  destruct (rebuild_index cpython sample_indexer (fun _ => Ok tt)
              sample_disk
              (fst (fst (reset_collection (fun _ => Ok tt) sample_disk sample_store)))
              sample_store reset_store catalogue_store rebuilt_store
              sample_rows (fun section => [section]) [sample_section]
              (py "hazmat") (py "tfidf"))
    as (_ & _ & _ & _ & _ & Htotal & Hchem & Hreg & _).
  - reflexivity.
  - discriminate.
  - repeat constructor; discriminate.
  - reflexivity.
  - reflexivity.
  - split; [exact Htotal|]. split; [exact Hchem|exact Hreg].
Defined.

(* ------------------------------------------------------------------ *)
(** ** Tokens, keywords and cleaning *)

Lemma stop_word_length (w : pystr) :
  existsb (pystr_eqb w) stop_words = true -> length w = 1%nat.
Proof.
  intros H. apply existsb_pystr_In in H. unfold stop_words in H. simpl in H.
  repeat (destruct H as [<- | H]; [reflexivity|]). contradiction.
Qed.

(** The stop-word test never decides: a token long enough to be kept is
    no stop word. *)
Lemma keep_word_length (rt : Runtime) (word : pystr) :
  keep_word rt word = (1 <? Z.of_nat (length (py_strip rt word))).
Proof.
  unfold keep_word. destruct (1 <? Z.of_nat (length (py_strip rt word))) eqn:E;
    [|reflexivity].
  destruct (existsb (pystr_eqb (py_strip rt word)) stop_words) eqn:Es; [|reflexivity].
  apply stop_word_length in Es. apply Z.ltb_lt in E. lia.
Qed.

Lemma keywords_loop (rt : Runtime) (words : list pystr) :
  forall keywords,
    for_each words keywords
      (fun keywords word =>
         let word := py_strip rt word in
         if (1 <? Z.of_nat (length word))
            && negb (existsb (pystr_eqb word) stop_words)
         then Ok (keywords ++ [word])
         else Ok keywords)
    = Ok (keywords ++ map (py_strip rt) (filter (keep_word rt) words)).
Proof.
  induction words as [|w words IH]; intros keywords; cbn [for_each filter map].
  - rewrite app_nil_r. reflexivity.
  - cbv zeta. fold (keep_word rt w). destruct (keep_word rt w); cbn [bind].
    + rewrite IH. cbn [map]. rewrite <- app_assoc. reflexivity.
    + apply IH.
Qed.

(** X19.  The tokens the vectorizer sees are the tokens of the segmenter
    with the white space at their ends removed, those of two characters
    or more; the list of eight stop words removes nothing, each of them
    being one character long.  [extract_keywords] returns the first ten
    of these tokens, and nothing when the segmenter fails. *)
Theorem tokenizer_and_keywords (rt : Runtime) (jieba_cut : pystr -> M (list pystr))
  (text : pystr) :
  (forall words, jieba_cut text = Ok words ->
     _chinese_tokenizer rt jieba_cut text
     = Ok (filter (fun w => 1 <? Z.of_nat (length w)) (map (py_strip rt) words))
     /\ extract_keywords rt jieba_cut text
        = Ok (firstn 10 (filter (fun w => 1 <? Z.of_nat (length w))
                                (map (py_strip rt) words))))
  /\ (forall e, jieba_cut text = Raise e ->
        _chinese_tokenizer rt jieba_cut text = Raise e
        /\ extract_keywords rt jieba_cut text = Ok [])
  /\ (forall keywords, extract_keywords rt jieba_cut text = Ok keywords ->
        (length keywords <= 10)%nat
        /\ Forall (fun w => (2 <= length w)%nat /\ stripped rt w) keywords).
Proof.
  assert (Hfm : forall words,
             map (py_strip rt) (filter (keep_word rt) words)
             = filter (fun w => 1 <? Z.of_nat (length w)) (map (py_strip rt) words)).
  { induction words as [|w words IH]; [reflexivity|].
    cbn [filter map]. rewrite keep_word_length.
    destruct (1 <? Z.of_nat (length (py_strip rt w))); cbn [map]; rewrite IH; reflexivity. }
  assert (Hkw : forall words, jieba_cut text = Ok words ->
             extract_keywords rt jieba_cut text
             = Ok (firstn 10 (filter (fun w => 1 <? Z.of_nat (length w))
                                     (map (py_strip rt) words)))).
  { intros words Hw. unfold extract_keywords. rewrite Hw. cbn [bind].
    rewrite keywords_loop. cbn [bind app try_except]. rewrite Hfm. reflexivity. }
  split; [|split].
  - intros words Hw. split; [|apply Hkw; exact Hw].
    unfold _chinese_tokenizer. rewrite Hw. cbn [bind]. rewrite Hfm. reflexivity.
  - intros e He. unfold _chinese_tokenizer, extract_keywords. rewrite He.
    split; reflexivity.
  - intros keywords Hk. destruct (jieba_cut text) as [words|e] eqn:Hw.
    + rewrite (Hkw words eq_refl) in Hk.
      assert (E : firstn 10 (filter (fun w => 1 <? Z.of_nat (length w))
                                    (map (py_strip rt) words)) = keywords)
        by congruence.
      clear Hk. subst keywords.
      split; [apply firstn_le_length|].
      apply Forall_forall. intros w Hin. apply In_firstn in Hin.
      apply filter_In in Hin. destruct Hin as (Hin & Hlen).
      apply Z.ltb_lt in Hlen. split; [lia|].
      apply in_map_iff in Hin. destruct Hin as (w0 & <- & _).
      apply py_strip_stripped.
    + unfold extract_keywords in Hk. rewrite Hw in Hk. injection Hk as <-.
      split; [simpl; lia|constructor].
Qed.

Lemma collapse_spaces_chars (rt : Runtime) (text : pystr) :
  forall in_run c,
    In c (collapse_spaces rt in_run text) ->
    c = 32%N \/ (In c text /\ isspace rt c = false).
Proof.
  induction text as [|a text IH]; intros in_run c; cbn [collapse_spaces];
    [intros []|].
  destruct (isspace rt a) eqn:Ea.
  - destruct in_run.
    + intros H. destruct (IH _ _ H) as [-> | (H1 & H2)]; [auto|right; simpl; auto].
    + intros [<- | H]; [auto|].
      destruct (IH _ _ H) as [-> | (H1 & H2)]; [auto|right; simpl; auto].
  - intros [<- | H]; [right; simpl; auto|].
    destruct (IH _ _ H) as [-> | (H1 & H2)]; [auto|right; simpl; auto].
Qed.

(** X20.  [clean_text] maps the empty text to itself.  Its result has no
    white space at either end; every character in it is one the second
    substitution keeps, and is a character of the text unless it is a
    plain space, the only white space left. *)
Theorem clean_text_spec (rt : Runtime) (text : pystr) :
  clean_text rt [] = []
  /\ stripped rt (clean_text rt text)
  /\ (length (clean_text rt text) <= length text)%nat
  /\ Forall (fun c =>
               kept_char rt c = true
               /\ (c = 32%N \/ (In c text /\ isspace rt c = false)))
            (clean_text rt text).
Proof.
  split; [reflexivity|].
  destruct text as [|a text]; [split; [|split]; [split; reflexivity|simpl; lia|constructor]|].
  unfold clean_text.
  set (s := filter (kept_char rt) (collapse_spaces rt false (a :: text))).
  split; [apply py_strip_stripped|]. split.
  - etransitivity; [apply py_strip_length|]. unfold s.
    etransitivity; [apply filter_length_le|].
    assert (H : forall t b, (length (collapse_spaces rt b t) <= length t)%nat).
    { induction t as [|c t IH]; intros b; cbn [collapse_spaces length]; [lia|].
      destruct (isspace rt c); [destruct b|]; cbn [length];
        [specialize (IH true)|specialize (IH true)|specialize (IH false)]; lia. }
    apply H.
  - apply Forall_forall. intros c Hc.
    destruct (py_strip_split rt s) as (pre & post & E & _).
    assert (Hs : In c s) by (rewrite E; apply in_or_app; right; apply in_or_app; auto).
    unfold s in Hs. apply filter_In in Hs. destruct Hs as (Hin & Hk).
    split; [exact Hk|]. apply (collapse_spaces_chars rt _ _ _ Hin).
Qed.

(* ------------------------------------------------------------------ *)
(** ** Chunks *)

Section Chunking.
Variable rt : Runtime.

Lemma stripped_head (t : pystr) :
  stripped rt t -> t <> [] -> exists c r, t = c :: r /\ isspace rt c = false.
Proof.
  intros (H & _) Hne. destruct t as [|c r]; [congruence|].
  exists c, r. split; [reflexivity|]. apply (lstrip_head rt (c :: r) r). exact H.
Qed.

Lemma stripped_rev (t : pystr) : stripped rt t -> stripped rt (rev t).
Proof. intros (H1 & H2). split; [exact H2|rewrite rev_involutive; exact H1]. Qed.

Lemma lstrip_keeps (t b : pystr) :
  stripped rt t -> t <> [] ->
  forall a, exists a', lstrip rt (a ++ t ++ b) = a' ++ t ++ b.
Proof.
  intros Ht Hne. destruct (stripped_head t Ht Hne) as (c & r & -> & Hc).
  induction a as [|x a (a' & IH)].
  - exists []. simpl. rewrite Hc. reflexivity.
  - cbn [app lstrip]. destruct (isspace rt x).
    + exists a'. exact IH.
    + exists (x :: a). reflexivity.
Qed.

(** Stripping a text keeps every stripped text that occurs in it. *)
Lemma py_strip_keeps (t s : pystr) :
  stripped rt t -> t <> [] -> infix t s -> infix t (py_strip rt s).
Proof.
  intros Ht Hne (a & b & ->). unfold py_strip.
  destruct (lstrip_keeps t b Ht Hne a) as (a' & ->).
  assert (Hrev : rev (a' ++ t ++ b) = rev b ++ rev t ++ rev a').
  { rewrite !rev_app_distr, <- app_assoc. reflexivity. }
  rewrite Hrev.
  assert (Hne' : rev t <> []).
  { intros E. apply Hne. rewrite <- (rev_involutive t), E. reflexivity. }
  destruct (lstrip_keeps (rev t) (rev a') (stripped_rev t Ht) Hne' (rev b))
    as (b' & ->).
  exists a', (rev b'). rewrite !rev_app_distr, !rev_involutive, <- app_assoc.
  reflexivity.
Qed.

Lemma not_blank_with (a t b : pystr) :
  stripped rt t -> t <> [] -> py_strip rt (a ++ t ++ b) <> [].
Proof.
  intros Ht Hne E. apply py_strip_nil_iff in E.
  destruct (stripped_head t Ht Hne) as (c & r & -> & Hc).
  rewrite Forall_forall in E. rewrite (E c) in Hc; [discriminate|].
  apply in_or_app. right. simpl. auto.
Qed.

Lemma infix_refl (t : pystr) : infix t t.
Proof. exists [], []. rewrite app_nil_r. reflexivity. Qed.

Lemma infix_app_l (t s a : pystr) : infix t s -> infix t (s ++ a).
Proof.
  intros (x & y & ->). exists x, (y ++ a). rewrite <- !app_assoc. reflexivity.
Qed.

Lemma infix_app_r (t s a : pystr) : infix t s -> infix t (a ++ s).
Proof.
  intros (x & y & ->). exists (a ++ x), y. rewrite <- !app_assoc. reflexivity.
Qed.

Variables max_chunk_size chunk_overlap : Z.

Lemma chunk_step_inv (seen : list pystr) (st : list pystr * pystr) (sentence : pystr) :
  chunk_inv rt seen st ->
  chunk_inv rt (seen ++ [sentence])
    (chunk_step rt max_chunk_size chunk_overlap st sentence).
Proof.
  destruct st as [chunks current]. intros (Hch & Hcur & Hcov). cbn [fst snd] in *.
  unfold chunk_step. cbv zeta.
  pose proof (py_strip_stripped rt sentence) as Hs.
  destruct (py_strip rt sentence) as [|x sentence'] eqn:Es.
  { (* a blank sentence is skipped *)
    cbn [is_empty]. split; [exact Hch|]. split; [exact Hcur|].
    intros s Hin Hne. apply in_app_or in Hin. destruct Hin as [Hin|[<-|[]]].
    - apply Hcov; assumption.
    - congruence. }
  rewrite <- Es in *.
  assert (Hne : py_strip rt sentence <> []) by (rewrite Es; discriminate).
  replace (is_empty (py_strip rt sentence)) with false by (rewrite Es; reflexivity).
  assert (Hold : forall cs cur,
             (forall c, In c chunks -> In c cs) ->
             (current <> [] ->
              (exists c, In c cs /\ infix (py_strip rt current) c)
              \/ (forall t, infix t current -> infix t cur)) ->
             infix (py_strip rt sentence) cur
             \/ (exists c, In c cs /\ infix (py_strip rt sentence) c) ->
             forall s, In s (seen ++ [sentence]) -> py_strip rt s <> [] ->
                       (exists c, In c cs /\ infix (py_strip rt s) c)
                       \/ infix (py_strip rt s) cur).
  { intros cs cur Hcs Hmove Hnew s Hin Hsne.
    apply in_app_or in Hin. destruct Hin as [Hin|[<-|[]]].
    - destruct (Hcov s Hin Hsne) as [(c & Hc & Hi)|Hi].
      + left. exists c. auto.
      + assert (Hcne : current <> []).
        { intros ->. destruct Hi as (a & b & E). symmetry in E.
          apply app_eq_nil in E. destruct E as (_ & E).
          apply app_eq_nil in E. destruct E as (E & _). congruence. }
        destruct (Hmove Hcne) as [(c & Hc & Hic)|Hkeep].
        * left. exists c. split; [exact Hc|].
          destruct Hic as (a & b & ->).
          pose proof (py_strip_keeps _ _ (py_strip_stripped rt s) Hsne Hi) as (a' & b' & ->).
          exists (a ++ a'), (b' ++ b). rewrite <- !app_assoc. reflexivity.
        * right. apply Hkeep. exact Hi.
    - destruct Hnew as [Hi|(c & Hc & Hi)]; [right; exact Hi|left; eauto]. }
  destruct (max_chunk_size
            <? Z.of_nat (length current) + Z.of_nat (length (py_strip rt sentence))).
  - destruct current as [|y current'] eqn:Ecur; cbn [is_empty negb].
    + (* the sentence alone exceeds the size *)
      cbn [fst snd]. split.
      { apply Forall_app. split; [exact Hch|]. constructor; [|constructor]. auto. }
      split; [left; reflexivity|].
      apply Hold.
      * intros c Hc. apply in_or_app. auto.
      * congruence.
      * right. exists (py_strip rt sentence). split; [apply in_or_app; simpl; auto|].
        apply infix_refl.
    + rewrite <- Ecur in *.
      assert (Hcne : py_strip rt current <> []).
      { destruct Hcur as [E|E]; [congruence|exact E]. }
      assert (Hch' : Forall (fun c => c <> [] /\ stripped rt c)
                            (chunks ++ [py_strip rt current])).
      { apply Forall_app. split; [exact Hch|]. constructor; [|constructor].
        split; [exact Hcne|apply py_strip_stripped]. }
      assert (Hmove : forall cur,
                 current <> [] ->
                 (exists c, In c (chunks ++ [py_strip rt current])
                            /\ infix (py_strip rt current) c)
                 \/ (forall t, infix t current -> infix t cur)).
      { intros cur _. left. exists (py_strip rt current).
        split; [apply in_or_app; simpl; auto|apply infix_refl]. }
      destruct (0 <? chunk_overlap); cbn [fst snd].
      * split; [exact Hch'|]. split.
        { right. rewrite <- (app_nil_r (py_strip rt sentence)).
          apply not_blank_with; assumption. }
        apply Hold; [intros c Hc; apply in_or_app; auto|apply Hmove|].
        left. apply infix_app_r. apply infix_refl.
      * split; [exact Hch'|]. split.
        { right. cbn [snd]. rewrite py_strip_idem. exact Hne. }
        apply Hold; [intros c Hc; apply in_or_app; auto|apply Hmove|].
        left. apply infix_refl.
  - cbn [fst snd]. split; [exact Hch|]. split.
    { right. apply not_blank_with; assumption. }
    apply Hold; [auto| |].
    + intros _. right. intros t Ht. apply infix_app_l. exact Ht.
    + left. apply infix_app_r. apply infix_app_l. apply infix_refl.
Qed.

Lemma chunk_fold_inv (sentences : list pystr) :
  forall seen st,
    chunk_inv rt seen st ->
    chunk_inv rt (seen ++ sentences)
      (fold_left (chunk_step rt max_chunk_size chunk_overlap) sentences st).
Proof.
  induction sentences as [|s sentences IH]; intros seen st H; cbn [fold_left].
  - rewrite app_nil_r. exact H.
  - replace (seen ++ s :: sentences) with ((seen ++ [s]) ++ sentences)
      by (rewrite <- app_assoc; reflexivity).
    apply IH. apply chunk_step_inv. exact H.
Qed.

(** The lengths. *)
Lemma chunk_step_bound (longest : Z) (st : list pystr * pystr) (sentence : pystr) :
  Z.of_nat (length (py_strip rt sentence)) <= longest ->
  Forall (fun c => Z.of_nat (length c)
                   <= chunk_bound max_chunk_size chunk_overlap longest) (fst st) ->
  Z.of_nat (length (snd st)) <= chunk_bound max_chunk_size chunk_overlap longest ->
  Forall (fun c => Z.of_nat (length c)
                   <= chunk_bound max_chunk_size chunk_overlap longest)
         (fst (chunk_step rt max_chunk_size chunk_overlap st sentence))
  /\ Z.of_nat (length (snd (chunk_step rt max_chunk_size chunk_overlap st sentence)))
     <= chunk_bound max_chunk_size chunk_overlap longest.
Proof.
  destruct st as [chunks current]. cbn [fst snd]. intros Hs Hch Hcur.
  unfold chunk_step. cbv zeta. unfold chunk_bound in *.
  destruct (is_empty (py_strip rt sentence)); [split; assumption|].
  destruct (max_chunk_size
            <? Z.of_nat (length current) + Z.of_nat (length (py_strip rt sentence)))
    eqn:E.
  - destruct (negb (is_empty current)).
    + assert (Hch' : Forall (fun c => Z.of_nat (length c)
                                      <= Z.max (max_chunk_size + 1)
                                               (Z.max 0 chunk_overlap + longest))
                            (chunks ++ [py_strip rt current])).
      { apply Forall_app. split; [exact Hch|]. constructor; [|constructor].
        pose proof (py_strip_length rt current). lia. }
      destruct (0 <? chunk_overlap) eqn:Eo; cbn [fst snd].
      * split; [exact Hch'|]. rewrite length_app. unfold py_slice_last.
        rewrite length_skipn. apply Z.ltb_lt in Eo. lia.
      * split; [exact Hch'|]. lia.
    + cbn [fst snd]. split; [|simpl; lia].
      apply Forall_app. split; [exact Hch|]. constructor; [|constructor]. lia.
  - cbn [fst snd]. split; [exact Hch|]. apply Z.ltb_ge in E.
    rewrite !length_app. change (length (py "。")) with 1%nat. lia.
Qed.

Lemma chunk_fold_bound (longest : Z) (sentences : list pystr) :
  Forall (fun s => Z.of_nat (length (py_strip rt s)) <= longest) sentences ->
  forall st,
    Forall (fun c => Z.of_nat (length c)
                     <= chunk_bound max_chunk_size chunk_overlap longest) (fst st) ->
    Z.of_nat (length (snd st)) <= chunk_bound max_chunk_size chunk_overlap longest ->
    Forall (fun c => Z.of_nat (length c)
                     <= chunk_bound max_chunk_size chunk_overlap longest)
           (fst (fold_left (chunk_step rt max_chunk_size chunk_overlap) sentences st))
    /\ Z.of_nat (length (snd (fold_left (chunk_step rt max_chunk_size chunk_overlap)
                                        sentences st)))
       <= chunk_bound max_chunk_size chunk_overlap longest.
Proof.
  induction 1 as [|s sentences Hs _ IH]; intros st Hch Hcur; cbn [fold_left];
    [split; assumption|].
  destruct (chunk_step_bound longest st s Hs Hch Hcur) as (H1 & H2).
  apply IH; assumption.
Qed.

Lemma split_on_not_nil (sep : N -> bool) (cur s : pystr) : split_on sep cur s <> [].
Proof.
  revert cur. induction s as [|c r IH]; intros cur; cbn [split_on]; [discriminate|].
  destruct (sep c); [discriminate|apply IH].
Qed.

(** X21.  [_split_text_into_chunks] returns a text no longer than
    [max_chunk_size] as its only chunk.  For a longer text no chunk is
    empty or has white space at its ends, and every sentence of the text
    that is not blank stands, stripped, in some chunk: nothing is lost.
    A chunk can be longer than [max_chunk_size], but never longer than
    the larger of [max_chunk_size + 1] and the overlap plus the longest
    sentence. *)
Theorem split_text_into_chunks_spec (text : pystr) :
  (Z.of_nat (length text) <= max_chunk_size ->
   _split_text_into_chunks rt max_chunk_size chunk_overlap text = [text])
  /\ (max_chunk_size < Z.of_nat (length text) ->
      Forall (fun c => c <> [] /\ stripped rt c)
             (_split_text_into_chunks rt max_chunk_size chunk_overlap text)
      /\ (forall s, In s (split_on sentence_end [] text) -> py_strip rt s <> [] ->
            exists c,
              In c (_split_text_into_chunks rt max_chunk_size chunk_overlap text)
              /\ infix (py_strip rt s) c)
      /\ (forall longest,
            Forall (fun s => Z.of_nat (length (py_strip rt s)) <= longest)
                   (split_on sentence_end [] text) ->
            Forall (fun c => Z.of_nat (length c)
                             <= chunk_bound max_chunk_size chunk_overlap longest)
                   (_split_text_into_chunks rt max_chunk_size chunk_overlap text))).
Proof.
  unfold _split_text_into_chunks. split.
  - intros H. rewrite (proj2 (Z.leb_le _ _) H). reflexivity.
  - intros H. rewrite (proj2 (Z.leb_gt _ _) H). cbv zeta.
    set (sentences := split_on sentence_end [] text).
    assert (Hinit : chunk_inv rt [] ([], [])).
    { split; [constructor|]. split; [left; reflexivity|]. intros s []. }
    pose proof (chunk_fold_inv sentences [] ([], []) Hinit) as Hinv.
    cbn [app] in Hinv.
    assert (Hbound : forall longest,
               Forall (fun s => Z.of_nat (length (py_strip rt s)) <= longest)
                      sentences ->
               Forall (fun c => Z.of_nat (length c)
                                <= chunk_bound max_chunk_size chunk_overlap longest)
                      (fst (fold_left (chunk_step rt max_chunk_size chunk_overlap)
                                      sentences ([], [])))
               /\ Z.of_nat (length (snd (fold_left
                                           (chunk_step rt max_chunk_size chunk_overlap)
                                           sentences ([], []))))
                  <= chunk_bound max_chunk_size chunk_overlap longest).
    { intros longest Hl. apply chunk_fold_bound; [exact Hl|constructor|].
      assert (H0 : 0 <= longest).
      { pose proof (split_on_not_nil sentence_end [] text) as Hne.
        fold sentences in Hne. destruct Hl as [|s0 l Hs0 _]; [congruence|lia]. }
      unfold chunk_bound. cbn [snd length]. lia. }
    destruct (fold_left (chunk_step rt max_chunk_size chunk_overlap) sentences ([], []))
      as [chunks current].
    destruct Hinv as (Hch & Hcur & Hcov). cbn [fst snd] in *.
    destruct (py_strip rt current) as [|x rest] eqn:Ec; cbn [is_empty].
    + assert (Hnil : current = []) by (destruct Hcur as [E|E]; [exact E|congruence]).
      split; [exact Hch|]. split.
      * intros s Hin Hne. destruct (Hcov s Hin Hne) as [Hc|Hi]; [exact Hc|].
        exfalso. rewrite Hnil in Hi. destruct Hi as (a & b & E). symmetry in E.
        apply app_eq_nil in E. destruct E as (_ & E).
        apply app_eq_nil in E. destruct E as (E & _). congruence.
      * intros longest Hl. apply (Hbound longest Hl).
    + rewrite <- Ec in *.
      assert (Hcne : py_strip rt current <> []) by (rewrite Ec; discriminate).
      split.
      { apply Forall_app. split; [exact Hch|]. constructor; [|constructor].
        split; [exact Hcne|apply py_strip_stripped]. }
      split.
      * intros s Hin Hne. destruct (Hcov s Hin Hne) as [(c & Hc & Hi)|Hi].
        -- exists c. split; [apply in_or_app; auto|exact Hi].
        -- exists (py_strip rt current). split; [apply in_or_app; simpl; auto|].
           apply py_strip_keeps; [apply py_strip_stripped|exact Hne|exact Hi].
      * intros longest Hl. destruct (Hbound longest Hl) as (H1 & H2).
        apply Forall_app. split; [exact H1|]. constructor; [|constructor].
        pose proof (py_strip_length rt current). lia.
Qed.
End Chunking.

(* ------------------------------------------------------------------ *)
(** ** Sections *)

Lemma split_before_not_nil (ahead : pystr -> bool) (s : pystr) :
  forall cur, split_before ahead cur s <> [].
Proof.
  induction s as [|c r IH]; intros cur; cbn [split_before]; [discriminate|].
  destruct ((c =? 10)%N && ahead r); [discriminate|apply IH].
Qed.

Lemma py_join_cons (sep p : pystr) (rest : list pystr) :
  rest <> [] -> py_join sep (p :: rest) = p ++ sep ++ py_join sep rest.
Proof. destruct rest; [congruence|reflexivity]. Qed.

Lemma py_join_app (sep : pystr) (l1 l2 : list pystr) :
  l1 <> [] -> l2 <> [] ->
  py_join sep (l1 ++ l2) = py_join sep l1 ++ sep ++ py_join sep l2.
Proof.
  intros H1 H2. induction l1 as [|p l1 IH]; [congruence|].
  destruct l1 as [|q l1].
  - cbn [app]. rewrite py_join_cons by exact H2. reflexivity.
  - cbn [app] in *. rewrite py_join_cons by discriminate.
    rewrite IH by discriminate.
    rewrite (py_join_cons sep p (q :: l1)) by discriminate.
    rewrite <- !app_assoc. reflexivity.
Qed.

(** Joining the pieces with line feeds gives the text back. *)
Lemma split_before_join (ahead : pystr -> bool) (s : pystr) :
  forall cur, py_join [10%N] (split_before ahead cur s) = rev cur ++ s.
Proof.
  induction s as [|c r IH]; intros cur; cbn [split_before].
  - simpl. rewrite app_nil_r. reflexivity.
  - destruct ((c =? 10)%N && ahead r) eqn:E.
    + apply andb_true_iff in E. destruct E as (E & _). apply N.eqb_eq in E. subst c.
      rewrite py_join_cons by apply split_before_not_nil.
      rewrite IH. reflexivity.
    + rewrite IH. cbn [rev]. rewrite <- app_assoc. reflexivity.
Qed.

Lemma split_before_no_newline (ahead : pystr -> bool) (s : pystr) :
  ~ In 10%N s -> forall cur, split_before ahead cur s = [rev cur ++ s].
Proof.
  induction s as [|c r IH]; intros Hn cur; cbn [split_before].
  - rewrite app_nil_r. reflexivity.
  - assert (Hc : (c =? 10)%N = false) by (apply N.eqb_neq; intros ->; apply Hn; simpl; auto).
    rewrite Hc. cbn [andb]. rewrite IH by (intros H; apply Hn; simpl; auto).
    cbn [rev]. rewrite <- app_assoc. reflexivity.
Qed.

Lemma flat_map_join (f : pystr -> list pystr) (pieces : list pystr) :
  (forall p, f p <> [] /\ py_join [10%N] (f p) = p) ->
  pieces <> [] ->
  flat_map f pieces <> []
  /\ py_join [10%N] (flat_map f pieces) = py_join [10%N] pieces.
Proof.
  intros Hf. induction pieces as [|p pieces IH]; [congruence|]. intros _.
  destruct (Hf p) as (Hne & Hj). cbn [flat_map].
  destruct pieces as [|q pieces].
  - cbn [flat_map]. rewrite app_nil_r. split; [exact Hne|exact Hj].
  - destruct IH as (Hne' & Hj'); [discriminate|].
    split.
    + intros E. apply app_eq_nil in E. destruct E as (E & _). contradiction.
    + rewrite py_join_app by assumption. rewrite Hj, Hj'.
      rewrite (py_join_cons [10%N] p (q :: pieces)) by discriminate. reflexivity.
Qed.

(** X22.  [_split_by_sections] cuts the text at line feeds only and
    loses nothing else: the pieces before stripping, joined by line
    feeds, are the text.  No section returned is empty or has white space
    at its ends, so the emptiness test of [process_markdown_content]
    always passes and the section ids are the positions in this list.  A
    text of one line is one section. *)
Theorem split_by_sections_spec (rt : Runtime) (text : pystr) :
  py_join [10%N] (all_sections rt text) = text
  /\ Forall (fun s => s <> [] /\ stripped rt s /\ py_strip rt s <> [])
            (_split_by_sections rt text)
  /\ (forall s, In s (_split_by_sections rt text) ->
        exists piece, In piece (all_sections rt text) /\ s = py_strip rt piece)
  /\ (~ In 10%N text ->
      all_sections rt text = [text]
      /\ _split_by_sections rt text
         = match py_strip rt text with [] => [] | s => [s] end).
Proof.
  split; [|split; [|split]].
  - unfold all_sections.
    destruct (flat_map_join (split_before (heading_ahead rt) [])
                (split_before (digits_then_space rt false) [] text)) as (_ & ->).
    + intros p. split; [apply split_before_not_nil|apply split_before_join].
    + apply split_before_not_nil.
    + apply split_before_join.
  - apply Forall_forall. intros s Hin. unfold _split_by_sections in Hin.
    apply in_map_iff in Hin. destruct Hin as (piece & <- & Hin).
    apply filter_In in Hin. destruct Hin as (_ & Hne).
    assert (H : py_strip rt piece <> []).
    { destruct (py_strip rt piece); [discriminate Hne|discriminate]. }
    split; [exact H|]. split; [apply py_strip_stripped|].
    rewrite py_strip_idem. exact H.
  - intros s Hin. unfold _split_by_sections in Hin.
    apply in_map_iff in Hin. destruct Hin as (piece & <- & Hin).
    apply filter_In in Hin. destruct Hin as (Hin & _). eauto.
  - intros Hn.
    assert (E : all_sections rt text = [text]).
    { unfold all_sections. rewrite (split_before_no_newline _ text Hn).
      cbn [rev app flat_map]. rewrite app_nil_r.
      apply (split_before_no_newline _ text Hn). }
    split; [exact E|]. unfold _split_by_sections. rewrite E. cbn [filter].
    destruct (py_strip rt text) as [|c s] eqn:Es; cbn [is_empty negb map];
      [reflexivity|rewrite Es; reflexivity].
Qed.

(* ------------------------------------------------------------------ *)
(** ** Looking a chemical up by its name *)

Lemma firstn_firstn_same {A} (n : nat) (xs : list A) :
  firstn n (firstn n xs) = firstn n xs.
Proof. rewrite firstn_firstn. rewrite Nat.min_id. reflexivity. Qed.

(** [LIKE '%q%'] for a plain text [q] is containment. *)
Lemma sql_like_percent (p s : pystr) :
  sql_like (37%N :: p) s
  = sql_like p s || match s with [] => false | _ :: s' => sql_like (37%N :: p) s' end.
Proof. destruct s; reflexivity. Qed.

Lemma sql_like_all (s : pystr) : sql_like [37%N] s = true.
Proof.
  induction s as [|c s IH]; [reflexivity|].
  rewrite sql_like_percent. rewrite IH. apply orb_true_r.
Qed.

Lemma sql_like_plain_prefix (q : pystr) :
  plain_text q -> forall s, sql_like (q ++ [37%N]) s = starts_with q s.
Proof.
  induction 1 as [|c q (H1 & H2 & H3) _ IH]; intros s.
  - apply sql_like_all.
  - cbn [app sql_like starts_with].
    rewrite (proj2 (N.eqb_neq c 37) H1), (proj2 (N.eqb_neq c 95) H2),
      (proj2 (N.eqb_neq c 92) H3).
    destruct s as [|x s]; [reflexivity|]. rewrite IH, N.eqb_sym. reflexivity.
Qed.

Lemma sql_like_plain (q : pystr) :
  plain_text q -> forall s, sql_like (py "%" ++ q ++ py "%") s = py_in q s.
Proof.
  intros Hq. change (py "%") with [37%N]. cbn [app].
  induction s as [|c s IH].
  - rewrite sql_like_percent, sql_like_plain_prefix by exact Hq.
    cbn [py_in]. reflexivity.
  - rewrite sql_like_percent, sql_like_plain_prefix by exact Hq.
    cbn [py_in]. rewrite IH. reflexivity.
Qed.

Lemma name_like_plain (query : pystr) (rows : list Chemical) :
  plain_text query ->
  filter (name_like query) rows = filter (name_contains query) rows.
Proof.
  intros Hq. apply filter_ext. intros c. unfold name_like, name_contains.
  destruct (chinese_name c); [apply sql_like_plain; exact Hq|reflexivity].
Qed.

Lemma py_slice_to_twice {A} (k : Z) (xs : list A) :
  0 <= k -> py_slice_to k (py_slice_to k xs) = py_slice_to k xs.
Proof.
  intros Hk. unfold py_slice_to. rewrite (proj2 (Z.ltb_ge k 0)) by lia.
  apply firstn_firstn_same.
Qed.

(** X23.  A query without identifier token is looked up by name.  When
    the store answers the look-up with the rows [found], and there is one
    at least or the query triggers no keyword expansion, the exact search
    returns these rows in the store's order, each with score 0.9, and the
    keyword expansion is not used; the rows are cut to [top_k] twice, which
    for a non-negative [top_k] is the same as once.  Over a table holding
    [rows] the store answers, for a non-negative [top_k], with the first
    [top_k] rows whose name is [LIKE '%query%'], wildcards of the query
    included; for a query without [%], [_] and backslash these are the
    rows whose name contains the query. *)
Theorem exact_search_by_name (rt : Runtime) (self : HybridRetriever)
  (query : pystr) (top_k : Z) (found : list Chemical) :
  findall_un rt query = [] ->
  search_by_name (mysql_handler self) query top_k = Ok found ->
  found <> [] \/ _expand_search_terms rt query = [] ->
  _exact_search rt self query top_k
  = Ok (map (exact_hit rt (py "exact_name") (9 # 10))
            (py_slice_to top_k (py_slice_to top_k found)))
  /\ (0 <= top_k ->
      _exact_search rt self query top_k
      = Ok (map (exact_hit rt (py "exact_name") (9 # 10)) (py_slice_to top_k found)))
  /\ (forall rows,
        mysql_handler self = catalogue rows -> 0 <= top_k ->
        found = firstn (Z.to_nat top_k) (filter (name_like query) rows)
        /\ py_slice_to top_k found = found
        /\ (plain_text query ->
            found = firstn (Z.to_nat top_k) (filter (name_contains query) rows))).
Proof.
  intros Hnone Hdirect Hsome.
  assert (Hret : _exact_search rt self query top_k
                 = Ok (map (exact_hit rt (py "exact_name") (9 # 10))
                           (py_slice_to top_k (py_slice_to top_k found)))).
  { unfold _exact_search. cbv zeta. rewrite Hnone. cbn [bind].
    unfold name_hits. rewrite Hdirect. cbn [bind].
    destruct found as [|c found'].
    - destruct Hsome as [H|H]; [congruence|]. rewrite H. cbn [expand_loop bind].
      rewrite !py_slice_to_nil. cbn [map]. rewrite py_slice_to_nil. reflexivity.
    - cbn [bind try_except]. rewrite py_slice_to_map. reflexivity. }
  split; [exact Hret|]. split.
  - intros Hk. rewrite Hret, py_slice_to_twice by exact Hk. reflexivity.
  - intros rows Hstore Hk.
    assert (E : found = firstn (Z.to_nat top_k) (filter (name_like query) rows)).
    { rewrite Hstore in Hdirect. unfold search_by_name in Hdirect. simpl in Hdirect.
      rewrite (proj2 (Z.ltb_ge top_k 0)) in Hdirect by lia.
      simpl in Hdirect. congruence. }
    split; [exact E|]. split.
    + unfold py_slice_to. rewrite (proj2 (Z.ltb_ge top_k 0)) by lia.
      rewrite E. apply firstn_firstn_same.
    + intros Hq. rewrite E, (name_like_plain query rows Hq). reflexivity.
Qed.

Lemma exact_search_by_name_witness :
  _exact_search cpython sample_retriever (py "黏合剂") 2
  = Ok (map (exact_hit cpython (py "exact_name") (9 # 10)) [adhesive_I; adhesive_II]).
Proof.
  refine (proj1 (exact_search_by_name cpython sample_retriever (py "黏合剂") 2
                   [adhesive_I; adhesive_II] eq_refl eq_refl _)).
  left. discriminate.
Defined.

(* ------------------------------------------------------------------ *)
(** ** The regulations collected by Regulation Association *)

Lemma pystr_eqb_sym (a b : pystr) : pystr_eqb a b = pystr_eqb b a.
Proof.
  unfold pystr_eqb.
  destruct (list_eq_dec N.eq_dec a b), (list_eq_dec N.eq_dec b a); congruence.
Qed.

Lemma option_eqb_sym {A} (eqb : A -> A -> bool) :
  (forall x y, eqb x y = eqb y x) ->
  forall a b, option_eqb eqb a b = option_eqb eqb b a.
Proof. intros H [x|] [y|]; simpl; auto. Qed.

Lemma str_opt_eqb_sym (a b : option pystr) : str_opt_eqb a b = str_opt_eqb b a.
Proof. apply option_eqb_sym. apply pystr_eqb_sym. Qed.

Lemma Qeq_bool_sym (a b : Q) : Qeq_bool a b = Qeq_bool b a.
Proof.
  destruct (Qeq_bool a b) eqn:E1, (Qeq_bool b a) eqn:E2; try reflexivity.
  - apply Qeq_bool_iff in E1. symmetry in E1. apply Qeq_bool_iff in E1. congruence.
  - apply Qeq_bool_iff in E2. symmetry in E2. apply Qeq_bool_iff in E2. congruence.
Qed.

Lemma chemical_eqb_sym (a b : Chemical) : chemical_eqb a b = chemical_eqb b a.
Proof.
  unfold chemical_eqb.
  repeat (apply f_equal2; [|apply str_opt_eqb_sym]).
  apply f_equal2; apply Z.eqb_sym.
Qed.

Lemma metadata_eqb_sym (a b : Metadata) : metadata_eqb a b = metadata_eqb b a.
Proof.
  unfold metadata_eqb.
  apply f_equal2; [|apply option_eqb_sym; apply Z.eqb_sym].
  apply f_equal2; [|apply option_eqb_sym; apply Z.eqb_sym].
  repeat (apply f_equal2; [|apply str_opt_eqb_sym]).
  apply str_opt_eqb_sym.
Qed.

Lemma hit_eqb_sym (a b : Hit) : hit_eqb a b = hit_eqb b a.
Proof.
  unfold hit_eqb.
  apply f_equal2; [|apply option_eqb_sym; apply chemical_eqb_sym].
  apply f_equal2; [|apply str_opt_eqb_sym].
  apply f_equal2; [|apply str_opt_eqb_sym].
  apply f_equal2; [|apply option_eqb_sym; apply Qeq_bool_sym].
  apply f_equal2; [|apply Qeq_bool_sym].
  apply f_equal2; [apply pystr_eqb_sym|apply metadata_eqb_sym].
Qed.

Lemma hit_in_false (x : Hit) (xs : list Hit) :
  hit_in x xs = false <-> forall y, In y xs -> hit_eqb x y = false.
Proof.
  unfold hit_in. induction xs as [|a xs IH]; simpl.
  - split; [intros _ y []|reflexivity].
  - rewrite orb_false_iff, IH. split.
    + intros (H1 & H2) y [<- | Hy]; auto.
    + intros H. split; [apply H; auto|]. intros y Hy. apply H. auto.
Qed.

Lemma distinct_hits_snoc (xs : list Hit) (x : Hit) :
  distinct_hits xs -> hit_in x xs = false -> distinct_hits (xs ++ [x]).
Proof.
  unfold distinct_hits. intros Hd Hx. rewrite hit_in_false in Hx.
  induction Hd as [|a l Ha Hd IH]; simpl.
  - constructor; constructor.
  - constructor.
    + apply Forall_app. split; [exact Ha|]. constructor; [|constructor].
      rewrite hit_eqb_sym. apply Hx. simpl. auto.
    + apply IH. intros y Hy. apply Hx. simpl. auto.
Qed.

Lemma distinct_hits_insert (x : Hit) (l : list Hit) :
  distinct_hits l -> hit_in x l = false -> distinct_hits (insert_by_score x l).
Proof.
  unfold distinct_hits. intros Hd Hx. rewrite hit_in_false in Hx.
  induction Hd as [|a l Ha Hd IH]; simpl.
  - constructor; constructor.
  - destruct (Qlt_bool (score x) (score a)).
    + constructor.
      * apply Forall_forall. intros y Hy.
        apply (Permutation_in _ (Permutation_sym (insert_by_score_perm x l))) in Hy.
        destruct Hy as [<- | Hy].
        -- rewrite hit_eqb_sym. apply Hx. simpl. auto.
        -- rewrite Forall_forall in Ha. apply Ha. exact Hy.
      * apply IH. intros y Hy. apply Hx. simpl. auto.
    + constructor.
      * apply Forall_forall. intros y Hy. apply Hx. exact Hy.
      * constructor; assumption.
Qed.

Lemma distinct_hits_sort (l : list Hit) :
  distinct_hits l -> distinct_hits (sort_by_score l).
Proof.
  unfold distinct_hits. induction 1 as [|a l Ha Hd IH]; simpl; [constructor|].
  apply distinct_hits_insert; [exact IH|].
  apply hit_in_false. intros y Hy. apply (proj1 (sort_by_score_In _ _)) in Hy.
  rewrite Forall_forall in Ha. apply Ha. exact Hy.
Qed.

Lemma distinct_hits_firstn (n : nat) (l : list Hit) :
  distinct_hits l -> distinct_hits (firstn n l).
Proof.
  unfold distinct_hits. intros Hd. revert n.
  induction Hd as [|a l Ha Hd IH]; intros [|n]; simpl; try constructor.
  - apply Forall_forall. intros y Hy. apply In_firstn in Hy.
    rewrite Forall_forall in Ha. apply Ha. exact Hy.
  - apply IH.
Qed.

Lemma accept_regulations_distinct (regulations : list Hit) :
  forall st, distinct_hits (fst st) ->
             distinct_hits (fst (accept_regulations st regulations)).
Proof.
  unfold accept_regulations.
  induction regulations as [|reg regulations IH]; intros [related found] Hd;
    cbn [fold_left]; [exact Hd|].
  apply IH. cbn [fst] in *.
  destruct (from_appendix reg && negb (hit_in reg related)) eqn:E; [|exact Hd].
  cbn [fst]. apply andb_true_iff in E. destruct E as (_ & E).
  apply negb_true_iff in E. apply distinct_hits_snoc; assumption.
Qed.

Section Related.
Variable rt : Runtime.
Variable self : HybridRetriever.

(** X24.  Every regulation [_find_related_regulations] returns is a
    document of the regulation corpus as the index answered it: its
    source is [appendix_a], its similarity exceeds 0.1, its distance is
    one minus its similarity, and its content and metadata are stored in
    the handler.  No two of the dictionaries returned are equal.  (The
    test is on the whole dictionary, score included: one document can
    still come back twice, from two searches that score it differently.) *)
Theorem related_regulations_from_corpus (chemicals : list Hit) (query : pystr)
  (regs : list Hit) :
  _find_related_regulations rt self chemicals query = Ok regs ->
  Forall (fun h =>
            source (metadata h) = Some (py "appendix_a")
            /\ (1 # 10 < score h)%Q
            /\ distance h = Some (1 - score h)%Q
            /\ chemical_data h = None
            /\ In (metadata h) (vh_metadata (vector_handler self))
            /\ In (content h) (documents (vector_handler self)))
         regs
  /\ distinct_hits regs.
Proof.
  intros H. split.
  - pose proof (find_related_regulations_ok rt self chemicals query regs H) as Hok.
    eapply Forall_impl; [|exact Hok].
    intros h ((Hd & Hs & Hc & Hm & Hdoc) & Happ).
    split; [apply str_opt_eqb_Some; exact Happ|]. auto.
  - unfold _find_related_regulations in H.
    destruct (specific_tiers rt (vector_handler self) chemicals) as [st|e] eqn:Est;
      cbn [bind try_except] in H; [|injection H as <-; constructor].
    assert (Hst : distinct_hits (fst st)).
    { unfold specific_tiers in Est.
      apply (for_each_invariant (fun st => distinct_hits (fst st))
               (related_for_chemical rt (vector_handler self)) chemicals ([], false) st);
        [constructor| |exact Est].
      intros s x s1 _ Hs Hx.
      apply (related_for_chemical_keeps rt (vector_handler self)
               (fun st => distinct_hits (fst st))) with (st := s) (chemical := x);
        [|exact Hs|exact Hx].
      intros st0 q k regulations _ Hd. apply accept_regulations_distinct. exact Hd. }
    assert (Hrel : forall related,
               (if negb (snd st)
                then category_tier rt (vector_handler self) chemicals (fst st)
                else Ok (fst st)) = Ok related ->
               distinct_hits related).
    { intros related Hr. destruct (negb (snd st)); [|injection Hr as <-; exact Hst].
      unfold category_tier in Hr.
      apply (for_each_invariant distinct_hits _ _ _ _ Hst) in Hr; [exact Hr|].
      intros s term s1 _ Hs Hb.
      destruct (semantic_search (vector_handler self) term (Some 2)) as [regulations|e];
        cbn [bind] in Hb; [|discriminate Hb].
      injection Hb as <-.
      apply (accept_regulations_distinct regulations (s, false)). exact Hs. }
    destruct (if negb (snd st) then _ else _) as [related|e];
      cbn [bind try_except] in H; injection H as <-; [|constructor].
    destruct (py_slice_to_firstn 3 (sort_by_score related)) as (n & ->).
    apply distinct_hits_firstn. apply distinct_hits_sort. apply Hrel. reflexivity.
Qed.

Lemma semantic_search_no_record (query : pystr) (top_k : Z) (hits : list Hit) :
  _semantic_search self query top_k = Ok hits ->
  Forall (fun h => chemical_data h = None) hits.
Proof.
  unfold _semantic_search. intros H.
  destruct (semantic_search (vector_handler self) query (Some top_k)) as [raw|e];
    cbn [bind try_except] in H; injection H as <-; [|constructor].
  apply Forall_forall. intros h Hin. apply in_flat_map in Hin.
  destruct Hin as (r & _ & Hin). unfold semantic_hit in Hin.
  destruct (Qle_bool _ _); [|contradiction]. destruct Hin as [<- | []]. reflexivity.
Qed.

(** X25.  With the strategy [semantic] Regulation Association adds
    nothing: when the semantic search returns a hit typed [chemical] or
    [regulation], [retrieve] returns the hits typed [chemical] as the
    chemical bucket, and as the regulation bucket the hits typed
    [regulation], one per id, sorted by score; every regulation returned
    is one of the semantic hits. *)
Theorem retrieve_semantic_strategy (query : pystr) (top_k : Z) (hits : list Hit) :
  _semantic_search self query top_k = Ok hits ->
  filter (has_doc_type (py "chemical")) hits <> []
  \/ filter (has_doc_type (py "regulation")) hits <> [] ->
  exists regs,
    _merge_regulations rt (filter (has_doc_type (py "regulation")) hits) [] = Ok regs
    /\ retrieve rt self query (py "semantic") top_k
       = Ok {| r_query := query;
               r_chemical_data := filter (has_doc_type (py "chemical")) hits;
               r_regulations := regs;
               total_chemicals :=
                 Some (Z.of_nat (length (filter (has_doc_type (py "chemical")) hits)));
               total_regulations := Some (Z.of_nat (length regs)) |}
    /\ (forall h, In h regs ->
          In h hits /\ has_doc_type (py "regulation") h = true)
    /\ sorted_desc regs.
Proof.
  intros Hsem Hsome.
  set (chemicals := filter (has_doc_type (py "chemical")) hits) in *.
  set (regulations := filter (has_doc_type (py "regulation")) hits) in *.
  assert (Hrel : _find_related_regulations rt self chemicals query = Ok []).
  { apply no_related_without_record.
    pose proof (semantic_search_no_record _ _ _ Hsem) as Hnone.
    apply Forall_forall. intros h Hin. unfold chemicals in Hin.
    apply filter_In in Hin. rewrite Forall_forall in Hnone. apply Hnone. apply Hin. }
  destruct (merge_regulations_kept rt regulations []) as (kept & Hregs & Hkeys & _).
  exists (sort_by_score kept). split; [exact Hregs|].
  assert (Hin : forall h, In h (sort_by_score kept) ->
                          In h hits /\ has_doc_type (py "regulation") h = true).
  { intros h Hh. apply (merge_regulations_incl rt _ _ _ _ Hregs) in Hh.
    rewrite app_nil_r in Hh. unfold regulations in Hh. apply filter_In in Hh. exact Hh. }
  split; [|split; [exact Hin|apply sort_by_score_sorted]].
  unfold retrieve, basic_search.
  change (pystr_eqb (py "semantic") (py "exact")) with false.
  change (pystr_eqb (py "semantic") (py "semantic")) with true. cbv iota.
  rewrite Hsem. cbn [bind].
  unfold _build_structured_result. cbv zeta. fold chemicals regulations.
  rewrite Hrel. cbn [bind]. rewrite Hregs. cbn [bind try_except r_chemical_data r_regulations].
  assert (Hne : is_empty chemicals && is_empty (sort_by_score kept) = false).
  { destruct Hsome as [Hc|Hr].
    - destruct chemicals; [congruence|reflexivity].
    - destruct chemicals; [|reflexivity]. cbn [is_empty andb].
      destruct (sort_by_score kept) as [|h l] eqn:Es; [|reflexivity].
      exfalso. assert (Hk : kept = []).
      { apply Permutation_nil. rewrite <- Es. symmetry. apply sort_by_score_perm. }
      rewrite Hk in Hkeys. simpl in Hkeys. rewrite app_nil_r in Hkeys.
      destruct regulations as [|r rs]; [congruence|].
      assert (Hr1 : In (document_key rt r) (first_seen (map (document_key rt) (r :: rs)))).
      { apply first_seen_In. simpl. auto. }
      rewrite <- Hkeys in Hr1. contradiction. }
  rewrite Hne. reflexivity.
Qed.
End Related.

Lemma related_regulations_from_corpus_witness :
  exists regs,
    _find_related_regulations cpython rescoring_retriever
      [exact_hit cpython (py "exact_un") 1 cell] (py "UN3090") = Ok regs
    /\ map (fun h => md_id (metadata h)) regs
       = [Some (py "appendix_0_0"); Some (py "appendix_0_0")]
    /\ map score regs = [(4 # 5)%Q; (1 # 2)%Q]
    /\ distinct_hits regs.
Proof.
  destruct (find_related_regulations_returns cpython rescoring_retriever
              [exact_hit cpython (py "exact_un") 1 cell] (py "UN3090"))
    as (regs & Hregs).
  exists regs. split; [exact Hregs|].
  pose proof (proj2 (related_regulations_from_corpus cpython rescoring_retriever
                       _ _ _ Hregs)) as Hd.
  split; [|split; [|exact Hd]];
    vm_compute in Hregs; injection Hregs as <-; reflexivity.
Defined.

Lemma retrieve_semantic_strategy_witness :
  exists r,
    retrieve cpython sample_retriever (py "188") (py "semantic") 3 = Ok r
    /\ r_chemical_data r = []
    /\ total_regulations r = Some 2.
Proof.
  destruct (semantic_search_returns sample_retriever (py "188") 3) as (hits & Hhits).
  destruct (retrieve_semantic_strategy cpython sample_retriever (py "188") 3 hits Hhits)
    as (regs & Hregs & Hret & _).
  - right. vm_compute in Hhits. injection Hhits as <-. vm_compute. discriminate.
  - eexists. split; [exact Hret|].
    vm_compute in Hhits. injection Hhits as <-.
    vm_compute in Hregs. injection Hregs as <-. split; reflexivity.
Defined.
